(** * PowerMem memory service: a shallow embedding of
      [src/server/services/memory_service.py]

    The service is a thin orchestration layer over an external store
    ([powermem.Memory]).  Python values are embedded as the inductive type
    [value]; every method of [MemoryService] becomes a computation in a small
    state-and-exception monad [M] whose state is the store together with the
    trace of the store calls the service has issued.

    Conventions of the embedding:
    - A finite Python [float] is held as the rational it stands for.
      [float()] of an integer, the quotient of two integers and [round()]
      return the nearest binary64 number; sums and quotients of floats are
      taken exactly.
    - Strings are Rocq [string]s, one character per code point below 256.
    - Logging and the metrics collector have no effect on any result and are
      left out; an expression evaluated only to be logged is kept when it can
      raise.
    - The text of interpreter-generated exception messages follows CPython
      3.11; no result depends on it. *)

From Stdlib Require Import ZArith QArith Qround Qabs Lqa String Ascii
  DecimalString List Bool Lia Permutation Sorted.
Import ListNotations.

Local Open Scope string_scope.
Local Open Scope list_scope.
Local Open Scope Z_scope.

Set Warnings "-register-all".

(** ** Python values *)

Inductive value : Type :=
| VNone : value
| VBool : bool -> value
| VInt : Z -> value
| VFloat : Q -> value
| VStr : string -> value
| VList : list value -> value
| VDict : list (value * value) -> value.

(** [bool(v)] *)
Definition truthy (v : value) : bool :=
  match v with
  | VNone => false
  | VBool b => b
  | VInt z => negb (z =? 0)
  | VFloat q => negb (Qeq_bool q 0)
  | VStr s => negb (String.eqb s "")
  | VList l => match l with [] => false | _ => true end
  | VDict d => match d with [] => false | _ => true end
  end.

(** [a or b] *)
Definition py_or (a b : value) : value := if truthy a then a else b.

(** [v is None] *)
Definition is_none (v : value) : bool :=
  match v with VNone => true | _ => false end.

(** [isinstance(v, dict)] *)
Definition is_dict (v : value) : bool :=
  match v with VDict _ => true | _ => false end.

(** [type(v).__name__] *)
Definition type_name (v : value) : string :=
  match v with
  | VNone => "NoneType"
  | VBool _ => "bool"
  | VInt _ => "int"
  | VFloat _ => "float"
  | VStr _ => "str"
  | VList _ => "list"
  | VDict _ => "dict"
  end.

(** The number a [bool], [int] or [float] stands for in arithmetic and in
    comparisons. *)
Definition num_of (v : value) : option Q :=
  match v with
  | VBool b => Some (if b then 1%Q else 0%Q)
  | VInt z => Some (inject_Z z)
  | VFloat q => Some q
  | _ => None
  end.

(** Lists and dicts are not hashable. *)
Definition hashable (v : value) : bool :=
  match v with
  | VList _ | VDict _ => false
  | _ => true
  end.

(** [a == b] on hashable values, as dict and set lookups use it: numbers
    compare by value ([1 == 1.0 == True]). *)
Definition key_eqb (a b : value) : bool :=
  match num_of a, num_of b with
  | Some x, Some y => Qeq_bool x y
  | None, None =>
      match a, b with
      | VNone, VNone => true
      | VStr s, VStr t => String.eqb s t
      | _, _ => false
      end
  | _, _ => false
  end.

(** ** Dicts: insertion-ordered association lists *)

Definition dict := list (value * value).

Fixpoint dict_get (d : dict) (k : value) : option value :=
  match d with
  | [] => None
  | (k', v) :: d' => if key_eqb k' k then Some v else dict_get d' k
  end.

(** [d[k] = v]: an existing key keeps its place, a new one goes last. *)
Fixpoint dict_set (d : dict) (k v : value) : dict :=
  match d with
  | [] => [(k, v)]
  | (k', v') :: d' =>
      if key_eqb k' k then (k', v) :: d' else (k', v') :: dict_set d' k v
  end.

(** [k in d] *)
Definition dict_mem (d : dict) (k : value) : bool :=
  match dict_get d k with Some _ => true | None => false end.

(** [{**a, **b}] *)
Definition dict_merge (a b : dict) : dict :=
  fold_left (fun acc kv => dict_set acc (fst kv) (snd kv)) b a.

(** [d[k] += 1] on a [defaultdict(int)] *)
Definition dict_incr (d : dict) (k : value) : dict :=
  match dict_get d k with
  | Some (VInt n) => dict_set d k (VInt (n + 1))
  | _ => dict_set d k (VInt 1)
  end.

(** ** Strings *)

(** [c.isspace()] for a code point below 256. *)
Definition is_space (c : ascii) : bool :=
  let n := nat_of_ascii c in
  ((9 <=? n) && (n <=? 13) || (28 <=? n) && (n <=? 32)
   || (n =? 133) || (n =? 160))%nat.

Fixpoint lstrip (s : string) : string :=
  match s with
  | String c s' => if is_space c then lstrip s' else s
  | EmptyString => EmptyString
  end.

(** Drops trailing whitespace: a character stays when it is not a space or
    when something is left after it. *)
Fixpoint rstrip (s : string) : string :=
  match s with
  | EmptyString => EmptyString
  | String c s' =>
      match rstrip s' with
      | EmptyString => if is_space c then EmptyString else String c EmptyString
      | r => String c r
      end
  end.

(** [s.strip()] *)
Definition strip (s : string) : string := rstrip (lstrip s).

(** [s[:n]] *)
Fixpoint str_prefix (n : nat) (s : string) : string :=
  match n, s with
  | S n', String c s' => String c (str_prefix n' s')
  | _, _ => EmptyString
  end.

(** The characters of a string, as iteration yields them. *)
Fixpoint str_chars (s : string) : list value :=
  match s with
  | EmptyString => []
  | String c s' => VStr (String c EmptyString) :: str_chars s'
  end.

(** ** Datetimes *)

(** A [datetime]: the microseconds since 0001-01-01T00:00:00 on its own wall
    clock, and its UTC offset in microseconds when it is timezone-aware. *)
Record datetime : Type := mkDatetime {
  wall : Z;
  utcoffset : option Z
}.

(** [datetime.min] *)
Definition datetime_min : datetime := mkDatetime 0 None.

Definition us_per_day : Z := 86400000000.

(** [a >= b]: [None] when one side is naive and the other aware, where
    Python raises [TypeError]. *)
Definition datetime_ge (a b : datetime) : option bool :=
  match utcoffset a, utcoffset b with
  | None, None => Some (wall b <=? wall a)
  | Some oa, Some ob => Some (wall b - ob <=? wall a - oa)
  | _, _ => None
  end.

(** [(a - b).days]: the whole days of the difference, rounded down. *)
Definition datetime_sub_days (a b : datetime) : option Z :=
  match utcoffset a, utcoffset b with
  | None, None => Some ((wall a - wall b) / us_per_day)
  | Some oa, Some ob => Some (((wall a - oa) - (wall b - ob)) / us_per_day)
  | _, _ => None
  end.

(** ** Exceptions and outcomes *)

(** The members of [ErrorCode] the service uses. *)
Inductive ErrorCode : Type :=
| MEMORY_NOT_FOUND
| INTERNAL_ERROR
| MEMORY_CREATE_FAILED
| MEMORY_UPDATE_FAILED
| MEMORY_DELETE_FAILED.

Inductive exc_class : Type :=
| ValueError
| TypeError
| AttributeError
| IndexError
| KeyError
| OtherException (name : string).

(** An exception in flight: the service's [APIError], or any other
    [Exception] with its class and its [str(e)]. *)
Inductive exn : Type :=
| APIError (code : ErrorCode) (message : string) (status_code : Z)
| PyExc (cls : exc_class) (msg : string).

Inductive outcome (A : Type) : Type :=
| Ok (a : A)
| Raise (e : exn).
Arguments Ok {A} a.
Arguments Raise {A} e.

(** The error kinds of the specification (section 7), read off an exception:
    an [APIError] by its code, a [ValueError] as the invalid-argument kind. *)
Inductive error_kind : Type :=
| NotFound
| InvalidArgument
| CreateFailed
| UpdateFailed
| DeleteFailed
| InternalError.

Definition kind_of (e : exn) : error_kind :=
  match e with
  | APIError MEMORY_NOT_FOUND _ _ => NotFound
  | APIError INTERNAL_ERROR _ _ => InternalError
  | APIError MEMORY_CREATE_FAILED _ _ => CreateFailed
  | APIError MEMORY_UPDATE_FAILED _ _ => UpdateFailed
  | APIError MEMORY_DELETE_FAILED _ _ => DeleteFailed
  | PyExc ValueError _ => InvalidArgument
  | PyExc _ _ => InternalError
  end.

(** ** The store

    [powermem.Memory] is an external collaborator.  A call to it is a value
    of [call]; its behaviour is a function from the store's state and a call
    to a result, or an exception, and the next state. *)

Inductive call : Type :=
| Add (messages user_id agent_id run_id metadata filters scope memory_type : value)
      (infer : bool)
| Get (memory_id user_id agent_id : value)
| VectorStoreGet (memory_id : value)
| GetAll (user_id agent_id limit : value) (offset sort_by order : option value)
| Update (memory_id content user_id agent_id metadata : value)
| Delete (memory_id user_id agent_id : value)
| GetStatistics (user_id agent_id : value).

(** What the store hands back: a value, or an exception of its own.  For
    [VectorStoreGet] the value stands for the result object: [VNone] for no
    result, otherwise the object's [payload]. *)
Definition store_result : Type := (value + exc_class * string)%type.

(** Interpreter and library functions the service calls and the model does
    not define. *)
Record Builtins : Type := mkBuiltins {
  repr : value -> string;                      (* [repr(v)]: [str(v)] of a non-string *)
  float_of_str : string -> option Q;           (* [float(s)]; [None]: ValueError *)
  dateutil_parse : string -> option datetime;  (* [parser.parse]; [None]: raises *)
  strftime_ymd : datetime -> string            (* [d.strftime("%Y-%m-%d")] *)
}.

(** ** Floats

    A Python float is an IEEE 754 binary64 number.  A finite one is held as
    the rational it stands for; [binary64 x] is the binary64 number nearest
    to the real [x], a tie going to the even significand, which is what a
    float operation returns for the exact result [x] (below the overflow
    threshold [2^1024]). *)

(** [round(x)] to the nearest integer, a tie to the even one. *)
Definition round_half_even (x : Q) : Z :=
  let f := Qfloor x in
  match ((x - inject_Z f) ?= (1 # 2))%Q with
  | Lt => f
  | Gt => f + 1
  | Eq => if Z.even f then f else f + 1
  end.

(** [2 ** e] *)
Definition pow2 (e : Z) : Q :=
  if 0 <=? e then inject_Z (2 ^ e) else 1 # Z.to_pos (2 ^ (- e)).

(** The binary exponent of [x]: the [e] with [2^e <= |x| < 2^(e+1)], for
    [x] other than 0. *)
Definition exponent_of (x : Q) : Z :=
  let e := Z.log2 (Z.abs (Qnum x)) - Z.log2 (Zpos (Qden x)) in
  if Qle_bool (pow2 e) (Qabs x) then e else e - 1.

(** The gap between the binary64 numbers around [x]: 52 bits below the
    exponent, the exponent being at least -1022. *)
Definition ulp (x : Q) : Q := pow2 (Z.max (exponent_of x) (-1022) - 52).

Definition binary64 (x : Q) : Q :=
  if Qeq_bool x 0 then 0%Q
  else Qred (inject_Z (round_half_even (x / ulp x)) * ulp x).

(** [a / b] on integers, [b] other than 0: the quotient, correctly
    rounded. *)
Definition int_truediv (a b : Z) : Q := binary64 (inject_Z a / inject_Z b).

(** [round(x, ndigits)] on a float, [ndigits] from 0 to 22: the float is
    written out to [ndigits] decimals, its exact value rounded half to even,
    and the decimal read back as a float. *)
Definition py_round (x : Q) (ndigits : Z) : Q :=
  binary64 (inject_Z (round_half_even (x * inject_Z (10 ^ ndigits)))
            / inject_Z (10 ^ ndigits)).

(** [float(z)] of an integer: the nearest float, and no float from
    [2^1024] on. *)
Definition float_of_int (z : Z) : option Q :=
  let q := binary64 (inject_Z z) in
  if Qle_bool (pow2 1024) (Qabs q) then None else Some q.

(** ** The service monad

    A computation runs in a [world]: the store's state and the calls issued
    to the store so far, oldest first.  An exception leaves the world as it
    was when it was raised. *)

Record world (St : Type) : Type := mkWorld {
  store : St;
  calls : list call
}.
Arguments mkWorld {St} store calls.
Arguments store {St} w.
Arguments calls {St} w.

Definition M (St A : Type) : Type := world St -> outcome A * world St.

Definition ret {St A} (a : A) : M St A := fun w => (Ok a, w).

Definition bind {St A B} (c : M St A) (k : A -> M St B) : M St B :=
  fun w =>
    match c w with
    | (Ok a, w') => k a w'
    | (Raise e, w') => (Raise e, w')
    end.

Definition raise {St A} (e : exn) : M St A := fun w => (Raise e, w).

(** A pure operation that may raise. *)
Definition lift {St A} (o : outcome A) : M St A := fun w => (o, w).

(** [try: body / except Exception as e: handler(e)] *)
Definition try_except {St A} (body : M St A) (handler : exn -> M St A) : M St A :=
  fun w =>
    match body w with
    | (Ok a, w') => (Ok a, w')
    | (Raise e, w') => handler e w'
    end.

Declare Scope monad_scope.
Delimit Scope monad_scope with monad.
Notation "x <- c ;; k" := (bind c (fun x => k))
  (at level 100, c at next level, right associativity) : monad_scope.
Notation "c ;;; k" := (bind c (fun _ => k))
  (at level 100, right associativity) : monad_scope.
Local Open Scope monad_scope.

(** [for x in l: acc = body(acc, x)] *)
Fixpoint for_each {St A B} (l : list B) (acc : A) (body : A -> B -> M St A)
  : M St A :=
  match l with
  | [] => ret acc
  | x :: l' => acc' <- body acc x ;; for_each l' acc' body
  end.

(** ** Operations on values that may raise *)

Definition attribute_error {A} (v : value) (name : string) : outcome A :=
  Raise (PyExc AttributeError
           ("'" ++ type_name v ++ "' object has no attribute '" ++ name ++ "'")).

(** [m.get(k, dflt)] *)
Definition py_get (m : value) (k : string) (dflt : value) : outcome value :=
  match m with
  | VDict d =>
      Ok (match dict_get d (VStr k) with Some v => v | None => dflt end)
  | _ => attribute_error m "get"
  end.

(** [len(v)] *)
Definition py_len (v : value) : outcome Z :=
  match v with
  | VStr s => Ok (Z.of_nat (String.length s))
  | VList l => Ok (Z.of_nat (List.length l))
  | VDict d => Ok (Z.of_nat (List.length d))
  | _ => Raise (PyExc TypeError
                  ("object of type '" ++ type_name v ++ "' has no len()"))
  end.

(** The items [for x in v] runs over. *)
Definition py_iter (v : value) : outcome (list value) :=
  match v with
  | VStr s => Ok (str_chars s)
  | VList l => Ok l
  | VDict d => Ok (map fst d)
  | _ => Raise (PyExc TypeError
                  ("'" ++ type_name v ++ "' object is not iterable"))
  end.

Definition is_substring (p s : string) : bool :=
  match String.index 0 p s with Some _ => true | None => false end.

(** [k in c] for a string [k] *)
Definition py_contains (k : string) (c : value) : outcome bool :=
  match c with
  | VDict d => Ok (dict_mem d (VStr k))
  | VList l => Ok (existsb (fun x => key_eqb x (VStr k)) l)
  | VStr s => Ok (is_substring k s)
  | _ => Raise (PyExc TypeError
                  ("argument of type '" ++ type_name c ++ "' is not iterable"))
  end.

(** [c[k]] for a string [k] *)
Definition py_getitem (c : value) (k : string) : outcome value :=
  match c with
  | VDict d =>
      match dict_get d (VStr k) with
      | Some v => Ok v
      | None => Raise (PyExc KeyError ("'" ++ k ++ "'"))
      end
  | VList _ =>
      Raise (PyExc TypeError "list indices must be integers or slices, not str")
  | VStr _ =>
      Raise (PyExc TypeError "string indices must be integers, not 'str'")
  | _ => Raise (PyExc TypeError
                  ("'" ++ type_name c ++ "' object is not subscriptable"))
  end.

(** [c[0]] *)
Definition py_getitem0 (c : value) : outcome value :=
  match c with
  | VList (x :: _) => Ok x
  | VList [] => Raise (PyExc IndexError "list index out of range")
  | VStr (String a _) => Ok (VStr (String a EmptyString))
  | VStr EmptyString => Raise (PyExc IndexError "string index out of range")
  | VDict d =>
      match dict_get d (VInt 0) with
      | Some v => Ok v
      | None => Raise (PyExc KeyError "0")
      end
  | _ => Raise (PyExc TypeError
                  ("'" ++ type_name c ++ "' object is not subscriptable"))
  end.

(** [c[k] = v] for a string [k] *)
Definition py_setitem (c : value) (k : string) (v : value) : outcome value :=
  match c with
  | VDict d => Ok (VDict (dict_set d (VStr k) v))
  | VList _ =>
      Raise (PyExc TypeError "list indices must be integers or slices, not str")
  | _ => Raise (PyExc TypeError
                  ("'" ++ type_name c
                   ++ "' object does not support item assignment"))
  end.

(** [{**a, **b}] *)
Definition py_merge (a b : value) : outcome value :=
  match a, b with
  | VDict da, VDict db => Ok (VDict (dict_merge da db))
  | VDict _, _ =>
      Raise (PyExc TypeError ("'" ++ type_name b ++ "' object is not a mapping"))
  | _, _ =>
      Raise (PyExc TypeError ("'" ++ type_name a ++ "' object is not a mapping"))
  end.

(** [v[:100]] *)
Definition py_slice100 (v : value) : outcome value :=
  match v with
  | VStr s => Ok (VStr (str_prefix 100 s))
  | VList l => Ok (VList (firstn 100 l))
  | VDict _ => Raise (PyExc TypeError "unhashable type: 'slice'")
  | _ => Raise (PyExc TypeError
                  ("'" ++ type_name v ++ "' object is not subscriptable"))
  end.

(** [v > 0] *)
Definition py_gt0 (v : value) : outcome bool :=
  match num_of v with
  | Some q => Ok (negb (Qle_bool q 0))
  | None =>
      Raise (PyExc TypeError
               ("'>' not supported between instances of '" ++ type_name v
                ++ "' and 'int'"))
  end.

(** The check a dict or set makes before it stores a key. *)
Definition py_hash (v : value) : outcome unit :=
  if hashable v then Ok tt
  else Raise (PyExc TypeError ("unhashable type: '" ++ type_name v ++ "'")).

(** ** MemoryService *)

Section Service.

Context {St : Type}.

(** [self.memory]: the store's response to a call in a state. *)
Variable memory : St -> call -> store_result * St.

Variable builtins : Builtins.

(** [datetime.now(timezone.utc)], in microseconds since 0001-01-01T00:00 UTC. *)
Variable now_us : Z.

Abbreviation M := (M St).

(** One call to the store, recorded in the trace. *)
Definition invoke (c : call) : M value :=
  fun w =>
    let (r, s') := memory (store w) c in
    let w' := mkWorld s' (calls w ++ [c]) in
    match r with
    | inl v => (Ok v, w')
    | inr (cls, msg) => (Raise (PyExc cls msg), w')
    end.

(** [str(v)] *)
Definition py_str (v : value) : string :=
  match v with
  | VStr s => s
  | _ => repr builtins v
  end.

(** [str(e)]; an [APIError] shows its message. *)
Definition exn_str (e : exn) : string :=
  match e with
  | APIError _ message _ => message
  | PyExc _ msg => msg
  end.

(** [float(v)]; an integer too large for a float raises [OverflowError]. *)
Definition py_float (v : value) : outcome Q :=
  match v with
  | VBool b => Ok (if b then 1%Q else 0%Q)
  | VInt z =>
      match float_of_int z with
      | Some q => Ok q
      | None =>
          Raise (PyExc (OtherException "OverflowError")
                   "int too large to convert to float")
      end
  | VFloat q => Ok q
  | VStr s =>
      match float_of_str builtins s with
      | Some q => Ok q
      | None =>
          Raise (PyExc ValueError
                   ("could not convert string to float: " ++ repr builtins v))
      end
  | _ =>
      Raise (PyExc TypeError
               ("float() argument must be a string or a real number, not '"
                ++ type_name v ++ "'"))
  end.

(** *** get_memory *)

(** The secondary lookup of [get_memory]: the body of its inner [try]. *)
Definition content_from_payload (memory memory_id : value) : M value :=
  result <- invoke (VectorStoreGet memory_id) ;;
  if truthy result then
    data_content <- lift (py_get result "data" (VStr "")) ;;
    if truthy data_content then lift (py_setitem memory "content" data_content)
    else ret memory
  else ret memory.

Definition get_memory (memory_id user_id agent_id : value) : M value :=
  try_except
    (memory <- invoke (Get memory_id user_id agent_id) ;;
     if is_none memory then
       raise (APIError MEMORY_NOT_FOUND
                ("Memory " ++ py_str memory_id ++ " not found") 404)
     else
       content <- lift (py_get memory "content" VNone) ;;
       if negb (truthy content) || key_eqb content (VStr "") then
         try_except (content_from_payload memory memory_id)
                    (fun _ => ret memory)
       else ret memory)
    (fun e =>
       match e with
       | APIError _ _ _ => raise e
       | PyExc _ _ =>
           raise (APIError INTERNAL_ERROR
                    ("Failed to get memory: " ++ exn_str e) 500)
       end).

(** *** list_memories *)

Definition list_memories (user_id agent_id limit offset sort_by order : value)
  : M value :=
  try_except
    (result <- invoke (GetAll user_id agent_id limit
                         (Some offset) (Some sort_by) (Some order)) ;;
     memories_list <- lift (py_get result "results" (VList [])) ;;
     items <- lift (py_iter memories_list) ;;
     filtered_memories <-
       for_each items []
         (fun filtered_memories item =>
            if is_dict item then ret (filtered_memories ++ [item])
            else ret filtered_memories) ;;
     ret (VList filtered_memories))
    (fun e =>
       raise (APIError INTERNAL_ERROR
                ("Failed to list memories: " ++ exn_str e) 500)).

(** *** update_memory *)

(** The metadata an update writes: the merge rule shared by [update_memory]
    and [batch_update_memories]. *)
Definition final_metadata_of (existing metadata : value) : M value :=
  existing_metadata <- lift (py_get existing "metadata" VNone) ;;
  if negb (is_none metadata) && truthy existing_metadata then
    existing_metadata' <- lift (py_get existing "metadata" (VDict [])) ;;
    lift (py_merge existing_metadata' metadata)
  else if truthy existing_metadata then
    lift (py_get existing "metadata" VNone)
  else ret metadata.

(** The content an update writes. *)
Definition final_content_of (existing content : value) : M value :=
  if negb (is_none content) then ret content
  else lift (py_get existing "content" (VStr "")).

Definition update_memory (memory_id content user_id agent_id metadata : value)
  : M value :=
  try_except
    (existing <- get_memory memory_id user_id agent_id ;;
     if is_none content && is_none metadata then
       raise (PyExc ValueError
                "At least one of content or metadata must be provided")
     else
       final_content <- final_content_of existing content ;;
       final_metadata <- final_metadata_of existing metadata ;;
       result <- invoke (Update memory_id final_content user_id agent_id
                           final_metadata) ;;
       if truthy result then
         has_id <- lift (py_contains "id" result) ;;
         if negb has_id then
           result' <- lift (py_setitem result "id" memory_id) ;;
           lift (py_setitem result' "memory_id" memory_id)
         else ret result
       else ret result)
    (fun e =>
       match e with
       | APIError _ _ _ => raise e
       | PyExc _ _ =>
           raise (APIError MEMORY_UPDATE_FAILED
                    ("Failed to update memory: " ++ exn_str e) 500)
       end).

(** *** create_memory *)

(** The nested [get_field]: the entry's value when the key is there and not
    [None], else the caller's argument. *)
Definition get_field (result_item : value) (result_key : string)
    (param_value : value) : M value :=
  has_key <- lift (py_contains result_key result_item) ;;
  if has_key then
    result_value <- lift (py_get result_item result_key VNone) ;;
    ret (if negb (is_none result_value) then result_value else param_value)
  else ret param_value.

(** Copies a timestamp of the entry when it is there and not [None]. *)
Definition copy_timestamp (result_item normalized_memory : value) (key : string)
  : M value :=
  has_key <- lift (py_contains key result_item) ;;
  if has_key then
    stamp <- lift (py_getitem result_item key) ;;
    if negb (is_none stamp) then lift (py_setitem normalized_memory key stamp)
    else ret normalized_memory
  else ret normalized_memory.

(** The record built from the store's raw entry when the re-fetch fails. *)
Definition fallback_memory (result_item memory_id content user_id agent_id
    run_id metadata : value) : M value :=
  result_metadata0 <- lift (py_get result_item "metadata" VNone) ;;
  let result_metadata :=
    if is_none result_metadata0 then py_or metadata (VDict [])
    else result_metadata0 in
  f_content <- get_field result_item "memory" content ;;
  f_user_id <- get_field result_item "user_id" user_id ;;
  f_agent_id <- get_field result_item "agent_id" agent_id ;;
  f_run_id <- get_field result_item "run_id" run_id ;;
  let normalized_memory :=
    VDict [ (VStr "id", memory_id);
            (VStr "memory_id", memory_id);
            (VStr "content", f_content);
            (VStr "user_id", f_user_id);
            (VStr "agent_id", f_agent_id);
            (VStr "run_id", f_run_id);
            (VStr "metadata",
             if is_dict result_metadata then result_metadata else VDict []) ] in
  normalized_memory <- copy_timestamp result_item normalized_memory "created_at" ;;
  copy_timestamp result_item normalized_memory "updated_at".

(** One turn of the loop over the store's result entries. *)
Definition normalize_item (content user_id agent_id run_id metadata : value)
    (normalized_memories : list value) (result_item : value)
  : M (list value) :=
  memory_id <- lift (py_get result_item "id" VNone) ;;
  if is_none memory_id then ret normalized_memories
  else
    full_memory <-
      try_except
        (full_memory <- get_memory memory_id user_id agent_id ;;
         ret (if truthy full_memory then Some full_memory else None))
        (fun _ => ret None) ;;
    match full_memory with
    | Some full_memory => ret (normalized_memories ++ [full_memory])
    | None =>
        normalized_memory <-
          fallback_memory result_item memory_id content user_id agent_id
            run_id metadata ;;
        ret (normalized_memories ++ [normalized_memory])
    end.

Definition create_memory (content user_id agent_id run_id metadata filters
    scope memory_type : value) (infer : bool) : M value :=
  try_except
    (result <- invoke (Add content user_id agent_id run_id metadata filters
                         scope memory_type infer) ;;
     all_results <- lift (py_get result "results" (VList [])) ;;
     if negb (truthy all_results) then ret (VList [])
     else
       lift (py_len all_results) ;;;
       items <- lift (py_iter all_results) ;;
       normalized_memories <-
         for_each items []
           (normalize_item content user_id agent_id run_id metadata) ;;
       ret (VList normalized_memories))
    (fun e =>
       raise (APIError MEMORY_CREATE_FAILED
                ("Failed to create memory: " ++ exn_str e) 500)).

(** *** get_statistics *)

(** A falsy or unparseable date yields [datetime.min]; [parser.parse] raises
    on anything but a string, and the bare [except] catches it. *)
Definition _parse_datetime (date_str : value) : datetime :=
  if negb (truthy date_str) then datetime_min
  else
    match date_str with
    | VStr s =>
        match dateutil_parse builtins s with
        | Some d => d
        | None => datetime_min
        end
    | _ => datetime_min
    end.

(** [[m for m in memories if self._parse_datetime(m.get("created_at")) >= cutoff_date]] *)
Definition filter_by_cutoff (memories : list value) (cutoff_date : datetime)
  : M (list value) :=
  for_each memories []
    (fun kept m =>
       created_at <- lift (py_get m "created_at" VNone) ;;
       match datetime_ge (_parse_datetime created_at) cutoff_date with
       | Some true => ret (kept ++ [m])
       | Some false => ret kept
       | None =>
           raise (PyExc TypeError
                    "can't compare offset-naive and offset-aware datetimes")
       end).

(** The local variables of the loop of [_calculate_stats_from_memories].
    An entry of [access_counts] carries the number its ["access_count"]
    stands for, which is its sort key. *)
Record stats_acc : Type := mkStatsAcc {
  by_type : dict;
  total_importance : Q;
  access_counts : list (Q * value);
  growth_by_date : dict;
  age_distribution : dict
}.

Definition empty_age_distribution : dict :=
  [ (VStr "< 1 day", VInt 0);
    (VStr "1-7 days", VInt 0);
    (VStr "7-30 days", VInt 0);
    (VStr "> 30 days", VInt 0) ].

Definition stats_init : stats_acc :=
  mkStatsAcc [] 0%Q [] [] empty_age_distribution.

(** The bucket of a whole-day age. *)
Definition age_bucket (age : Z) : string :=
  if age <? 1 then "< 1 day"
  else if age <? 7 then "1-7 days"
  else if age <? 30 then "7-30 days"
  else "> 30 days".

(** One turn of the loop of [_calculate_stats_from_memories]. *)
Definition stats_step (acc : stats_acc) (m : value) : M stats_acc :=
  (* Type distribution *)
  m_type <- lift (py_get m "type" VNone) ;;
  m_memory_type <- lift (py_get m "memory_type" VNone) ;;
  let mem_type := py_or (py_or m_type m_memory_type) (VStr "unknown") in
  lift (py_hash mem_type) ;;;
  let by_type' := dict_incr (by_type acc) mem_type in
  (* Importance *)
  m_importance <- lift (py_get m "importance" VNone) ;;
  let importance := py_or m_importance (VFloat 0.5%Q) in
  importance_f <- lift (py_float importance) ;;
  let total_importance' := (total_importance acc + importance_f)%Q in
  (* Access count *)
  access_count <- lift (py_get m "access_count" (VInt 0)) ;;
  positive <- lift (py_gt0 access_count) ;;
  access_counts' <-
    (if positive then
       m_id <- lift (py_get m "id" VNone) ;;
       m_memory_id <- lift (py_get m "memory_id" VNone) ;;
       m_memory <- lift (py_get m "memory" VNone) ;;
       m_content <- lift (py_get m "content" VNone) ;;
       preview <- lift (py_slice100
                          (py_or (py_or m_memory m_content) (VStr ""))) ;;
       ret (access_counts acc ++
            [ (match num_of access_count with Some q => q | None => 0%Q end,
               VDict [ (VStr "id", py_or m_id m_memory_id);
                       (VStr "content", preview);
                       (VStr "access_count", access_count) ]) ])
     else ret (access_counts acc)) ;;
  (* Growth trend by date, age distribution *)
  created_at <- lift (py_get m "created_at" VNone) ;;
  if truthy created_at then
    let date_obj := _parse_datetime created_at in
    let date_key := strftime_ymd builtins date_obj in
    let growth_by_date' := dict_incr (growth_by_date acc) (VStr date_key) in
    match datetime_sub_days (mkDatetime now_us (Some 0)) date_obj with
    | Some age =>
        ret (mkStatsAcc by_type' total_importance' access_counts'
               growth_by_date'
               (dict_incr (age_distribution acc) (VStr (age_bucket age))))
    | None =>
        raise (PyExc TypeError
                 "can't subtract offset-naive and offset-aware datetimes")
    end
  else
    ret (mkStatsAcc by_type' total_importance' access_counts'
           (growth_by_date acc) (age_distribution acc)).

(** [l.sort(key=..., reverse=True)]: descending and stable, an entry goes
    behind every entry whose key is at least its own. *)
Fixpoint insert_desc (x : Q * value) (l : list (Q * value)) : list (Q * value) :=
  match l with
  | [] => [x]
  | y :: l' =>
      if Qle_bool (fst x) (fst y) then y :: insert_desc x l' else x :: l
  end.

Definition sort_desc (l : list (Q * value)) : list (Q * value) :=
  fold_left (fun sorted x => insert_desc x sorted) l [].

Definition _calculate_stats_from_memories (memories : list value) : M value :=
  let total_memories := Z.of_nat (List.length memories) in
  if total_memories =? 0 then
    ret (VDict [ (VStr "total_memories", VInt 0);
                 (VStr "by_type", VDict []);
                 (VStr "avg_importance", VFloat 0%Q);
                 (VStr "top_accessed", VList []);
                 (VStr "growth_trend", VDict []);
                 (VStr "age_distribution", VDict empty_age_distribution) ])
  else
    acc <- for_each memories stats_init stats_step ;;
    let top_accessed := firstn 10 (map snd (sort_desc (access_counts acc))) in
    ret (VDict [ (VStr "total_memories", VInt total_memories);
                 (VStr "by_type", VDict (by_type acc));
                 (VStr "avg_importance",
                  VFloat (if 0 <? total_memories
                          then (total_importance acc / inject_Z total_memories)%Q
                          else 0%Q));
                 (VStr "top_accessed", VList top_accessed);
                 (VStr "growth_trend", VDict (growth_by_date acc));
                 (VStr "age_distribution", VDict (age_distribution acc)) ]).

Definition get_statistics (user_id agent_id : value)
    (cutoff_date : option datetime) : M value :=
  stats <- invoke (GetStatistics user_id agent_id) ;;
  match cutoff_date with
  | Some cutoff =>
      result <- invoke (GetAll user_id agent_id (VInt 10000) None None None) ;;
      all_memories <- lift (py_get result "results" (VList [])) ;;
      items <- lift (py_iter all_memories) ;;
      filtered_memories <- filter_by_cutoff items cutoff ;;
      _calculate_stats_from_memories filtered_memories
  | None => ret stats
  end.

(** *** delete_memory and bulk_delete_memories *)

Definition delete_memory (memory_id user_id agent_id : value) : M value :=
  try_except
    (get_memory memory_id user_id agent_id ;;;
     success <- invoke (Delete memory_id user_id agent_id) ;;
     if negb (truthy success) then
       raise (APIError MEMORY_DELETE_FAILED
                ("Failed to delete memory " ++ py_str memory_id) 500)
     else ret (VBool true))
    (fun e =>
       match e with
       | APIError _ _ _ => raise e
       | PyExc _ _ =>
           raise (APIError MEMORY_DELETE_FAILED
                    ("Failed to delete memory: " ++ exn_str e) 500)
       end).

(** The two result lists a batch operation fills. *)
Definition batch_acc : Type := (list value * list value)%type.

(** One turn of the loop of [bulk_delete_memories]; only an [APIError] is
    caught. *)
Definition bulk_delete_step (user_id agent_id : value) (acc : batch_acc)
    (memory_id : value) : M batch_acc :=
  let (deleted, failed) := acc in
  try_except
    (delete_memory memory_id user_id agent_id ;;;
     ret (deleted ++ [memory_id], failed))
    (fun e =>
       match e with
       | APIError _ message _ =>
           ret (deleted,
                failed ++ [VDict [ (VStr "memory_id", memory_id);
                                   (VStr "error", VStr message) ]])
       | PyExc _ _ => raise e
       end).

Definition bulk_delete_memories (memory_ids : list value)
    (user_id agent_id : value) : M value :=
  acc <- for_each memory_ids ([], []) (bulk_delete_step user_id agent_id) ;;
  let (deleted, failed) := acc : batch_acc in
  ret (VDict [ (VStr "deleted", VList deleted);
               (VStr "failed", VList failed);
               (VStr "total", VInt (Z.of_nat (List.length memory_ids)));
               (VStr "deleted_count", VInt (Z.of_nat (List.length deleted)));
               (VStr "failed_count", VInt (Z.of_nat (List.length failed))) ]).

(** *** batch_create_memories *)

(** [enumerate(l)] *)
Definition enumerate {A} (l : list A) : list (nat * A) :=
  combine (seq 0 (List.length l)) l.

(** The id of the memory an [add] made: [results[0].id], else the top-level
    [memory_id], else the top-level [id]. *)
Definition extract_memory_id (result : value) : M value :=
  has_results <- lift (py_contains "results" result) ;;
  nonempty <-
    (if has_results then
       results <- lift (py_getitem result "results") ;;
       n <- lift (py_len results) ;;
       ret (0 <? n)
     else ret false) ;;
  if nonempty then
    results <- lift (py_getitem result "results") ;;
    first <- lift (py_getitem0 results) ;;
    lift (py_get first "id" VNone)
  else
    has_memory_id <- lift (py_contains "memory_id" result) ;;
    if has_memory_id then lift (py_getitem result "memory_id")
    else
      has_id <- lift (py_contains "id" result) ;;
      if has_id then lift (py_getitem result "id") else ret VNone.

(** The body of the [try] of [batch_create_memories]: the success entry. *)
Definition batch_create_item (user_id agent_id run_id : value) (infer : bool)
    (idx : nat) (memory_item : value) : M value :=
  content <- lift (py_get memory_item "content" VNone) ;;
  if negb (truthy content) then
    raise (PyExc ValueError "Memory content is required")
  else
    metadata <- lift (py_get memory_item "metadata" VNone) ;;
    filters <- lift (py_get memory_item "filters" VNone) ;;
    scope <- lift (py_get memory_item "scope" VNone) ;;
    memory_type <- lift (py_get memory_item "memory_type" VNone) ;;
    result <- invoke (Add content user_id agent_id run_id metadata filters
                        scope memory_type infer) ;;
    memory_id <- extract_memory_id result ;;
    if is_none memory_id then
      raise (PyExc ValueError "Failed to extract memory_id from result")
    else
      ret (VDict [ (VStr "index", VInt (Z.of_nat idx));
                   (VStr "memory_id", memory_id);
                   (VStr "content", content) ]).

Definition batch_create_step (user_id agent_id run_id : value) (infer : bool)
    (acc : batch_acc) (item : nat * value) : M batch_acc :=
  let (created, failed) := acc in
  let (idx, memory_item) := item in
  try_except
    (entry <- batch_create_item user_id agent_id run_id infer idx memory_item ;;
     ret (created ++ [entry], failed))
    (fun e =>
       content <- lift (py_get memory_item "content" (VStr "N/A")) ;;
       ret (created,
            failed ++ [VDict [ (VStr "index", VInt (Z.of_nat idx));
                               (VStr "content", content);
                               (VStr "error", VStr (exn_str e)) ]])).

Definition batch_create_memories (memories : list value)
    (user_id agent_id run_id : value) (infer : bool) : M value :=
  acc <- for_each (enumerate memories) ([], [])
           (batch_create_step user_id agent_id run_id infer) ;;
  let (created, failed) := acc : batch_acc in
  ret (VDict [ (VStr "created", VList created);
               (VStr "failed", VList failed);
               (VStr "total", VInt (Z.of_nat (List.length memories)));
               (VStr "created_count", VInt (Z.of_nat (List.length created)));
               (VStr "failed_count", VInt (Z.of_nat (List.length failed))) ]).

(** *** batch_update_memories *)

(** The body of the [try] of [batch_update_memories]: the success entry. *)
Definition batch_update_item (user_id agent_id : value) (idx : nat)
    (update_item : value) : M value :=
  memory_id <- lift (py_get update_item "memory_id" VNone) ;;
  if is_none memory_id then
    raise (PyExc ValueError "memory_id is required for each update")
  else
    content <- lift (py_get update_item "content" VNone) ;;
    metadata <- lift (py_get update_item "metadata" VNone) ;;
    if is_none content && is_none metadata then
      raise (PyExc ValueError
               "At least one of content or metadata must be provided")
    else
      existing <- get_memory memory_id user_id agent_id ;;
      final_metadata <- final_metadata_of existing metadata ;;
      final_content <- final_content_of existing content ;;
      invoke (Update memory_id final_content user_id agent_id final_metadata) ;;;
      ret (VDict [ (VStr "index", VInt (Z.of_nat idx));
                   (VStr "memory_id", memory_id) ]).

Definition batch_update_step (user_id agent_id : value) (acc : batch_acc)
    (item : nat * value) : M batch_acc :=
  let (updated, failed) := acc in
  let (idx, update_item) := item in
  try_except
    (entry <- batch_update_item user_id agent_id idx update_item ;;
     ret (updated ++ [entry], failed))
    (fun e =>
       memory_id <- lift (py_get update_item "memory_id" VNone) ;;
       ret (updated,
            failed ++ [VDict [ (VStr "index", VInt (Z.of_nat idx));
                               (VStr "memory_id", memory_id);
                               (VStr "error",
                                VStr (match e with
                                      | APIError _ message _ => message
                                      | PyExc _ _ => exn_str e
                                      end)) ]])).

Definition batch_update_memories (updates : list value)
    (user_id agent_id : value) : M value :=
  acc <- for_each (enumerate updates) ([], [])
           (batch_update_step user_id agent_id) ;;
  let (updated, failed) := acc : batch_acc in
  ret (VDict [ (VStr "updated", VList updated);
               (VStr "failed", VList failed);
               (VStr "total", VInt (Z.of_nat (List.length updates)));
               (VStr "updated_count", VInt (Z.of_nat (List.length updated)));
               (VStr "failed_count", VInt (Z.of_nat (List.length failed))) ]).

(** *** analyze_memory_quality *)

(** [round(x, 4)] of the float [x] *)
Definition round4 (x : Q) : Q := py_round x 4.

(** [s.add(k)] on a set kept as the list of its members. *)
Definition set_add (s : list value) (k : value) : list value :=
  if existsb (key_eqb k) s then s else s ++ [k].

(** The counters of [quality_issues] and the set [low_quality_memories]. *)
Record quality_acc : Type := mkQualityAcc {
  missing_metadata : Z;
  empty_content : Z;
  low_importance : Z;
  low_quality_memories : list value
}.

Definition quality_init : quality_acc := mkQualityAcc 0 0 0 [].

(** [not metadata or (isinstance(metadata, dict) and len(metadata) == 0)] *)
Definition metadata_missing (metadata : value) : bool :=
  negb (truthy metadata)
  || (is_dict metadata
      && match metadata with VDict [] => true | _ => false end).

(** One turn of the loop of [analyze_memory_quality]. *)
Definition quality_step (acc : quality_acc) (memory : value) : M quality_acc :=
  m_id <- lift (py_get memory "id" VNone) ;;
  m_memory_id <- lift (py_get memory "memory_id" VNone) ;;
  let memory_id := py_or m_id m_memory_id in
  (* missing or empty metadata *)
  metadata <- lift (py_get memory "metadata" VNone) ;;
  acc1 <-
    (if metadata_missing metadata then
       lift (py_hash memory_id) ;;;
       ret (mkQualityAcc (missing_metadata acc + 1) (empty_content acc)
              (low_importance acc)
              (set_add (low_quality_memories acc) memory_id))
     else ret acc) ;;
  (* empty or very short content *)
  m_memory <- lift (py_get memory "memory" VNone) ;;
  m_content <- lift (py_get memory "content" VNone) ;;
  m_data <- lift (py_get memory "data" VNone) ;;
  let content := py_or (py_or (py_or m_memory m_content) m_data) (VStr "") in
  let content_len := Z.of_nat (String.length (strip (py_str content))) in
  acc2 <-
    (if content_len <? 5 then
       lift (py_hash memory_id) ;;;
       ret (mkQualityAcc (missing_metadata acc1) (empty_content acc1 + 1)
              (low_importance acc1)
              (set_add (low_quality_memories acc1) memory_id))
     else ret acc1) ;;
  (* low importance, when the field is there; the bound is the float 0.3 *)
  importance <- lift (py_get memory "importance" VNone) ;;
  low <-
    (if negb (is_none importance) then
       importance_f <- lift (py_float importance) ;;
       ret (negb (Qle_bool (binary64 (3 # 10)) importance_f))
     else ret false) ;;
  if low then
    lift (py_hash memory_id) ;;;
    ret (mkQualityAcc (missing_metadata acc2) (empty_content acc2)
           (low_importance acc2 + 1)
           (set_add (low_quality_memories acc2) memory_id))
  else ret acc2.

(** The records [analyze_memory_quality] looks at: the store's [results],
    cut down to those on or after the cutoff when one is given. *)
Definition quality_records (user_id agent_id : value)
    (cutoff_date : option datetime) : M value :=
  result <- invoke (GetAll user_id agent_id (VInt 10000)
                      (Some (VInt 0)) None None) ;;
  results <- lift (py_get result "results" (VList [])) ;;
  match cutoff_date with
  | Some cutoff =>
      items <- lift (py_iter results) ;;
      kept <- filter_by_cutoff items cutoff ;;
      ret (VList kept)
  | None => ret results
  end.

(** The rest of the [try] of [analyze_memory_quality]: count, scan, report. *)
Definition quality_report (memories_list : value) : M value :=
  total_memories <- lift (py_len memories_list) ;;
  if total_memories =? 0 then
    ret (VDict [ (VStr "total_memories", VInt 0);
                 (VStr "low_quality_count", VInt 0);
                 (VStr "low_quality_ratio", VFloat 0%Q);
                 (VStr "quality_criteria", VDict []) ])
  else
    items <- lift (py_iter memories_list) ;;
    acc <- for_each items quality_init quality_step ;;
    let low_quality_count :=
      Z.of_nat (List.length (low_quality_memories acc)) in
    let low_quality_ratio :=
      if 0 <? total_memories
      then int_truediv low_quality_count total_memories
      else 0%Q in
    ret (VDict [ (VStr "total_memories", VInt total_memories);
                 (VStr "low_quality_count", VInt low_quality_count);
                 (VStr "low_quality_ratio", VFloat (round4 low_quality_ratio));
                 (VStr "quality_criteria",
                  VDict [ (VStr "missing_metadata", VInt (missing_metadata acc));
                          (VStr "empty_content", VInt (empty_content acc));
                          (VStr "low_importance", VInt (low_importance acc)) ]) ]).

Definition analyze_memory_quality (user_id agent_id : value)
    (cutoff_date : option datetime) : M value :=
  try_except
    (memories_list <- quality_records user_id agent_id cutoff_date ;;
     quality_report memories_list)
    (fun e =>
       raise (APIError INTERNAL_ERROR
                ("Failed to analyze memory quality: " ++ exn_str e) 500)).

End Service.

(** ** Notions the statements below use *)

(** A run fails with an error of the given kind. *)
Definition fails_with {St A} (r : outcome A * world St) (k : error_kind) : Prop :=
  exists e, fst r = Raise e /\ kind_of e = k.

(** A computation that leaves the world as it found it. *)
Definition pure {St A} (c : M St A) : Prop := forall w, snd (c w) = w.

(** The world after the store has answered one more call. *)
Definition after_call {St} (w : world St) (c : call) (s' : St) : world St :=
  mkWorld s' (calls w ++ [c]).

(** The metadata and content an update is asked to write, in the words of
    the specification (section 4.3). *)
Definition existing_metadata_of (e : dict) : value :=
  match dict_get e (VStr "metadata") with Some m => m | None => VNone end.

Definition written_content (e : dict) (content : value) : value :=
  if is_none content
  then match dict_get e (VStr "content") with Some c => c | None => VStr "" end
  else content.

(** The keys of a dict are pairwise different. *)
Fixpoint distinct_keys (d : dict) : bool :=
  match d with
  | [] => true
  | (k, _) :: d' => negb (dict_mem d' k) && distinct_keys d'
  end.

(** The run has issued exactly one more store call after [w1], namely [c]. *)
Definition writes {St A} (r : outcome A * world St) (w1 : world St) (c : call)
  : Prop :=
  calls (snd r) = calls w1 ++ [c].

(** The merge rule for a run that updates record [e] of identifier
    [memory_id], reached in world [w1]. *)
Definition merge_rule {St} (run : outcome value * world St) (w1 : world St)
    (memory_id user_id agent_id : value) (e : dict) (content metadata : value)
  : Prop :=
  let final_content := written_content e content in
  (forall old new,
      existing_metadata_of e = VDict old -> old <> [] ->
      metadata = VDict new -> new <> [] -> distinct_keys new = true ->
      exists merged,
        (forall k, dict_get merged k
                   = match dict_get new k with
                     | Some v => Some v
                     | None => dict_get old k
                     end)
        /\ writes run w1
             (Update memory_id final_content user_id agent_id (VDict merged)))
  /\ (truthy (existing_metadata_of e) = false ->
      writes run w1
        (Update memory_id final_content user_id agent_id metadata))
  /\ (metadata = VNone -> truthy (existing_metadata_of e) = true ->
      writes run w1
        (Update memory_id final_content user_id agent_id
           (existing_metadata_of e))).

(** The dict a batch operation returns, [name] being ["deleted"],
    ["created"] or ["updated"]. *)
Definition batch_result (name : string) (ok failed : list value) (n : nat)
  : value :=
  VDict [ (VStr name, VList ok);
          (VStr "failed", VList failed);
          (VStr "total", VInt (Z.of_nat n));
          (VStr (name ++ "_count"), VInt (Z.of_nat (List.length ok)));
          (VStr "failed_count", VInt (Z.of_nat (List.length failed))) ].

(** The ["index"] and the ["memory_id"] an entry of a result list carries. *)
Definition entry_index (entry : value) : option Z :=
  match entry with
  | VDict d =>
      match dict_get d (VStr "index") with
      | Some (VInt i) => Some i
      | _ => None
      end
  | _ => None
  end.

Definition entry_memory_id (entry : value) : option value :=
  match entry with
  | VDict d => dict_get d (VStr "memory_id")
  | _ => None
  end.

(** [x] is in exactly one of the two lists. *)
Definition in_exactly_one {A} (xs ys : list A) (x : A) : Prop :=
  (In x xs /\ ~ In x ys) \/ (~ In x xs /\ In x ys).

(** Every index below [n] is the index of exactly one entry of the two
    lists taken together: the indexes of the entries are a permutation of
    [0, n), and each index is found in exactly one list. *)
Definition indexes_partition (ok failed : list value) (n : nat) : Prop :=
  Permutation (map entry_index ok ++ map entry_index failed)
              (map (fun i => Some (Z.of_nat i)) (seq 0 n))
  /\ forall i, (i < n)%nat ->
       in_exactly_one (map entry_index ok) (map entry_index failed)
         (Some (Z.of_nat i)).

(** The same for [bulk_delete_memories], whose entries name the item by its
    identifier: [si] and [fi] are the input positions behind the entries of
    the two lists. *)
Definition positions_partition (ids deleted failed : list value) : Prop :=
  exists si fi : list nat,
    Permutation (si ++ fi) (seq 0 (List.length ids))
    /\ (forall i, (i < List.length ids)%nat -> in_exactly_one si fi i)
    /\ map Some deleted = map (nth_error ids) si
    /\ map entry_memory_id failed = map (nth_error ids) fi.

(** *** Records, field by field

    What the loops of the analytics read off one record, as pure functions
    of the record. *)

(** [m.get(k)] of a dict [m] *)
Definition field (m : value) (k : string) : value :=
  match py_get m k VNone with Ok v => v | Raise _ => VNone end.

(** [m.get("type") or m.get("memory_type") or "unknown"] *)
Definition mem_type_of (m : value) : value :=
  py_or (py_or (field m "type") (field m "memory_type")) (VStr "unknown").

(** [float(m.get("importance") or 0.5)] *)
Definition importance_contribution (builtins : Builtins) (m : value) : Q :=
  match py_float builtins (py_or (field m "importance") (VFloat 0.5%Q)) with
  | Ok q => q
  | Raise _ => 0%Q
  end.

(** The truth value of [m.get("created_at")]: false when the field is
    absent, [None] or empty. *)
Definition has_created_at (m : value) : bool := truthy (field m "created_at").

(** The day a record is counted under in [growth_trend]. *)
Definition date_key_of (builtins : Builtins) (m : value) : value :=
  VStr (strftime_ymd builtins (_parse_datetime builtins (field m "created_at"))).

(** The bucket a record is counted under in [age_distribution]. *)
Definition age_bucket_of (builtins : Builtins) (now_us : Z) (m : value) : value :=
  match datetime_sub_days (mkDatetime now_us (Some 0))
          (_parse_datetime builtins (field m "created_at")) with
  | Some age => VStr (age_bucket age)
  | None => VNone
  end.

(** The test of the cutoff filter: the record's date, [datetime.min] when it
    has none that parses, is on or after the cutoff. *)
Definition on_or_after (builtins : Builtins) (cutoff_date : datetime)
    (m : value) : bool :=
  match datetime_ge (_parse_datetime builtins (field m "created_at"))
          cutoff_date with
  | Some b => b
  | None => false
  end.

(** The snapshot over the records [ms], [top] being its [top_accessed]
    list: totals, types and importance over all of [ms], growth and age over
    the records of [ms] that have a [created_at]. *)
Definition recomputed_snapshot (builtins : Builtins) (now_us : Z)
    (ms top : list value) : value :=
  let dated := filter has_created_at ms in
  VDict [ (VStr "total_memories", VInt (Z.of_nat (List.length ms)));
          (VStr "by_type", VDict (fold_left dict_incr (map mem_type_of ms) []));
          (VStr "avg_importance",
           VFloat (match ms with
                   | [] => 0%Q
                   | _ => (fold_left Qplus
                             (map (importance_contribution builtins) ms) 0%Q
                           / inject_Z (Z.of_nat (List.length ms)))%Q
                   end));
          (VStr "top_accessed", VList top);
          (VStr "growth_trend",
           VDict (fold_left dict_incr (map (date_key_of builtins) dated) []));
          (VStr "age_distribution",
           VDict (fold_left dict_incr
                    (map (age_bucket_of builtins now_us) dated)
                    empty_age_distribution)) ].

(** The average importance as the specification words it (section 4.5):
    the mean of the records' importance, a record without one taken as
    0.5, and 0 for no records. *)
Definition spec_importance (builtins : Builtins) (m : value) : Q :=
  match field m "importance" with
  | VNone => 0.5%Q
  | v => match py_float builtins v with Ok q => q | Raise _ => 0%Q end
  end.

Definition spec_avg_importance (builtins : Builtins) (ms : list value) : Q :=
  match ms with
  | [] => 0%Q
  | _ => (fold_right Qplus 0%Q (map (spec_importance builtins) ms)
          / inject_Z (Z.of_nat (List.length ms)))%Q
  end.

(** [memory.get("id") or memory.get("memory_id")], the key of the
    deduplicating set. *)
Definition record_id (m : value) : value :=
  py_or (field m "id") (field m "memory_id").

(** The three defect criteria of [analyze_memory_quality]. *)
Definition has_missing_metadata (m : value) : bool :=
  metadata_missing (field m "metadata").

Definition content_of (m : value) : value :=
  py_or (py_or (py_or (field m "memory") (field m "content")) (field m "data"))
        (VStr "").

Definition has_empty_content (builtins : Builtins) (m : value) : bool :=
  Z.of_nat (String.length (strip (py_str builtins (content_of m)))) <? 5.

Definition has_low_importance (builtins : Builtins) (m : value) : bool :=
  negb (is_none (field m "importance"))
  && match py_float builtins (field m "importance") with
     | Ok q => negb (Qle_bool (binary64 (3 # 10)) q)
     | Raise _ => false
     end.

(** A record that triggers at least one criterion. *)
Definition defective (builtins : Builtins) (m : value) : bool :=
  has_missing_metadata m || has_empty_content builtins m
  || has_low_importance builtins m.

(** How many records satisfy [p]. *)
Definition count_of (p : value -> bool) (records : list value) : Z :=
  Z.of_nat (List.length (filter p records)).

(** The keys of a list are pairwise different. *)
Fixpoint keys_distinct (ks : list value) : bool :=
  match ks with
  | [] => true
  | k :: ks' => negb (existsb (key_eqb k) ks') && keys_distinct ks'
  end.

(** The number of different identifiers among the defective records. *)
Definition low_quality_count_of (builtins : Builtins) (records : list value)
  : nat :=
  List.length
    (fold_left set_add (map record_id (filter (defective builtins) records)) []).

Definition low_quality_ratio_of (builtins : Builtins) (records : list value)
  : Q :=
  match records with
  | [] => 0%Q
  | _ => round4 (int_truediv
                   (Z.of_nat (low_quality_count_of builtins records))
                   (Z.of_nat (List.length records)))
  end.

(** The report over the records [records]. *)
Definition quality_report_of (builtins : Builtins) (records : list value)
  : value :=
  VDict [ (VStr "total_memories", VInt (Z.of_nat (List.length records)));
          (VStr "low_quality_count",
           VInt (Z.of_nat (low_quality_count_of builtins records)));
          (VStr "low_quality_ratio",
           VFloat (low_quality_ratio_of builtins records));
          (VStr "quality_criteria",
           match records with
           | [] => VDict []
           | _ =>
               VDict [ (VStr "missing_metadata",
                        VInt (count_of has_missing_metadata records));
                       (VStr "empty_content",
                        VInt (count_of (has_empty_content builtins) records));
                       (VStr "low_importance",
                        VInt (count_of (has_low_importance builtins) records)) ]
           end) ].

(** ** A small in-memory store and stub builtins, for concrete runs *)

Module Demo.

(** The store keeps its records in a list.  [add] files the content under
    the next free number unless a record with that content is there
    already, in which case it reports no results. *)
Definition has_id (memory_id r : value) : bool :=
  match py_get r "id" VNone with
  | Ok i => key_eqb i memory_id
  | Raise _ => false
  end.

Definition has_content (content r : value) : bool :=
  match py_get r "content" VNone with
  | Ok c => key_eqb c content
  | Raise _ => false
  end.

Definition find_record (records : list value) (memory_id : value) : value :=
  match find (has_id memory_id) records with
  | Some r => r
  | None => VNone
  end.

Definition rewrite_record (content metadata r : value) : value :=
  match r with
  | VDict d =>
      VDict (dict_set (dict_set d (VStr "content") content)
               (VStr "metadata") metadata)
  | _ => r
  end.

Definition list_store (records : list value) (c : call)
  : store_result * list value :=
  match c with
  | Add messages _ _ _ metadata _ _ _ _ =>
      if existsb (has_content messages) records then
        (inl (VDict [(VStr "results", VList [])]), records)
      else
        let new_id := VInt (Z.of_nat (List.length records) + 1) in
        (inl (VDict [(VStr "results",
                      VList [VDict [ (VStr "id", new_id);
                                     (VStr "memory", messages) ]])]),
         records ++ [VDict [ (VStr "id", new_id);
                             (VStr "content", messages);
                             (VStr "metadata", py_or metadata (VDict [])) ]])
  | Get memory_id _ _ => (inl (find_record records memory_id), records)
  | VectorStoreGet _ => (inl VNone, records)
  | GetAll _ _ _ _ _ _ =>
      (inl (VDict [(VStr "results", VList records)]), records)
  | Update memory_id content _ _ metadata =>
      (inl (VDict [(VStr "content", content); (VStr "metadata", metadata)]),
       map (fun r => if has_id memory_id r
                     then rewrite_record content metadata r else r) records)
  | Delete memory_id _ _ =>
      (inl (VBool (existsb (has_id memory_id) records)),
       filter (fun r => negb (has_id memory_id r)) records)
  | GetStatistics _ _ => (inl (VDict []), records)
  end.

(** 2024-01-01T00:00:00, in microseconds since 0001-01-01T00:00:00. *)
Definition jan_1_2024 : Z := 738885 * us_per_day.

(** Stub builtins: integers, booleans and [None] print as Python prints
    them, one timestamp parses, no string is a number. *)
Definition repr (v : value) : string :=
  match v with
  | VNone => "None"
  | VBool true => "True"
  | VBool false => "False"
  | VInt z => NilZero.string_of_int (Z.to_int z)
  | _ => "<object>"
  end.

Definition builtins : Builtins :=
  mkBuiltins
    repr
    (fun _ => None)
    (fun s => if String.eqb s "2024-01-01T00:00:00+00:00"
              then Some (mkDatetime jan_1_2024 (Some 0)) else None)
    (fun d => if wall d =? jan_1_2024 then "2024-01-01" else "0001-01-01").

(** The clock of the runs: 2024-01-04T00:00:00 UTC. *)
Definition now_us : Z := jan_1_2024 + 3 * us_per_day.

Definition world0 (records : list value) : world (list value) :=
  mkWorld records [].

(** Some records. *)
Definition tea_fields : dict :=
  [ (VStr "id", VInt 1); (VStr "content", VStr "green tea");
    (VStr "metadata", VDict [(VStr "a", VInt 1)]) ].

Definition tea : value := VDict tea_fields.

Definition milk : value :=
  VDict [ (VStr "id", VInt 2); (VStr "content", VStr "oat milk") ].

(** A dated record of importance 0.0. *)
Definition plain : value :=
  VDict [ (VStr "id", VInt 3); (VStr "memory", VStr "plain fact");
          (VStr "created_at", VStr "2024-01-01T00:00:00+00:00");
          (VStr "importance", VFloat 0%Q) ].

(** Two records without [id] and [memory_id]: the first has empty metadata
    and two characters of content, the second no metadata. *)
Definition anon_short : value :=
  VDict [ (VStr "memory", VStr "ab"); (VStr "metadata", VDict []) ].

Definition anon_bare : value :=
  VDict [ (VStr "memory", VStr "a note long enough") ].

(** A record with empty metadata and two characters of content. *)
Definition stub : value :=
  VDict [ (VStr "id", VInt 5); (VStr "memory", VStr "ab");
          (VStr "metadata", VDict []) ].

(** Cutoffs: a naive 2024-01-01, and 2023-12-31 in UTC. *)
Definition naive_cutoff : datetime := mkDatetime jan_1_2024 None.

Definition utc_cutoff : datetime :=
  mkDatetime (jan_1_2024 - us_per_day) (Some 0).

(** The snapshot over no records. *)
Definition empty_snapshot : value :=
  VDict [ (VStr "total_memories", VInt 0);
          (VStr "by_type", VDict []);
          (VStr "avg_importance", VFloat 0%Q);
          (VStr "top_accessed", VList []);
          (VStr "growth_trend", VDict []);
          (VStr "age_distribution", VDict empty_age_distribution) ].

End Demo.

(** ** Notions for the further properties *)

(** Every exception the computation can raise satisfies [P]. *)
Definition raises_only {St A} (P : exn -> Prop) (c : M St A) : Prop :=
  forall w e w', c w = (Raise e, w') -> P e.

(** The same for an operation on values. *)
Definition outcome_only {A} (P : exn -> Prop) (o : outcome A) : Prop :=
  forall e, o = Raise e -> P e.

(** An exception other than the service's [APIError]. *)
Definition is_pyexc (e : exn) : Prop :=
  match e with PyExc _ _ => True | APIError _ _ _ => False end.

(** The errors [get_memory] raises: not found (404) or internal (500). *)
Definition fetch_error (e : exn) : Prop :=
  exists message,
    e = APIError MEMORY_NOT_FOUND message 404
    \/ e = APIError INTERNAL_ERROR message 500.

(** An [APIError] of the given code, with status 500 and a message that
    starts with [prefix]. *)
Definition wrapped_as (code : ErrorCode) (prefix : string) (e : exn) : Prop :=
  exists cause, e = APIError code (prefix ++ cause) 500.

(** *** The records of create_memory *)

(** The entry's value under [k] when the key is there and not [None], else
    the caller's argument. *)
Definition entry_or (e : dict) (k : string) (param : value) : value :=
  match dict_get e (VStr k) with
  | Some v => if is_none v then param else v
  | None => param
  end.

(** The timestamp an entry carries under [k], if it carries one that is not
    [None]. *)
Definition stamp_of (e : dict) (k : string) : option value :=
  match dict_get e (VStr k) with
  | Some v => if is_none v then None else Some v
  | None => None
  end.

(** The entries [create_memory] makes a record for: those with an ["id"]
    that is not [None]. *)
Definition has_identifier (e : value) : bool := negb (is_none (field e "id")).

(** The record [create_memory] returns for the entry [e] of the store's
    answer, when it gets to the entry in the world [w]: the record
    [get_memory] fetches in [w] under the entry's identifier, when that
    fetch succeeds with a record that is not empty; the record built from
    the entry, when the fetch fails or comes back empty.  Either way the
    loop goes on in the world the fetch leaves. *)
Definition record_for {St} (memory : St -> call -> store_result * St)
    (builtins : Builtins) (content user_id agent_id run_id metadata : value)
    (e : value) (w : world St) (m : value) : Prop :=
  let fetched :=
    get_memory memory builtins (field e "id") user_id agent_id w in
  let built :=
    fallback_memory e (field e "id") content user_id agent_id run_id
      metadata (snd fetched) = (Ok m, snd fetched) in
  match fst fetched with
  | Ok full_memory => if truthy full_memory then m = full_memory else built
  | Raise _ => built
  end.

(** The records [create_memory] returns for the entries [entries], from the
    world [w] on, and the world [w'] it ends in: one record for every entry
    with an identifier, in the order of the entries, each fetched in the
    world its predecessors left. *)
Fixpoint records_for {St} (memory : St -> call -> store_result * St)
    (builtins : Builtins) (content user_id agent_id run_id metadata : value)
    (entries : list value) (w : world St) (ms : list value) (w' : world St)
  : Prop :=
  match entries with
  | [] => ms = [] /\ w' = w
  | e :: entries' =>
      if has_identifier e then
        match ms with
        | [] => False
        | m :: ms' =>
            record_for memory builtins content user_id agent_id run_id
              metadata e w m
            /\ records_for memory builtins content user_id agent_id run_id
                 metadata entries'
                 (snd (get_memory memory builtins (field e "id") user_id
                         agent_id w))
                 ms' w'
        end
      else
        records_for memory builtins content user_id agent_id run_id metadata
          entries' w ms w'
  end.

(** *** Batch items *)

(** The truth value of a batch-create item's ["content"]. *)
Definition has_content (m : value) : bool := truthy (field m "content").

(** A batch-update item that gets past the two checks: it names a memory and
    brings content or metadata. *)
Definition valid_update (m : value) : bool :=
  negb (is_none (field m "memory_id"))
  && negb (is_none (field m "content") && is_none (field m "metadata")).

(** The ["error"] an entry of a failure list carries. *)
Definition entry_error (entry : value) : option value :=
  match entry with
  | VDict d => dict_get d (VStr "error")
  | _ => None
  end.

(** The entries of a result list carry the indexes [is], in this order. *)
Definition carries_indexes (entries : list value) (indexes : list nat) : Prop :=
  map entry_index entries = map (fun i => Some (Z.of_nat i)) indexes.

(** How [batch_create_memories] settles an item once the identifier
    [memory_id] has been read off the store's answer: a failure when it is
    [None], the success entry otherwise. *)
Definition settle_created {St} (idx : nat) (content memory_id : value)
    (w : world St) : outcome value * world St :=
  if is_none memory_id then
    (Raise (PyExc ValueError "Failed to extract memory_id from result"), w)
  else
    (Ok (VDict [ (VStr "index", VInt (Z.of_nat idx));
                 (VStr "memory_id", memory_id);
                 (VStr "content", content) ]), w).

(** *** Counting dicts and the most accessed records *)

(** The sum of the counts of a counting dict. *)
Definition dict_total (d : dict) : Z :=
  fold_right (fun kv s => match snd kv with VInt n => n + s | _ => s end) 0 d.

(** An entry of [top_accessed] whose ["access_count"] stands for the
    number [q]. *)
Definition accessed (q : Q) (entry : value) : Prop :=
  exists id content access_count,
    entry = VDict [ (VStr "id", id);
                    (VStr "content", content);
                    (VStr "access_count", access_count) ]
    /\ num_of access_count = Some q /\ (0 < q)%Q.

(** [m.get("access_count", 0)] *)
Definition access_count_of (m : value) : value :=
  match py_get m "access_count" (VInt 0) with Ok v => v | Raise _ => VInt 0 end.

(** The record has been read: its ["access_count"] is a number above 0. *)
Definition is_accessed (m : value) : bool :=
  match py_gt0 (access_count_of m) with Ok b => b | Raise _ => false end.

(** The entry [top_accessed] shows for the record [m], with the number its
    count stands for: the [id], else the [memory_id]; the first hundred
    characters of the [memory], else of the [content]; and the count. *)
Definition access_entry (m : value) : Q * value :=
  (match num_of (access_count_of m) with Some q => q | None => 0%Q end,
   VDict [ (VStr "id", py_or (field m "id") (field m "memory_id"));
           (VStr "content",
            match py_slice100
                    (py_or (py_or (field m "memory") (field m "content"))
                       (VStr "")) with
            | Ok preview => preview
            | Raise _ => VNone
            end);
           (VStr "access_count", access_count_of m) ]).

(** The entries of [l] whose count is [q]. *)
Definition with_count (q : Q) (l : list (Q * value)) : list (Q * value) :=
  filter (fun p => Qeq_bool (fst p) q) l.

(** The record's date, [datetime.min] when it has none that parses, can be
    compared with the cutoff: both carry a timezone, or neither does. *)
Definition comparable (builtins : Builtins) (cutoff_date : datetime)
    (m : value) : bool :=
  match datetime_ge (_parse_datetime builtins (field m "created_at"))
          cutoff_date with
  | Some _ => true
  | None => false
  end.

(** ** Import of memories (powermem/utils/io.py) *)

(** [d.get(k, dflt)] of a dict [d] *)
Definition dict_get_or (d : dict) (k : string) (dflt : value) : value :=
  match dict_get d (VStr k) with Some v => v | None => dflt end.

Section ImportFunctions.

(** [json.loads] on a string: the value parsed, or the exception raised. *)
Variable json_loads : string -> outcome value.

(** [csv.DictReader] on a text: the rows it yields, each a dict from the
    header's field names, and the error that ends the iteration if one
    does. *)
Variable csv_rows : string -> list dict * option exn.

(** The dict [import_from_json] makes of an entry that is a dict. *)
Definition cleaned (memory : dict) : value :=
  VDict [ (VStr "id", dict_get_or memory "id" VNone);
          (VStr "content", dict_get_or memory "content" (VStr ""));
          (VStr "role", dict_get_or memory "role" (VStr "user"));
          (VStr "metadata", dict_get_or memory "metadata" (VDict []));
          (VStr "created_at", dict_get_or memory "created_at" VNone);
          (VStr "updated_at", dict_get_or memory "updated_at" VNone) ].

Definition import_from_json (json_str : string) : outcome (list value) :=
  match json_loads json_str with
  | Raise e => Raise e
  | Ok memories =>
      match py_iter memories with
      | Raise e => Raise e
      | Ok items =>
          Ok (fold_left
                (fun result memory =>
                   match memory with
                   | VDict d => result ++ [cleaned d]
                   | _ => result
                   end)
                items [])
      end
  end.

(** [json.loads(v)] of any value: only a string is parsed. *)
Definition json_loads_value (v : value) : outcome value :=
  match v with
  | VStr s => json_loads s
  | _ =>
      Raise (PyExc TypeError
               ("the JSON object must be str, bytes or bytearray, not "
                ++ type_name v))
  end.

(** The memory [import_from_csv] makes of a row, its metadata parsed. *)
Definition memory_of_row (row : dict) (metadata : value) : value :=
  VDict [ (VStr "id", dict_get_or row "id" VNone);
          (VStr "content", dict_get_or row "content" (VStr ""));
          (VStr "role", dict_get_or row "role" (VStr "user"));
          (VStr "metadata", metadata);
          (VStr "created_at", dict_get_or row "created_at" VNone);
          (VStr "updated_at", dict_get_or row "updated_at" VNone) ].

(** The loop of [import_from_csv] over the rows read, [reader_error] being
    what ends the iteration. *)
Fixpoint import_rows (rows : list dict) (reader_error : option exn)
    (memories : list value) : outcome (list value) :=
  match rows with
  | [] =>
      match reader_error with
      | Some e => Raise e
      | None => Ok memories
      end
  | row :: rows' =>
      match json_loads_value (dict_get_or row "metadata" (VStr "{}")) with
      | Raise e => Raise e
      | Ok metadata =>
          import_rows rows' reader_error
            (memories ++ [memory_of_row row metadata])
      end
  end.

Definition import_from_csv (csv_str : string) : outcome (list value) :=
  if negb (truthy (VStr (strip csv_str))) then Ok []
  else
    let (rows, reader_error) := csv_rows csv_str in
    import_rows rows reader_error [].

End ImportFunctions.

(** What [import_from_json] makes of an entry: a dict is cleaned. *)
Definition cleaned_entry (entry : value) : value :=
  match entry with
  | VDict d => cleaned d
  | _ => entry
  end.

(** The keys of every imported memory, in their order. *)
Definition memory_keys : list value :=
  [ VStr "id"; VStr "content"; VStr "role"; VStr "metadata";
    VStr "created_at"; VStr "updated_at" ].

(** The text of a row's metadata, ["{}"] when the row has no such column. *)
Definition metadata_text (row : dict) : value :=
  dict_get_or row "metadata" (VStr "{}").

(** The keys of a dict, as [json.loads] makes them, are strings. *)
Definition string_keys (d : dict) : Prop :=
  Forall (fun k => exists s, k = VStr s) (map fst d).

(** ** Health checks (server/utils/health_check.py) *)

Module HealthCheck.

(** What [auto_config()] returns: a plain value, a dict among them, or an
    object of some class with attributes. *)
Inductive pyobj : Type :=
| OValue (v : value)
| OObject (class_name : string) (attrs : list (string * pyobj)).

(** [bool(o)]: an object that defines neither [__bool__] nor [__len__] is
    true. *)
Definition obj_truthy (o : pyobj) : bool :=
  match o with
  | OValue v => truthy v
  | OObject _ _ => true
  end.

Fixpoint attr_lookup (attrs : list (string * pyobj)) (name : string)
  : option pyobj :=
  match attrs with
  | [] => None
  | (n, a) :: attrs' =>
      if String.eqb n name then Some a else attr_lookup attrs' name
  end.

(** [hasattr(o, name)], for a name no built-in value has. *)
Definition obj_hasattr (o : pyobj) (name : string) : bool :=
  match o with
  | OObject _ attrs =>
      match attr_lookup attrs name with Some _ => true | None => false end
  | OValue _ => false
  end.

(** [o.name], for a name no built-in value has. *)
Definition obj_getattr (o : pyobj) (name : string) : outcome pyobj :=
  match o with
  | OObject class_name attrs =>
      match attr_lookup attrs name with
      | Some a => Ok a
      | None =>
          Raise (PyExc AttributeError
                   ("'" ++ class_name ++ "' object has no attribute '"
                    ++ name ++ "'"))
      end
  | OValue v => attribute_error v name
  end.

(** The fields of [DependencyStatus] the checks set. *)
Record DependencyStatus : Type := mkDependencyStatus {
  name : string;
  status : string;
  latency_ms : option Q;
  error_message : option string;
  last_checked : Z
}.

(** What one check observes of its environment: what [auto_config()] and
    [Memory(config=config)] do, failing imports included, the two readings
    of [time.time()], in seconds, and the reading of [datetime.utcnow()]. *)
Record observation : Type := mkObservation {
  auto_config : outcome pyobj;
  memory_init : pyobj -> outcome unit;
  start_time : Q;
  end_time : Q;
  utcnow : Z
}.

(** [round(x, 2)] of the float [x] *)
Definition round2 (x : Q) : Q := py_round x 2.

(** [round((time.time() - start_time) * 1000, 2)], the difference and the
    product being floats. *)
Definition latency (o : observation) : Q :=
  round2 (binary64 (binary64 (end_time o - start_time o) * inject_Z 1000)).

(** The error message of a status: [str(e)], cut to 197 characters and
    three dots when it is longer than 200. *)
Definition truncated (error_msg : string) : string :=
  if (200 <? String.length error_msg)%nat
  then (str_prefix 197 error_msg ++ "...")%string
  else error_msg.

(** The two statuses every check can return. *)
Definition healthy (dependency : string) (o : observation) : DependencyStatus :=
  mkDependencyStatus dependency "healthy" (Some (latency o)) None (utcnow o).

Definition unavailable (dependency : string) (e : exn) (o : observation)
  : DependencyStatus :=
  mkDependencyStatus dependency "unavailable" (Some (latency o))
    (Some (truncated (exn_str e))) (utcnow o).

Definition check_vector_store (o : observation) : DependencyStatus :=
  match auto_config o with
  | Raise e => unavailable "vector_store" e o
  | Ok config =>
      match memory_init o config with
      | Raise e => unavailable "vector_store" e o
      | Ok _ => healthy "vector_store" o
      end
  end.

Definition check_database (o : observation) : DependencyStatus :=
  match auto_config o with
  | Raise e => unavailable "database" e o
  | Ok config =>
      match memory_init o config with
      | Raise e => unavailable "database" e o
      | Ok _ => healthy "database" o
      end
  end.

(** The provider [check_llm] reads off the configuration. *)
Definition llm_provider_of (config : pyobj) : outcome pyobj :=
  match config with
  | OValue (VDict d) =>
      Ok (OValue match dict_get_or d "llm" (VDict []) with
                 | VDict llm => dict_get_or llm "provider" VNone
                 | _ => VNone
                 end)
  | _ =>
      if obj_hasattr config "llm" then
        match obj_getattr config "llm" with
        | Raise e => Raise e
        | Ok llm =>
            if obj_truthy llm then obj_getattr llm "provider"
            else Ok (OValue VNone)
        end
      else Ok (OValue VNone)
  end.

Definition check_llm (o : observation) : DependencyStatus :=
  match auto_config o with
  | Raise e => unavailable "llm" e o
  | Ok config =>
      match llm_provider_of config with
      | Raise e => unavailable "llm" e o
      | Ok llm_provider =>
          if negb (obj_truthy llm_provider) then
            mkDependencyStatus "llm" "unavailable" None
              (Some "LLM provider not configured") (utcnow o)
          else healthy "llm" o
      end
  end.

(** The three checks, each with what it observes, in the order they run. *)
Definition check_all_dependencies (vector_store database llm : observation)
  : list (string * DependencyStatus) :=
  [ ("vector_store", check_vector_store vector_store);
    ("database", check_database database);
    ("llm", check_llm llm) ].

End HealthCheck.

(** ** The status route (server/api/v1/system.py) *)

Module SystemRoutes.

Import HealthCheck.

(** The arguments [get_status] gives [StatusResponse] that vary from call
    to call; [version] and [started_at] are constants of the running
    server.  [dependencies] holds the statuses as the checks return them,
    which the route passes on dumped. *)
Record status_fields : Type := mkStatusFields {
  overall : string;                                  (* [status=] *)
  storage_type : pyobj;
  llm_provider : pyobj;
  uptime_seconds : Q;
  dependencies : list (string * DependencyStatus)
}.

(** [APIResponse(success=..., data=..., message=...)] *)
Record api_response (D : Type) : Type := mkAPIResponse {
  success : bool;
  data : D;
  message : string
}.
Arguments mkAPIResponse {D} success data message.
Arguments success {D} a.
Arguments data {D} a.
Arguments message {D} a.

(** What one call of [get_status] observes of its environment: what its own
    [auto_config()] does; what [(now - SERVER_START_TIME).total_seconds()]
    gives in the [try] and, later, in the handler; and what each of the
    three checks observes. *)
Record status_env : Type := mkStatusEnv {
  own_config : outcome pyobj;
  uptime : outcome Q;
  uptime_again : outcome Q;
  vector_store_check : observation;
  database_check : observation;
  llm_check : observation
}.

(** The storage provider [get_status] reads off the configuration. *)
Definition storage_type_of (config : pyobj) : outcome pyobj :=
  match config with
  | OValue (VDict d) =>
      let vector_store :=
        py_or (dict_get_or d "vector_store" VNone)
          (dict_get_or d "database" (VDict [])) in
      Ok (OValue match vector_store with
                 | VDict vs => dict_get_or vs "provider" VNone
                 | _ => VNone
                 end)
  | _ =>
      if obj_hasattr config "vector_store" then
        match obj_getattr config "vector_store" with
        | Raise e => Raise e
        | Ok vector_store =>
            if obj_truthy vector_store then obj_getattr vector_store "provider"
            else Ok (OValue VNone)
        end
      else Ok (OValue VNone)
  end.

(** The overall status [get_status] works out from the dependencies. *)
Definition system_status (dependencies : list (string * DependencyStatus))
  : string :=
  let degraded_count :=
    List.length
      (filter (fun dep => String.eqb (status (snd dep)) "degraded")
         dependencies) in
  let unavailable_count :=
    List.length
      (filter (fun dep => String.eqb (status (snd dep)) "unavailable")
         dependencies) in
  if (0 <? unavailable_count)%nat then "down"
  else if (0 <? degraded_count)%nat then "degraded"
  else "operational".

Section GetStatus.

(** [StatusResponse(...).model_dump(mode='json')].  The response model, a
    pydantic class of [server/models/response.py], is kept abstract: what it
    accepts and what it dumps is left open. *)
Variable Dump : Type.
Variable status_response : status_fields -> outcome Dump.

(** The body of the [try] of [get_status].  The LLM provider is read off
    the configuration by the same steps as in [check_llm]. *)
Definition get_status_try (env : status_env)
  : outcome (api_response Dump) :=
  match own_config env with
  | Raise e => Raise e
  | Ok powermem_config =>
      match storage_type_of powermem_config with
      | Raise e => Raise e
      | Ok storage_type =>
          match llm_provider_of powermem_config with
          | Raise e => Raise e
          | Ok llm_provider =>
              match uptime env with
              | Raise e => Raise e
              | Ok uptime_seconds =>
                  let dependencies :=
                    check_all_dependencies (vector_store_check env)
                      (database_check env) (llm_check env) in
                  match status_response
                          (mkStatusFields (system_status dependencies)
                             storage_type llm_provider uptime_seconds
                             dependencies) with
                  | Raise e => Raise e
                  | Ok status_data =>
                      Ok (mkAPIResponse true status_data
                            "System status retrieved successfully")
                  end
              end
          end
      end
  end.

(** The response the handler of [get_status] builds for the exception
    [e]. *)
Definition get_status_fallback (env : status_env) (e : exn)
  : outcome (api_response Dump) :=
  match uptime_again env with
  | Raise e' => Raise e'
  | Ok uptime_seconds =>
      match status_response
              (mkStatusFields "degraded" (OValue VNone) (OValue VNone)
                 uptime_seconds []) with
      | Raise e' => Raise e'
      | Ok status_data =>
          Ok (mkAPIResponse true status_data
                ("System status retrieved with errors: "
                 ++ str_prefix 100 (exn_str e)))
      end
  end.

Definition get_status (env : status_env) : outcome (api_response Dump) :=
  match get_status_try env with
  | Ok response => Ok response
  | Raise e => get_status_fallback env e
  end.

End GetStatus.

End SystemRoutes.

(** Every check healthy: the configuration loads and the memory
    initialises, for the vector store and for the database, and the
    configuration names an LLM provider. *)
Definition all_healthy (vector_store database llm : HealthCheck.observation)
  : Prop :=
  (exists config u,
      HealthCheck.auto_config vector_store = Ok config
      /\ HealthCheck.memory_init vector_store config = Ok u)
  /\ (exists config u,
        HealthCheck.auto_config database = Ok config
        /\ HealthCheck.memory_init database config = Ok u)
  /\ (exists config provider,
        HealthCheck.auto_config llm = Ok config
        /\ HealthCheck.llm_provider_of config = Ok provider
        /\ HealthCheck.obj_truthy provider = true).

(** ** More stores and inputs, for concrete runs *)

Module Fixtures.

(** A store whose records come back without content, the text being in the
    raw payload; its [add] answers with two entries, the second without
    identifier, and its [update] with a receipt that has no identifier. *)
Definition payload_store (records : list value) (c : call)
  : store_result * list value :=
  match c with
  | Add messages _ _ _ _ _ _ _ _ =>
      (inl (VDict [(VStr "results",
                    VList [ VDict [ (VStr "id", VInt 7);
                                    (VStr "memory", messages);
                                    (VStr "created_at", VStr "2024-01-01") ];
                            VDict [ (VStr "event", VStr "NONE") ] ])]),
       records)
  | Get memory_id _ _ =>
      (inl (VDict [(VStr "id", memory_id); (VStr "metadata", VDict [])]),
       records)
  | VectorStoreGet _ => (inl (VDict [(VStr "data", VStr "raw text")]), records)
  | Update _ _ _ _ _ => (inl (VDict [(VStr "status", VStr "ok")]), records)
  | _ => Demo.list_store records c
  end.

(** A record that has been read three times, and one read once. *)
Definition popular : value :=
  VDict [ (VStr "id", VInt 4); (VStr "content", VStr "often read");
          (VStr "type", VStr "fact"); (VStr "access_count", VInt 3);
          (VStr "created_at", VStr "2024-01-01T00:00:00+00:00") ].

Definition seen_once : value :=
  VDict [ (VStr "id", VInt 6); (VStr "content", VStr "read once");
          (VStr "access_count", VInt 1) ].

(** A JSON parser that knows two texts: a list of the tea record and a
    number, and the list that imports to. *)
Definition json_loads (s : string) : outcome value :=
  if String.eqb s "[tea, 7]" then Ok (VList [Demo.tea; VInt 7])
  else if String.eqb s "[cleaned tea]" then
    Ok (VList [ VDict [ (VStr "id", VInt 1);
                        (VStr "content", VStr "green tea");
                        (VStr "role", VStr "user");
                        (VStr "metadata", VDict [(VStr "a", VInt 1)]);
                        (VStr "created_at", VNone);
                        (VStr "updated_at", VNone) ] ])
  else if String.eqb s "{}" then Ok (VDict [])
  else Raise (PyExc ValueError "Expecting value").

(** A CSV reader that yields two rows, the second with metadata that is
    not JSON. *)
Definition csv_rows (s : string) : list dict * option exn :=
  ([ [ (VStr "id", VStr "1"); (VStr "content", VStr "green tea");
       (VStr "metadata", VStr "{}") ];
     [ (VStr "id", VStr "2"); (VStr "content", VStr "oat milk");
       (VStr "metadata", VStr "oops") ] ], None).

(** A health check that finds everything in place after an eighth of a
    second. *)
Definition all_well : HealthCheck.observation :=
  HealthCheck.mkObservation
    (Ok (HealthCheck.OValue
           (VDict [ (VStr "llm", VDict [(VStr "provider", VStr "openai")]) ])))
    (fun _ => Ok tt) 0%Q (1 # 8)%Q 0.

(** A health check whose configuration cannot be loaded. *)
Definition no_config : HealthCheck.observation :=
  HealthCheck.mkObservation
    (Raise (PyExc (OtherException "RuntimeError") "no configuration found"))
    (fun _ => Ok tt) 0%Q (1 # 8)%Q 0.

(** A check that finds the configuration in place and the store out of
    reach, after a quarter of a second. *)
Definition store_down : HealthCheck.observation :=
  HealthCheck.mkObservation
    (Ok (HealthCheck.OValue
           (VDict [ (VStr "llm", VDict [(VStr "provider", VStr "openai")]) ])))
    (fun _ => Raise (PyExc (OtherException "ConnectionError")
                       "connection refused"))
    0%Q (1 # 4)%Q 0.

(** A server, up for an hour, whose configuration names its providers and
    whose store is out of reach. *)
Definition store_out_of_reach : SystemRoutes.status_env :=
  SystemRoutes.mkStatusEnv
    (Ok (HealthCheck.OValue
           (VDict [ (VStr "vector_store",
                     VDict [(VStr "provider", VStr "oceanbase")]);
                    (VStr "llm", VDict [(VStr "provider", VStr "openai")]) ])))
    (Ok 3600%Q) (Ok 3600%Q) store_down store_down all_well.

(** The same server when no configuration can be loaded, by the route or by
    any check. *)
Definition configuration_missing : SystemRoutes.status_env :=
  SystemRoutes.mkStatusEnv
    (Raise (PyExc (OtherException "RuntimeError") "no configuration found"))
    (Ok 3600%Q) (Ok 3600%Q) no_config no_config
    no_config.

(** A response model that accepts every status and dumps it as it is. *)
Definition plain_response (fields : SystemRoutes.status_fields)
  : outcome SystemRoutes.status_fields := Ok fields.
End Fixtures.

(** * Properties *)

(** ** The monad and the loops *)

Lemma bind_ok {St A B} (c : M St A) (k : A -> M St B) w a w1 :
  c w = (Ok a, w1) -> bind c k w = k a w1.
Proof. intros H. unfold bind. rewrite H. reflexivity. Qed.

Lemma bind_raise {St A B} (c : M St A) (k : A -> M St B) w e w1 :
  c w = (Raise e, w1) -> bind c k w = (Raise e, w1).
Proof. intros H. unfold bind. rewrite H. reflexivity. Qed.

Lemma invoke_ok {St} (memory : St -> call -> store_result * St) c w v s1 :
  memory (store w) c = (inl v, s1) ->
  invoke memory c w = (Ok v, after_call w c s1).
Proof. intros H. unfold invoke. rewrite H. reflexivity. Qed.

(** The loop of [list_memories] is a filter. *)
Lemma for_each_keep_dicts {St} (items acc : list value) (w : world St) :
  for_each items acc
    (fun filtered_memories item =>
       if is_dict item then ret (filtered_memories ++ [item])
       else ret filtered_memories) w
  = (Ok (acc ++ filter is_dict items), w).
Proof.
  revert acc. induction items as [|x items IH]; intros acc; simpl.
  - rewrite app_nil_r. reflexivity.
  - unfold bind. destruct (is_dict x); simpl.
    + rewrite IH, <- app_assoc. reflexivity.
    + apply IH.
Qed.

Lemma bind_inv_ok {St A B} (c : M St A) (k : A -> M St B) w b w' :
  bind c k w = (Ok b, w') ->
  exists a w1, c w = (Ok a, w1) /\ k a w1 = (Ok b, w').
Proof.
  unfold bind. destruct (c w) as [[a | e] w1]; intros H.
  - exists a, w1. split; [reflexivity | exact H].
  - discriminate.
Qed.

Lemma lift_inv_ok {St A} (o : outcome A) (w : world St) a w' :
  lift o w = (Ok a, w') -> o = Ok a /\ w' = w.
Proof. unfold lift. intros H. injection H as -> ->. split; reflexivity. Qed.

Lemma ret_inv_ok {St A} (x : A) (w : world St) a w' :
  ret x w = (Ok a, w') -> a = x /\ w' = w.
Proof. unfold ret. intros H. injection H as -> ->. split; reflexivity. Qed.

(** Takes a successful run apart along its binds. *)
Ltac inv_run H :=
  repeat
    match type of H with
    | bind _ _ _ = (Ok _, _) =>
        let a := fresh "a" in
        let w1 := fresh "w" in
        let H1 := fresh "Hrun" in
        apply bind_inv_ok in H; destruct H as (a & w1 & H1 & H);
        try (apply lift_inv_ok in H1; destruct H1 as [H1 ->])
    | raise _ _ = (Ok _, _) => discriminate H
    | (if ?b then _ else _) _ = (Ok _, _) =>
        let E := fresh "Hif" in destruct b eqn:E
    end.

(** The same over every hypothesis at once. *)
Ltac inv_step :=
  match goal with
  | H : bind _ _ _ = (Ok _, _) |- _ =>
      apply bind_inv_ok in H; destruct H as (? & ? & ? & H)
  | H : lift _ _ = (Ok _, _) |- _ =>
      apply lift_inv_ok in H; destruct H as [H ?]; subst
  | H : ret _ _ = (Ok _, _) |- _ =>
      apply ret_inv_ok in H; destruct H as [? ?]; subst
  | H : raise _ _ = (Ok _, _) |- _ => discriminate H
  | H : (if ?b then _ else _) _ = (Ok _, _) |- _ => destruct b eqn:?
  end.

(** ** Computations that leave the world alone *)

Lemma pure_ret {St A} (a : A) : pure (@ret St A a).
Proof. intros w. reflexivity. Qed.

Lemma pure_raise {St A} (e : exn) : pure (@raise St A e).
Proof. intros w. reflexivity. Qed.

Lemma pure_lift {St A} (o : outcome A) : pure (@lift St A o).
Proof. intros w. reflexivity. Qed.

Lemma pure_bind {St A B} (c : M St A) (k : A -> M St B) :
  pure c -> (forall a, pure (k a)) -> pure (bind c k).
Proof.
  intros Hc Hk w. unfold bind. specialize (Hc w).
  destruct (c w) as [[a | e] w1]; simpl in *; subst w1;
    [apply Hk | reflexivity].
Qed.

Lemma pure_for_each {St A B} (step : A -> B -> M St A) (l : list B) :
  (forall acc x, pure (step acc x)) -> forall acc, pure (for_each l acc step).
Proof.
  intros Hs. induction l as [|x l IH]; intros acc; simpl.
  - apply pure_ret.
  - apply pure_bind; [apply Hs | intros a; apply IH].
Qed.

Lemma pure_run {St A} (c : M St A) (w w' : world St) (o : outcome A) :
  pure c -> c w = (o, w') -> w' = w.
Proof. intros Hc H. rewrite <- (Hc w), H. reflexivity. Qed.

Ltac pure_tac :=
  repeat first
    [ apply pure_ret | apply pure_raise | apply pure_lift
    | apply pure_bind; [|intros ?]
    | match goal with
      | |- pure (if ?b then _ else _) => destruct b
      | |- pure (match ?x with _ => _ end) => destruct x
      end ].

(** ** Lists split in two *)

Lemma NoDup_app_disjoint {A} (xs ys : list A) (x : A) :
  NoDup (xs ++ ys) -> In x xs -> ~ In x ys.
Proof.
  induction xs as [|a xs IH]; simpl; [tauto|].
  intros Hnd [-> | Hin] Hy.
  - inversion Hnd as [|? ? Hnot _]; subst. apply Hnot.
    apply in_or_app. right. exact Hy.
  - inversion Hnd; subst. exact (IH ltac:(assumption) Hin Hy).
Qed.

Lemma permutation_in_exactly_one {A} (xs ys l : list A) (x : A) :
  Permutation (xs ++ ys) l -> NoDup l -> In x l -> in_exactly_one xs ys x.
Proof.
  intros Hp Hnd Hin.
  assert (Hnd' : NoDup (xs ++ ys)).
  { apply (Permutation_NoDup (Permutation_sym Hp) Hnd). }
  apply (Permutation_in _ (Permutation_sym Hp)) in Hin.
  apply in_app_or in Hin. destruct Hin as [Hx | Hy].
  - left. split; [exact Hx|]. apply (NoDup_app_disjoint _ _ _ Hnd' Hx).
  - right. split; [|exact Hy]. intros Hx.
    apply (NoDup_app_disjoint _ _ _ Hnd' Hx Hy).
Qed.

Lemma NoDup_map_injective {A B} (f : A -> B) (l : list A) :
  (forall a b, f a = f b -> a = b) -> NoDup l -> NoDup (map f l).
Proof.
  intros Hinj. induction 1 as [|a l Hnot _ IH]; simpl; constructor;
    [|exact IH].
  intros Hin. apply in_map_iff in Hin. destruct Hin as (b & Hb & Hin).
  apply Hinj in Hb. subst b. exact (Hnot Hin).
Qed.

Lemma NoDup_indexes (n : nat) :
  NoDup (map (fun i => Some (Z.of_nat i)) (seq 0 n)).
Proof.
  apply NoDup_map_injective; [|apply seq_NoDup].
  intros a b H. injection H as H. lia.
Qed.

(** ** The batch loop

    A loop whose step always succeeds and puts one entry for the item on
    exactly one of the two lists leaves both lists extended by entries that,
    taken together, stand for the items one for one. *)

Section BatchLoop.

Context {St B : Type}.
Variable step : batch_acc -> B -> M St batch_acc.
Variable P : B -> Prop.
Variables S F : B -> value -> Prop.

Hypothesis step_one :
  forall ok failed x w, P x ->
    exists entry w',
      (step (ok, failed) x w = (Ok (ok ++ [entry], failed), w') /\ S x entry)
      \/ (step (ok, failed) x w = (Ok (ok, failed ++ [entry]), w')
          /\ F x entry).

Lemma batch_loop (l : list B) :
  Forall P l ->
  forall ok failed w,
  exists (oks fails : list (B * value)) w',
    for_each l (ok, failed) step w
    = (Ok (ok ++ map snd oks, failed ++ map snd fails), w')
    /\ Permutation (map fst oks ++ map fst fails) l
    /\ Forall (fun p => S (fst p) (snd p)) oks
    /\ Forall (fun p => F (fst p) (snd p)) fails.
Proof.
  induction 1 as [|x l Hx Hl IH]; intros ok failed w.
  - exists [], [], w. simpl. rewrite !app_nil_r. repeat split; constructor.
  - destruct (step_one ok failed x w Hx) as (entry & w1 & [[Hs HS] | [Hs HF]]).
    + destruct (IH (ok ++ [entry]) failed w1) as (oks & fails & w' & Hr & Hp & Ho & Hf).
      exists ((x, entry) :: oks), fails, w'. simpl for_each.
      rewrite (bind_ok _ _ _ _ _ Hs), Hr. simpl. rewrite <- app_assoc.
      repeat split; simpl; auto.
    + destruct (IH ok (failed ++ [entry]) w1) as (oks & fails & w' & Hr & Hp & Ho & Hf).
      exists oks, ((x, entry) :: fails), w'. simpl for_each.
      rewrite (bind_ok _ _ _ _ _ Hs), Hr. simpl. rewrite <- app_assoc.
      repeat split; simpl; auto.
      symmetry. apply Permutation_cons_app. symmetry. exact Hp.
Qed.

End BatchLoop.

(** ** enumerate *)

Lemma map_fst_combine_seq {A} (l : list A) (s : nat) :
  map fst (combine (seq s (List.length l)) l) = seq s (List.length l).
Proof.
  revert s. induction l as [|x l IH]; intros s; simpl; [reflexivity|].
  rewrite IH. reflexivity.
Qed.

Lemma map_fst_enumerate {A} (l : list A) :
  map fst (enumerate l) = seq 0 (List.length l).
Proof. apply map_fst_combine_seq. Qed.

Lemma In_combine_seq_nth {A} (l : list A) (s i : nat) (x : A) :
  In (i, x) (combine (seq s (List.length l)) l) ->
  (s <= i)%nat /\ nth_error l (i - s) = Some x.
Proof.
  revert s. induction l as [|y l IH]; intros s; simpl; [tauto|].
  intros [H | H].
  - injection H as <- <-. rewrite Nat.sub_diag. split; [lia | reflexivity].
  - apply IH in H. destruct H as [Hle Hn]. split; [lia|].
    replace (i - s)%nat with (S (i - S s)) by lia. exact Hn.
Qed.

Lemma In_enumerate_nth {A} (l : list A) (i : nat) (x : A) :
  In (i, x) (enumerate l) -> nth_error l i = Some x.
Proof.
  intros H. apply In_combine_seq_nth in H. destruct H as [_ H].
  rewrite Nat.sub_0_r in H. exact H.
Qed.

(** A loop that ignores the index runs the same over the enumeration. *)
Lemma for_each_enumerate {St A B} (step : A -> B -> M St A) (l : list B)
    (s : nat) (acc : A) (w : world St) :
  for_each (combine (seq s (List.length l)) l) acc
    (fun a p => step a (snd p)) w
  = for_each l acc step w.
Proof.
  revert s acc w. induction l as [|x l IH]; intros s acc w; simpl;
    [reflexivity|].
  unfold bind. destruct (step acc x w) as [[a | e] w1]; [apply IH | reflexivity].
Qed.

Lemma Forall_snd_combine {A B} (Q : B -> Prop) (l1 : list A) (l2 : list B) :
  Forall Q l2 -> Forall (fun p => Q (snd p)) (combine l1 l2).
Proof.
  intros H. apply Forall_forall. intros [a b] Hin. simpl.
  apply in_combine_r in Hin. rewrite Forall_forall in H. auto.
Qed.

Lemma map_entries_of_items {B C} (g : value -> C) (f : B -> C)
    (ps : list (B * value)) :
  Forall (fun p => g (snd p) = f (fst p)) ps ->
  map g (map snd ps) = map f (map fst ps).
Proof.
  induction 1 as [|p ps Hp _ IH]; simpl; [reflexivity|].
  rewrite Hp, IH. reflexivity.
Qed.

(** A loop over the enumerated items whose step files each item, with its
    index, on one of the two lists, ends with every index filed once. *)
Lemma indexed_batch_loop {St} (step : batch_acc -> nat * value -> M St batch_acc) :
  (forall ok failed item w, is_dict (snd item) = true ->
     exists entry w',
       (step (ok, failed) item w = (Ok (ok ++ [entry], failed), w')
        /\ entry_index entry = Some (Z.of_nat (fst item)))
       \/ (step (ok, failed) item w = (Ok (ok, failed ++ [entry]), w')
           /\ entry_index entry = Some (Z.of_nat (fst item)))) ->
  forall (items : list value) (w : world St),
    Forall (fun m => is_dict m = true) items ->
    exists ok failed w',
      for_each (enumerate items) ([], []) step w = (Ok (ok, failed), w')
      /\ (List.length ok + List.length failed = List.length items)%nat
      /\ indexes_partition ok failed (List.length items).
Proof.
  intros Hstep items w Hitems.
  destruct (batch_loop step (fun p => is_dict (snd p) = true)
              (fun p e => entry_index e = Some (Z.of_nat (fst p)))
              (fun p e => entry_index e = Some (Z.of_nat (fst p)))
              Hstep (enumerate items)
              (Forall_snd_combine _ _ _ Hitems) [] [] w)
    as (oks & fails & w' & Hr & Hp & Ho & Hf).
  exists (map snd oks), (map snd fails), w'. split; [exact Hr|]. split.
  - apply Permutation_length in Hp.
    rewrite length_app, !length_map in Hp. rewrite !length_map, Hp.
    rewrite <- (length_map fst (enumerate items)), map_fst_enumerate.
    apply length_seq.
  - assert (Hperm : Permutation
                      (map entry_index (map snd oks)
                       ++ map entry_index (map snd fails))
                      (map (fun i => Some (Z.of_nat i))
                         (seq 0 (List.length items)))).
    { rewrite (map_entries_of_items entry_index
                 (fun p => Some (Z.of_nat (fst p))) oks Ho).
      rewrite (map_entries_of_items entry_index
                 (fun p => Some (Z.of_nat (fst p))) fails Hf).
      rewrite <- map_app, <- map_fst_enumerate.
      rewrite <- (map_map fst (fun i => Some (Z.of_nat i))).
      apply Permutation_map, Permutation_map. exact Hp. }
    split; [exact Hperm|]. intros i Hi.
    apply (permutation_in_exactly_one _ _ _ _ Hperm (NoDup_indexes _)).
    apply (in_map (fun j => Some (Z.of_nat j))). apply in_seq. lia.
Qed.

(** ** Keys and dicts *)

Lemma Qeq_bool_sym (x y : Q) : Qeq_bool x y = Qeq_bool y x.
Proof.
  destruct (Qeq_bool x y) eqn:E, (Qeq_bool y x) eqn:F; try reflexivity.
  - apply Qeq_bool_iff in E. symmetry in E. apply Qeq_bool_iff in E. congruence.
  - apply Qeq_bool_iff in F. symmetry in F. apply Qeq_bool_iff in F. congruence.
Qed.

Lemma Qeq_bool_trans (x y z : Q) :
  Qeq_bool x y = true -> Qeq_bool y z = true -> Qeq_bool x z = true.
Proof.
  rewrite !Qeq_bool_iff. intros H1 H2. rewrite H1. exact H2.
Qed.

Lemma key_eqb_sym (a b : value) : key_eqb a b = key_eqb b a.
Proof.
  unfold key_eqb.
  destruct (num_of a) as [x|] eqn:Ea, (num_of b) as [y|] eqn:Eb;
    try reflexivity.
  - apply Qeq_bool_sym.
  - destruct a, b; try reflexivity; try discriminate. apply String.eqb_sym.
Qed.

Lemma key_eqb_trans (a b c : value) :
  key_eqb a b = true -> key_eqb b c = true -> key_eqb a c = true.
Proof.
  unfold key_eqb.
  destruct (num_of a) as [x|] eqn:Ea, (num_of b) as [y|] eqn:Eb,
           (num_of c) as [z|] eqn:Ec; try discriminate.
  - apply Qeq_bool_trans.
  - destruct a, b, c; try discriminate; try reflexivity.
    rewrite !String.eqb_eq. congruence.
Qed.

Lemma key_eqb_refl (a : value) : hashable a = true -> key_eqb a a = true.
Proof.
  destruct a as [|b|z|q|s|l|d]; simpl; try discriminate; intros _;
    unfold key_eqb; simpl; try reflexivity.
  - destruct b; reflexivity.
  - apply Qeq_bool_iff. reflexivity.
  - apply Qeq_bool_iff. reflexivity.
  - apply String.eqb_refl.
Qed.

(** Keys that are equal look the same from any third key. *)
Lemma key_eqb_congr (a b c : value) :
  key_eqb a b = true -> key_eqb a c = key_eqb b c.
Proof.
  intros Hab.
  destruct (key_eqb a c) eqn:Hac, (key_eqb b c) eqn:Hbc; try reflexivity.
  - rewrite key_eqb_sym in Hab.
    rewrite (key_eqb_trans _ _ _ Hab Hac) in Hbc. discriminate.
  - rewrite (key_eqb_trans _ _ _ Hab Hbc) in Hac. discriminate.
Qed.

Lemma dict_get_congr (d : dict) (a b : value) :
  key_eqb a b = true -> dict_get d a = dict_get d b.
Proof.
  intros Hab. induction d as [|[k v] d IH]; simpl; [reflexivity|].
  rewrite (key_eqb_sym k a), (key_eqb_sym k b), (key_eqb_congr _ _ _ Hab), IH.
  reflexivity.
Qed.

Lemma dict_get_set (d : dict) (k v k' : value) :
  dict_get (dict_set d k v) k'
  = if key_eqb k k' then Some v else dict_get d k'.
Proof.
  induction d as [|[k0 v0] d IH]; simpl; [reflexivity|].
  destruct (key_eqb k0 k) eqn:E; simpl.
  - rewrite (key_eqb_congr _ _ k' E). destruct (key_eqb k k'); reflexivity.
  - rewrite IH. destruct (key_eqb k0 k') eqn:F; [|reflexivity].
    destruct (key_eqb k k') eqn:G; [|reflexivity].
    rewrite key_eqb_sym in G. rewrite (key_eqb_trans _ _ _ F G) in E.
    discriminate.
Qed.

(** [{**a, **b}] looks a key up in [b] first and in [a] otherwise. *)
Lemma dict_merge_get (a b : dict) (k : value) :
  distinct_keys b = true ->
  dict_get (dict_merge a b) k
  = match dict_get b k with Some v => Some v | None => dict_get a k end.
Proof.
  unfold dict_merge. revert a.
  induction b as [|[k1 v1] b IH]; intros a Hb; simpl; [reflexivity|].
  simpl in Hb. apply andb_true_iff in Hb. destruct Hb as [Hk1 Hb].
  rewrite (IH _ Hb), dict_get_set.
  destruct (key_eqb k1 k) eqn:E; [|reflexivity].
  rewrite <- (dict_get_congr b _ _ E).
  unfold dict_mem in Hk1. destruct (dict_get b k1); [discriminate|reflexivity].
Qed.

(** ** The deduplicating set *)

Lemma set_add_length (s : list value) (k : value) :
  (List.length (set_add s k) <= S (List.length s))%nat.
Proof.
  unfold set_add. destruct (existsb _ s); [lia|].
  rewrite length_app. simpl. lia.
Qed.

Lemma fold_set_add_length (ks s : list value) :
  (List.length (fold_left set_add ks s) <= List.length s + List.length ks)%nat.
Proof.
  revert s. induction ks as [|k ks IH]; intros s; simpl; [lia|].
  specialize (IH (set_add s k)). pose proof (set_add_length s k). lia.
Qed.

Lemma set_add_keeps (s : list value) (a b : value) :
  existsb (key_eqb b) s = true -> existsb (key_eqb b) (set_add s a) = true.
Proof.
  intros H. unfold set_add. destruct (existsb (key_eqb a) s); [exact H|].
  rewrite existsb_app, H. reflexivity.
Qed.

Lemma fold_set_add_keeps (ks s : list value) (b : value) :
  existsb (key_eqb b) s = true ->
  existsb (key_eqb b) (fold_left set_add ks s) = true.
Proof.
  revert s. induction ks as [|k ks IH]; intros s H; simpl; [exact H|].
  apply IH, set_add_keeps, H.
Qed.

(** After [a] is added, every key equal to [a] is found in the set. *)
Lemma set_add_member (s : list value) (a b : value) :
  key_eqb a b = true -> existsb (key_eqb b) (set_add s a) = true.
Proof.
  intros Hab. unfold set_add. destruct (existsb (key_eqb a) s) eqn:E.
  - apply existsb_exists in E. destruct E as (x & Hin & Hax).
    apply existsb_exists. exists x. split; [exact Hin|].
    rewrite <- (key_eqb_congr _ _ x Hab). exact Hax.
  - rewrite existsb_app. simpl. rewrite key_eqb_sym, Hab.
    rewrite orb_true_r. reflexivity.
Qed.

Lemma set_add_idem (s : list value) (k : value) :
  hashable k = true -> set_add (set_add s k) k = set_add s k.
Proof.
  intros Hk. unfold set_add at 1.
  rewrite (set_add_member s k k (key_eqb_refl k Hk)). reflexivity.
Qed.

Lemma fold_set_add_distinct (ks s : list value) :
  keys_distinct ks = true ->
  (forall k, In k ks -> existsb (key_eqb k) s = false) ->
  List.length (fold_left set_add ks s) = (List.length s + List.length ks)%nat.
Proof.
  revert s. induction ks as [|k ks IH]; intros s Hd Hs; simpl; [lia|].
  simpl in Hd. apply andb_true_iff in Hd. destruct Hd as [Hk Hd].
  apply negb_true_iff in Hk.
  rewrite IH; [| exact Hd |].
  - unfold set_add. rewrite (Hs k (or_introl eq_refl)).
    rewrite length_app. simpl. lia.
  - intros k' Hin. unfold set_add. rewrite (Hs k (or_introl eq_refl)).
    rewrite existsb_app, (Hs k' (or_intror Hin)). simpl.
    rewrite orb_false_r.
    destruct (key_eqb k' k) eqn:E; [|reflexivity].
    rewrite <- Hk. symmetry. apply existsb_exists. exists k'.
    split; [exact Hin|]. rewrite key_eqb_sym. exact E.
Qed.

(** Two equal keys in the list cost the set one member. *)
Lemma fold_set_add_pair (l1 l2 l3 s : list value) (a b : value) :
  key_eqb a b = true ->
  (List.length (fold_left set_add (l1 ++ a :: l2 ++ b :: l3) s) + 1
   <= List.length s + List.length (l1 ++ a :: l2 ++ b :: l3))%nat.
Proof.
  intros Hab. rewrite fold_left_app. simpl. rewrite fold_left_app. simpl.
  set (s1 := fold_left set_add l1 s).
  set (s3 := fold_left set_add l2 (set_add s1 a)).
  assert (Hmem : existsb (key_eqb b) s3 = true).
  { apply fold_set_add_keeps, set_add_member, Hab. }
  assert (Hb : set_add s3 b = s3).
  { unfold set_add. rewrite Hmem. reflexivity. }
  rewrite Hb.
  pose proof (fold_set_add_length l3 s3).
  pose proof (fold_set_add_length l2 (set_add s1 a)). fold s3 in H0.
  pose proof (set_add_length s1 a).
  pose proof (fold_set_add_length l1 s). fold s1 in H2.
  rewrite !length_app. simpl. rewrite length_app. simpl. lia.
Qed.

(** ** Rounding *)

Lemma round_half_even_near (y : Q) :
  (inject_Z (round_half_even y) - (1 # 2) <= y
   /\ y <= inject_Z (round_half_even y) + (1 # 2))%Q.
Proof.
  unfold round_half_even.
  pose proof (Qfloor_le y) as Hlo. pose proof (Qlt_floor y) as Hhi.
  rewrite inject_Z_plus in Hhi. change (inject_Z 1) with 1%Q in Hhi.
  destruct (y - inject_Z (Qfloor y) ?= 1 # 2)%Q eqn:C;
    [ apply Qeq_alt in C; destruct (Z.even (Qfloor y))
    | apply Qlt_alt in C | apply Qgt_alt in C ];
    rewrite ?inject_Z_plus; change (inject_Z 1) with 1%Q;
    generalize dependent (inject_Z (Qfloor y)); intros f; intros; split; lra.
Qed.

Lemma round_half_even_range (y : Q) (n : Z) :
  (0 <= y)%Q -> (y <= inject_Z n)%Q -> 0 <= round_half_even y <= n.
Proof.
  intros H0 Hn. destruct (round_half_even_near y) as [Hlo Hhi].
  split.
  - destruct (Z_le_gt_dec 0 (round_half_even y)) as [|Hneg]; [assumption|].
    assert (round_half_even y + 1 <= 0) as Hz by lia.
    rewrite Zle_Qle, inject_Z_plus in Hz.
    change (inject_Z 1) with 1%Q in Hz. change (inject_Z 0) with 0%Q in Hz.
    generalize dependent (inject_Z (round_half_even y)). intros r; intros. lra.
  - destruct (Z_le_gt_dec (round_half_even y) n) as [|Hbig]; [assumption|].
    assert (n + 1 <= round_half_even y) as Hz by lia.
    rewrite Zle_Qle, inject_Z_plus in Hz. change (inject_Z 1) with 1%Q in Hz.
    generalize dependent (inject_Z (round_half_even y)). intros r.
    generalize dependent (inject_Z n). intros q; intros. lra.
Qed.

(** A number of the unit interval sits at or below exponent 0. *)
Lemma exponent_of_unit (x : Q) : (0 < x)%Q -> (x <= 1)%Q -> exponent_of x <= 0.
Proof.
  intros H0 H1. destruct x as [a b]. unfold exponent_of. cbn [Qnum Qden].
  unfold Qlt in H0. unfold Qle in H1. cbn in H0, H1.
  assert (Ha : 0 < a) by lia.
  assert (Hab : a <= Zpos b) by lia.
  rewrite Z.abs_eq by lia.
  pose proof (Z.log2_le_mono _ _ Hab).
  destruct (Qle_bool _ _); lia.
Qed.

Lemma ulp_unit (x : Q) :
  (0 < x)%Q -> (x <= 1)%Q ->
  exists p : positive, ulp x = 1 # p /\ (2 ^ 52 <= Zpos p)%Z.
Proof.
  intros H0 H1. pose proof (exponent_of_unit x H0 H1) as He.
  unfold ulp, pow2.
  set (n := Z.max (exponent_of x) (-1022) - 52).
  assert (Hn : n <= -52) by (unfold n; lia).
  destruct (0 <=? n) eqn:E; [apply Z.leb_le in E; lia|].
  exists (Z.to_pos (2 ^ (- n))). split; [reflexivity|].
  assert (2 ^ 52 <= 2 ^ (- n)) by (apply Z.pow_le_mono_r; lia).
  rewrite Z2Pos.id; [assumption|]. apply Z.pow_pos_nonneg; lia.
Qed.

(** Rounding to a grid of step [1 # p]. *)
Lemma round_to_grid (x : Q) (p : positive) :
  (0 <= x)%Q -> (x <= 1)%Q ->
  let r := (inject_Z (round_half_even (x / (1 # p))) * (1 # p))%Q in
  (0 <= r /\ r <= 1)%Q
  /\ (x - (1 # 2 * p) <= r /\ r <= x + (1 # 2 * p))%Q.
Proof.
  intros H0 H1 r.
  set (q := inject_Z (Zpos p)).
  assert (Hq : (0 < q)%Q) by reflexivity.
  unfold r. change (x / (1 # p))%Q with (x * q)%Q.
  assert (Hy0 : (0 <= x * q)%Q) by nra.
  assert (Hy1 : (x * q <= inject_Z (Zpos p))%Q) by (fold q; nra).
  pose proof (round_half_even_range _ _ Hy0 Hy1) as [Hm0 Hm1].
  destruct (round_half_even_near (x * q)) as [Hlo Hhi].
  set (m := round_half_even (x * q)) in *.
  destruct x as [a b].
  unfold Qle, Qminus, Qplus, Qmult, Qopp, q, inject_Z in *. cbn in *.
  rewrite ?Pos2Z.inj_mul in *. split; split; nia.
Qed.

(** [binary64] on the unit interval: it stays there, and moves a number by
    at most [2^-53]. *)
Lemma binary64_unit (x : Q) :
  (0 <= x)%Q -> (x <= 1)%Q ->
  (0 <= binary64 x /\ binary64 x <= 1)%Q
  /\ (x - (1 # 2 ^ 53) <= binary64 x /\ binary64 x <= x + (1 # 2 ^ 53))%Q.
Proof.
  intros H0 H1. unfold binary64.
  destruct (Qeq_bool x 0) eqn:E.
  - apply Qeq_bool_eq in E. rewrite E. repeat split; discriminate.
  - assert (Hpos : (0 < x)%Q).
    { apply Qeq_bool_neq in E. apply Qle_lteq in H0.
      destruct H0 as [?|Heq]; [assumption|]. symmetry in Heq. contradiction. }
    destruct (ulp_unit x Hpos H1) as (p & Hu & Hp). rewrite Hu.
    rewrite Qred_correct.
    destruct (round_to_grid x p H0 H1) as [Hr Hn]. split; [exact Hr|].
    assert (Hs : (1 # 2 * p <= 1 # 2 ^ 53)%Q).
    { unfold Qle. cbn [Qnum Qden]. rewrite Pos2Z.inj_mul.
      change (Zpos (2 ^ 53)) with (2 * 2 ^ 52). lia. }
    destruct Hn. split; lra.
Qed.

(** [round4] of the quotient of two integers, the first at most the
    second. *)
Lemma round4_ratio (c t : Z) :
  0 <= c <= t -> 0 < t ->
  let x := int_truediv c t in
  exists k : Z,
    0 <= k <= 10000
    /\ round4 x = binary64 (inject_Z k / inject_Z 10000)
    /\ (inject_Z k - (1 # 2) <= x * inject_Z 10000
        /\ x * inject_Z 10000 <= inject_Z k + (1 # 2))%Q
    /\ (0 <= round4 x /\ round4 x <= 1)%Q
    /\ (inject_Z c / inject_Z t - (1 # 2 ^ 53) <= x
        /\ x <= inject_Z c / inject_Z t + (1 # 2 ^ 53))%Q
    /\ (inject_Z k / inject_Z 10000 - (1 # 2 ^ 53) <= round4 x
        /\ round4 x <= inject_Z k / inject_Z 10000 + (1 # 2 ^ 53))%Q.
Proof.
  intros Hc Ht x.
  assert (Hq : (0 <= inject_Z c / inject_Z t
                /\ inject_Z c / inject_Z t <= 1)%Q).
  { assert (Htq : (0 < inject_Z t)%Q).
    { change 0%Q with (inject_Z 0). rewrite <- Zlt_Qlt. exact Ht. }
    split.
    - apply Qle_shift_div_l; [exact Htq|]. rewrite Qmult_0_l.
      change 0%Q with (inject_Z 0). rewrite <- Zle_Qle. lia.
    - apply Qle_shift_div_r; [exact Htq|]. rewrite Qmult_1_l.
      rewrite <- Zle_Qle. lia. }
  destruct Hq as [Hq0 Hq1].
  destruct (binary64_unit _ Hq0 Hq1) as [Hx Hxnear]. fold (int_truediv c t) in Hx, Hxnear.
  fold x in Hx, Hxnear.
  assert (Hy : (0 <= x * inject_Z 10000 /\ x * inject_Z 10000 <= inject_Z 10000)%Q).
  { change (inject_Z 10000) with 10000%Q. destruct Hx. split; lra. }
  destruct Hy as [Hy0 Hy1].
  pose proof (round_half_even_range _ _ Hy0 Hy1) as Hr.
  exists (round_half_even (x * inject_Z 10000)).
  split; [exact Hr|]. split; [reflexivity|].
  split; [apply round_half_even_near|].
  assert (Hd : (0 <= inject_Z (round_half_even (x * inject_Z 10000))
                     / inject_Z 10000
                /\ inject_Z (round_half_even (x * inject_Z 10000))
                   / inject_Z 10000 <= 1)%Q).
  { destruct Hr as [Hr0 Hr1].
    rewrite Zle_Qle in Hr0, Hr1.
    change (inject_Z 0) with 0%Q in Hr0.
    change (inject_Z 10000) with 10000%Q in *.
    generalize dependent (inject_Z (round_half_even (x * 10000))).
    intros r; intros. split.
    - apply Qle_shift_div_l; lra.
    - apply Qle_shift_div_r; lra. }
  destruct Hd as [Hd0 Hd1].
  destruct (binary64_unit _ Hd0 Hd1) as [Hb Hbnear].
  split; [exact Hb|]. split; [exact Hxnear | exact Hbnear].
Qed.

Lemma py_hash_ok (k : value) (u : unit) : py_hash k = Ok u -> hashable k = true.
Proof. unfold py_hash. destruct (hashable k); [reflexivity | discriminate]. Qed.

Lemma count_of_cons (p : value -> bool) (m : value) (ms : list value) :
  count_of p (m :: ms) = Z.b2z (p m) + count_of p ms.
Proof.
  unfold count_of. simpl. destruct (p m); simpl Z.b2z; simpl List.length; lia.
Qed.

Lemma length_str_chars (s : string) :
  List.length (str_chars s) = String.length s.
Proof. induction s as [|c s IH]; simpl; [reflexivity | rewrite IH; reflexivity]. Qed.

(** Whatever has a length can be iterated, over that many items. *)
Lemma py_len_iter (v : value) (n : Z) :
  py_len v = Ok n ->
  exists items, py_iter v = Ok items /\ n = Z.of_nat (List.length items).
Proof.
  destruct v; simpl; try discriminate; intros H; injection H as <-;
    eexists; (split; [reflexivity|]).
  - rewrite length_str_chars. reflexivity.
  - reflexivity.
  - rewrite length_map. reflexivity.
Qed.

Lemma try_except_inv_ok {St A} (body : M St A) (handler : exn -> M St A)
    (w w' : world St) (a : A) :
  try_except body handler w = (Ok a, w') ->
  body w = (Ok a, w')
  \/ exists e w1, body w = (Raise e, w1) /\ handler e w1 = (Ok a, w').
Proof.
  unfold try_except. destruct (body w) as [[x | e] w1]; intros H.
  - left. exact H.
  - right. eauto.
Qed.

Section Properties.

Context {St : Type}.
Variable memory : St -> call -> store_result * St.
Variable builtins : Builtins.
Variable now_us : Z.

(** ** get_memory *)

Lemma get_memory_not_found (memory_id user_id agent_id : value) (w : world St)
    (s1 : St) :
  memory (store w) (Get memory_id user_id agent_id) = (inl VNone, s1) ->
  get_memory memory builtins memory_id user_id agent_id w
  = (Raise (APIError MEMORY_NOT_FOUND
              ("Memory " ++ py_str builtins memory_id ++ " not found") 404),
     after_call w (Get memory_id user_id agent_id) s1).
Proof.
  intros H. unfold get_memory, try_except.
  rewrite (bind_ok _ _ _ _ _ (invoke_ok memory _ _ _ _ H)). reflexivity.
Qed.

(** [get_memory] asks the store first; it returns a dict or raises an
    [APIError] that is not-found (404) or internal (500). *)
Lemma get_memory_cases (memory_id user_id agent_id : value) (w : world St) :
  exists w1 rest,
    snd (get_memory memory builtins memory_id user_id agent_id w) = w1
    /\ calls w1 = calls w ++ Get memory_id user_id agent_id :: rest
    /\ ((exists d, fst (get_memory memory builtins memory_id user_id agent_id w)
                   = Ok (VDict d))
        \/ (exists msg,
              fst (get_memory memory builtins memory_id user_id agent_id w)
              = Raise (APIError MEMORY_NOT_FOUND msg 404))
        \/ (exists msg,
              fst (get_memory memory builtins memory_id user_id agent_id w)
              = Raise (APIError INTERNAL_ERROR msg 500))).
Proof.
  unfold get_memory, try_except, bind, invoke.
  destruct (memory (store w) (Get memory_id user_id agent_id))
    as [[v | [cls msg]] s1]; simpl.
  2:{ eexists _, []. split; [reflexivity|]. split; [reflexivity|]. eauto. }
  destruct v; simpl;
    try (eexists _, []; split; [reflexivity|]; split; [reflexivity|]; eauto;
         fail).
  destruct (negb (truthy _) || key_eqb _ _); simpl.
  2:{ eexists _, []. split; [reflexivity|]. split; [reflexivity|]. eauto. }
  unfold content_from_payload, try_except, bind, invoke. simpl.
  destruct (memory s1 (VectorStoreGet memory_id)) as [[p | [cls msg]] s2]; simpl.
  2:{ eexists _, [_]. split; [reflexivity|]. split.
      - rewrite <- app_assoc. reflexivity.
      - eauto. }
  destruct (truthy p); simpl.
  2:{ eexists _, [_]. split; [reflexivity|]. split.
      - rewrite <- app_assoc. reflexivity.
      - eauto. }
  destruct (py_get p "data" (VStr "")) as [dc | e]; simpl.
  2:{ eexists _, [_]. split; [reflexivity|]. split.
      - rewrite <- app_assoc. reflexivity.
      - eauto. }
  destruct (truthy dc); simpl;
    (eexists _, [_]; split; [reflexivity|]; split;
     [rewrite <- app_assoc; reflexivity | eauto]).
Qed.

(** ** update_memory: the order of fetch and validation *)

(** C9. [update_memory] fetches the existing record before it looks at its
    arguments: when the store has no record for the identifier, the call
    fails with the not-found error whatever [content] and [metadata] are,
    both null included. *)
Theorem update_memory_not_found_first
    (memory_id content user_id agent_id metadata : value) (w : world St)
    (s1 : St) :
  memory (store w) (Get memory_id user_id agent_id) = (inl VNone, s1) ->
  update_memory memory builtins memory_id content user_id agent_id metadata w
  = (Raise (APIError MEMORY_NOT_FOUND
              ("Memory " ++ py_str builtins memory_id ++ " not found") 404),
     after_call w (Get memory_id user_id agent_id) s1)
  /\ fails_with
       (update_memory memory builtins memory_id VNone user_id agent_id VNone w)
       NotFound.
Proof.
  intros H.
  assert (E : forall c m,
             update_memory memory builtins memory_id c user_id agent_id m w
             = (Raise (APIError MEMORY_NOT_FOUND
                         ("Memory " ++ py_str builtins memory_id ++ " not found")
                         404),
                after_call w (Get memory_id user_id agent_id) s1)).
  { intros c m. unfold update_memory, try_except.
    rewrite (bind_raise _ _ _ _ _ (get_memory_not_found _ _ _ _ _ H)).
    reflexivity. }
  split; [apply E|]. rewrite E. eexists. split; reflexivity.
Qed.

(** C3, as the code has it.  With [content] and [metadata] both null the
    call always fails, and never with the invalid-argument kind: once the
    record has been fetched, the [ValueError] of the argument check is caught
    and raised again as the update-failed error, status 500, with the check's
    text; no update reaches the store.  When the fetch fails, the call
    raises the very error of the fetch, unwrapped and in the world the fetch
    left, and that error is the not-found or the internal error. *)
Theorem update_memory_null_arguments
    (memory_id user_id agent_id : value) (w : world St) :
  let r := update_memory memory builtins memory_id VNone user_id agent_id
             VNone w in
  (exists e, fst r = Raise e
             /\ (kind_of e = UpdateFailed \/ kind_of e = NotFound
                 \/ kind_of e = InternalError))
  /\ ~ fails_with r InvalidArgument
  /\ (forall existing w1,
        get_memory memory builtins memory_id user_id agent_id w
        = (Ok existing, w1) ->
        r = (Raise (APIError MEMORY_UPDATE_FAILED
                      ("Failed to update memory: "
                       ++ "At least one of content or metadata must be provided")
                      500), w1))
  /\ (forall e w1,
        get_memory memory builtins memory_id user_id agent_id w
        = (Raise e, w1) ->
        r = (Raise e, w1)
        /\ (kind_of e = NotFound \/ kind_of e = InternalError)).
Proof.
  intros r.
  assert (Hok : forall existing w1,
             get_memory memory builtins memory_id user_id agent_id w
             = (Ok existing, w1) ->
             r = (Raise (APIError MEMORY_UPDATE_FAILED
                           ("Failed to update memory: "
                            ++ "At least one of content or metadata must be provided")
                           500), w1)).
  { intros existing w1 H. unfold r, update_memory, try_except.
    rewrite (bind_ok _ _ _ _ _ H). reflexivity. }
  assert (Hkind : exists e, fst r = Raise e
             /\ (kind_of e = UpdateFailed \/ kind_of e = NotFound
                 \/ kind_of e = InternalError)).
  { destruct (get_memory_cases memory_id user_id agent_id w)
      as (w1 & rest & Hw & _ & Hc).
    destruct (get_memory memory builtins memory_id user_id agent_id w)
      as [o w1'] eqn:Hg.
    simpl in Hc, Hw. subst w1'.
    destruct Hc as [[d Hd] | [[msg Hm] | [msg Hm]]]; subst o.
    - rewrite (Hok _ _ eq_refl). eexists. split; [reflexivity|]. left. reflexivity.
    - unfold r, update_memory, try_except.
      rewrite (bind_raise _ _ _ _ _ Hg). eexists. split; [reflexivity|].
      right. left. reflexivity.
    - unfold r, update_memory, try_except.
      rewrite (bind_raise _ _ _ _ _ Hg). eexists. split; [reflexivity|].
      right. right. reflexivity. }
  assert (Hfail : forall e w1,
             get_memory memory builtins memory_id user_id agent_id w
             = (Raise e, w1) ->
             r = (Raise e, w1)
             /\ (kind_of e = NotFound \/ kind_of e = InternalError)).
  { intros e w1 Hg.
    destruct (get_memory_cases memory_id user_id agent_id w)
      as (w2 & rest & _ & _ & Hc).
    rewrite Hg in Hc. simpl in Hc.
    destruct Hc as [[d Hd] | [[msg Hm] | [msg Hm]]];
      [discriminate | injection Hm as -> | injection Hm as ->].
    - split; [|left; reflexivity].
      unfold r, update_memory, try_except.
      rewrite (bind_raise _ _ _ _ _ Hg). reflexivity.
    - split; [|right; reflexivity].
      unfold r, update_memory, try_except.
      rewrite (bind_raise _ _ _ _ _ Hg). reflexivity. }
  split; [exact Hkind|]. split; [|split; [exact Hok|exact Hfail]].
  intros (e & He & Hk). destruct Hkind as (e' & He' & Hk').
  rewrite He in He'. injection He' as <-.
  rewrite Hk in Hk'. destruct Hk' as [?|[?|?]]; discriminate.
Qed.

(** ** The merge rule of update_memory and batch_update_memories *)

Lemma final_content_of_run (e : dict) (content : value) (w : world St) :
  final_content_of (VDict e) content w = (Ok (written_content e content), w).
Proof.
  unfold final_content_of, written_content.
  destruct (is_none content); reflexivity.
Qed.

Lemma final_metadata_of_both (e old new : dict) (w : world St) :
  existing_metadata_of e = VDict old -> old <> [] ->
  final_metadata_of (VDict e) (VDict new) w
  = (Ok (VDict (dict_merge old new)), w).
Proof.
  unfold existing_metadata_of, final_metadata_of, bind, lift. simpl.
  intros H Hold. destruct (dict_get e (VStr "metadata")) as [m|]; subst;
    [|discriminate].
  destruct old; [congruence|reflexivity].
Qed.

Lemma final_metadata_of_new (e : dict) (metadata : value) (w : world St) :
  truthy (existing_metadata_of e) = false ->
  final_metadata_of (VDict e) metadata w = (Ok metadata, w).
Proof.
  unfold existing_metadata_of, final_metadata_of, bind, lift. simpl.
  intros H. destruct (dict_get e (VStr "metadata")) as [m|]; simpl in *.
  - rewrite H, andb_false_r. reflexivity.
  - rewrite andb_false_r. reflexivity.
Qed.

Lemma final_metadata_of_existing (e : dict) (w : world St) :
  truthy (existing_metadata_of e) = true ->
  final_metadata_of (VDict e) VNone w = (Ok (existing_metadata_of e), w).
Proof.
  unfold existing_metadata_of, final_metadata_of, bind, lift. simpl.
  intros H. destruct (dict_get e (VStr "metadata")) as [m|]; simpl in *.
  - rewrite H. reflexivity.
  - discriminate.
Qed.

(** Once the record is fetched and the metadata to write is settled,
    [update_memory] issues the update and nothing else. *)
Lemma update_memory_writes
    (memory_id content user_id agent_id metadata final_metadata : value)
    (e : dict) (w w1 : world St) :
  get_memory memory builtins memory_id user_id agent_id w = (Ok (VDict e), w1) ->
  is_none content && is_none metadata = false ->
  final_metadata_of (VDict e) metadata w1 = (Ok final_metadata, w1) ->
  writes
    (update_memory memory builtins memory_id content user_id agent_id metadata w)
    w1
    (Update memory_id (written_content e content) user_id agent_id
       final_metadata).
Proof.
  intros Hg Hnone Hmd. unfold writes, update_memory, try_except.
  rewrite (bind_ok _ _ _ _ _ Hg), Hnone.
  rewrite (bind_ok _ _ _ _ _ (final_content_of_run _ _ _)).
  rewrite (bind_ok _ _ _ _ _ Hmd).
  unfold bind, invoke, lift.
  destruct (memory (store w1) _) as [[v | [cls msg]] s2]; simpl;
    [|reflexivity].
  destruct (truthy v); [|reflexivity].
  destruct (py_contains "id" v) as [[|]|[]]; simpl; try reflexivity.
  destruct (py_setitem v "id" memory_id) as [v'|[]]; simpl; try reflexivity.
  destruct (py_setitem v' "memory_id" memory_id) as [v''|[]]; reflexivity.
Qed.

(** The same for one item of [batch_update_memories]. *)
Lemma batch_update_item_writes
    (idx : nat) (it e : dict) (memory_id user_id agent_id final_metadata : value)
    (w w1 : world St) :
  let content := match dict_get it (VStr "content") with
                 | Some c => c | None => VNone end in
  let metadata := match dict_get it (VStr "metadata") with
                  | Some m => m | None => VNone end in
  dict_get it (VStr "memory_id") = Some memory_id ->
  is_none memory_id = false ->
  is_none content && is_none metadata = false ->
  get_memory memory builtins memory_id user_id agent_id w = (Ok (VDict e), w1) ->
  final_metadata_of (VDict e) metadata w1 = (Ok final_metadata, w1) ->
  writes
    (batch_update_item memory builtins user_id agent_id idx (VDict it) w)
    w1
    (Update memory_id (written_content e content) user_id agent_id
       final_metadata).
Proof.
  intros content metadata Hid Hsome Hnone Hg Hmd.
  unfold writes, batch_update_item.
  unfold bind at 1. unfold lift at 1. simpl py_get. rewrite Hid, Hsome.
  unfold bind at 1. unfold lift at 1. simpl py_get.
  unfold bind at 1. unfold lift at 1. simpl py_get.
  fold content metadata. rewrite Hnone.
  rewrite (bind_ok _ _ _ _ _ Hg), (bind_ok _ _ _ _ _ Hmd).
  rewrite (bind_ok _ _ _ _ _ (final_content_of_run _ _ _)).
  unfold bind, invoke.
  destruct (memory (store w1) _) as [[v | [cls msg]] s2]; reflexivity.
Qed.

Lemma merge_rule_intro (run : outcome value * world St) (w1 : world St)
    (memory_id user_id agent_id content metadata : value) (e : dict) :
  (forall final_metadata,
      final_metadata_of (VDict e) metadata w1 = (Ok final_metadata, w1) ->
      writes run w1
        (Update memory_id (written_content e content) user_id agent_id
           final_metadata)) ->
  merge_rule run w1 memory_id user_id agent_id e content metadata.
Proof.
  intros H. unfold merge_rule. repeat split.
  - intros old new Hold Hne -> _ Hdist. exists (dict_merge old new). split.
    + intros k. apply dict_merge_get. exact Hdist.
    + apply H. apply final_metadata_of_both; assumption.
  - intros Hfalsy. apply H. apply final_metadata_of_new. exact Hfalsy.
  - intros -> Htruthy. apply H. apply final_metadata_of_existing.
    exact Htruthy.
Qed.

(** C1. An update writes to the store: as metadata, when the existing and
    the supplied metadata are both non-empty dicts, their shallow merge, in
    which a key of the supplied metadata has the supplied value and any
    other key the existing one; the supplied metadata when the record has
    none; the record's metadata when none is supplied; and as content the
    supplied content when it is not null, else the record's content.  This
    holds for [update_memory] and for every item of
    [batch_update_memories]. *)
Theorem update_writes_merged_metadata
    (memory_id content user_id agent_id metadata : value) (e : dict)
    (w w1 : world St) :
  get_memory memory builtins memory_id user_id agent_id w = (Ok (VDict e), w1) ->
  is_none content && is_none metadata = false ->
  merge_rule
    (update_memory memory builtins memory_id content user_id agent_id metadata w)
    w1 memory_id user_id agent_id e content metadata
  /\ (forall (idx : nat) (it : dict),
        dict_get it (VStr "memory_id") = Some memory_id ->
        is_none memory_id = false ->
        content = match dict_get it (VStr "content") with
                  | Some c => c | None => VNone end ->
        metadata = match dict_get it (VStr "metadata") with
                   | Some m => m | None => VNone end ->
        merge_rule
          (batch_update_item memory builtins user_id agent_id idx (VDict it) w)
          w1 memory_id user_id agent_id e content metadata).
Proof.
  intros Hg Hnone. split.
  - apply merge_rule_intro. intros fm Hfm.
    apply update_memory_writes; assumption.
  - intros idx it Hid Hsome Hc Hm. apply merge_rule_intro. intros fm Hfm.
    subst content metadata.
    apply batch_update_item_writes; assumption.
Qed.

(** ** Batch operations *)

(** [delete_memory] raises nothing but an [APIError]. *)
Lemma delete_memory_cases (memory_id user_id agent_id : value) (w : world St) :
  (exists v, fst (delete_memory memory builtins memory_id user_id agent_id w)
             = Ok v)
  \/ (exists code message status,
        fst (delete_memory memory builtins memory_id user_id agent_id w)
        = Raise (APIError code message status)).
Proof.
  unfold delete_memory, try_except.
  match goal with |- context [bind ?c ?k w] => destruct (bind c k w) as [[v | e] w1] end.
  - left. eexists. reflexivity.
  - right. destruct e; simpl; eauto.
Qed.

Lemma bulk_delete_step_one (user_id agent_id : value) (deleted failed : list value)
    (memory_id : value) (w : world St) :
  exists entry w',
    (bulk_delete_step memory builtins user_id agent_id (deleted, failed)
       memory_id w
     = (Ok (deleted ++ [entry], failed), w')
     /\ entry = memory_id)
    \/ (bulk_delete_step memory builtins user_id agent_id (deleted, failed)
          memory_id w
        = (Ok (deleted, failed ++ [entry]), w')
        /\ entry_memory_id entry = Some memory_id).
Proof.
  unfold bulk_delete_step, try_except, bind.
  destruct (delete_memory_cases memory_id user_id agent_id w)
    as [[v Hv] | (code & message & status & He)];
    destruct (delete_memory memory builtins memory_id user_id agent_id w)
      as [o w1]; simpl in *; subst o.
  - exists memory_id, w1. left. split; reflexivity.
  - eexists _, w1. right. split; reflexivity.
Qed.

(** A created entry carries the index of its item. *)
Lemma batch_create_item_index (user_id agent_id run_id : value) (infer : bool)
    (idx : nat) (memory_item entry : value) (w w' : world St) :
  batch_create_item memory user_id agent_id run_id infer idx
    memory_item w = (Ok entry, w') ->
  entry_index entry = Some (Z.of_nat idx).
Proof.
  unfold batch_create_item. intros H. inv_run H.
  apply ret_inv_ok in H. destruct H as [-> _]. reflexivity.
Qed.

Lemma batch_create_step_one (user_id agent_id run_id : value) (infer : bool)
    (created failed : list value) (item : nat * value) (w : world St) :
  is_dict (snd item) = true ->
  exists entry w',
    (batch_create_step memory user_id agent_id run_id infer
       (created, failed) item w
     = (Ok (created ++ [entry], failed), w')
     /\ entry_index entry = Some (Z.of_nat (fst item)))
    \/ (batch_create_step memory user_id agent_id run_id infer
          (created, failed) item w
        = (Ok (created, failed ++ [entry]), w')
        /\ entry_index entry = Some (Z.of_nat (fst item))).
Proof.
  destruct item as [idx memory_item]. simpl. intros Hd.
  destruct memory_item; try discriminate.
  unfold batch_create_step, try_except.
  destruct (batch_create_item memory user_id agent_id run_id infer idx
              (VDict l) w) as [[entry | e] w1] eqn:E.
  - exists entry, w1. left. rewrite (bind_ok _ _ _ _ _ E).
    split; [reflexivity|]. eapply batch_create_item_index. exact E.
  - eexists _, w1. right. rewrite (bind_raise _ _ _ _ _ E).
    split; reflexivity.
Qed.

(** An updated entry carries the index of its item. *)
Lemma batch_update_item_index (user_id agent_id : value) (idx : nat)
    (update_item entry : value) (w w' : world St) :
  batch_update_item memory builtins user_id agent_id idx update_item w
  = (Ok entry, w') ->
  entry_index entry = Some (Z.of_nat idx).
Proof.
  unfold batch_update_item. intros H. inv_run H.
  apply ret_inv_ok in H. destruct H as [-> _]. reflexivity.
Qed.

Lemma batch_update_step_one (user_id agent_id : value)
    (updated failed : list value) (item : nat * value) (w : world St) :
  is_dict (snd item) = true ->
  exists entry w',
    (batch_update_step memory builtins user_id agent_id (updated, failed) item w
     = (Ok (updated ++ [entry], failed), w')
     /\ entry_index entry = Some (Z.of_nat (fst item)))
    \/ (batch_update_step memory builtins user_id agent_id (updated, failed)
          item w
        = (Ok (updated, failed ++ [entry]), w')
        /\ entry_index entry = Some (Z.of_nat (fst item))).
Proof.
  destruct item as [idx update_item]. simpl. intros Hd.
  destruct update_item; try discriminate.
  unfold batch_update_step, try_except.
  destruct (batch_update_item memory builtins user_id agent_id idx
              (VDict l) w) as [[entry | e] w1] eqn:E.
  - exists entry, w1. left. rewrite (bind_ok _ _ _ _ _ E).
    split; [reflexivity|]. eapply batch_update_item_index. exact E.
  - eexists _, w1. right. rewrite (bind_raise _ _ _ _ _ E).
    split; reflexivity.
Qed.

(** C2. Every batch operation returns a result whose two counts add up to
    the number of items, and files every input index in exactly one of its
    two lists, once: the indexes carried by the entries of the success list
    followed by those of the failure list are a permutation of [0, N), and
    each index below N is found in one list and not in the other.
    [bulk_delete_memories] names an item by its identifier, not its index;
    there the same holds of the input positions behind the entries.
    [batch_create_memories] and [batch_update_memories] take items that are
    dicts. *)
Theorem batch_results_partition
    (user_id agent_id run_id : value) (infer : bool) (w : world St) :
  (forall memory_ids : list value,
      exists deleted failed w',
        bulk_delete_memories memory builtins memory_ids user_id agent_id w
        = (Ok (batch_result "deleted" deleted failed (List.length memory_ids)),
           w')
        /\ (List.length deleted + List.length failed
            = List.length memory_ids)%nat
        /\ positions_partition memory_ids deleted failed)
  /\ (forall memories : list value,
        Forall (fun m => is_dict m = true) memories ->
        exists created failed w',
          batch_create_memories memory memories user_id agent_id run_id infer w
          = (Ok (batch_result "created" created failed (List.length memories)),
             w')
          /\ (List.length created + List.length failed
              = List.length memories)%nat
          /\ indexes_partition created failed (List.length memories))
  /\ (forall updates : list value,
        Forall (fun m => is_dict m = true) updates ->
        exists updated failed w',
          batch_update_memories memory builtins updates user_id agent_id w
          = (Ok (batch_result "updated" updated failed (List.length updates)),
             w')
          /\ (List.length updated + List.length failed
              = List.length updates)%nat
          /\ indexes_partition updated failed (List.length updates)).
Proof.
  split; [|split].
  - intros memory_ids.
    destruct (batch_loop
                (fun acc p => bulk_delete_step memory builtins user_id agent_id
                                acc (snd p))
                (fun _ => True)
                (fun p e => e = snd p)
                (fun p e => entry_memory_id e = Some (snd p))
                (fun ok failed p w0 _ =>
                   bulk_delete_step_one user_id agent_id ok failed (snd p) w0)
                (enumerate memory_ids)
                (proj2 (Forall_forall _ _) (fun _ _ => I)) [] [] w)
      as (oks & fails & w' & Hr & Hp & Ho & Hf).
    unfold enumerate in Hr. rewrite for_each_enumerate in Hr. simpl in Hr.
    exists (map snd oks), (map snd fails), w'. split; [|split].
    + unfold bulk_delete_memories. rewrite (bind_ok _ _ _ _ _ Hr). reflexivity.
    + apply Permutation_length in Hp.
      rewrite length_app, !length_map in Hp. rewrite !length_map, Hp.
      rewrite <- (length_map fst (enumerate memory_ids)), map_fst_enumerate.
      apply length_seq.
    + assert (Hperm : Permutation
                        (map fst (map fst oks) ++ map fst (map fst fails))
                        (seq 0 (List.length memory_ids))).
      { rewrite <- map_app, <- map_fst_enumerate.
        apply Permutation_map. exact Hp. }
      exists (map fst (map fst oks)), (map fst (map fst fails)).
      split; [exact Hperm|]. split; [|split].
      * intros i Hi.
        apply (permutation_in_exactly_one _ _ _ _ Hperm (seq_NoDup _ _)).
        apply in_seq. lia.
      * rewrite !map_map. apply map_ext_in. intros [[i x] e] Hin.
        rewrite Forall_forall in Ho. specialize (Ho _ Hin). simpl in *.
        subst e. symmetry. apply In_enumerate_nth.
        apply (Permutation_in _ Hp). apply in_or_app. left.
        apply (in_map fst) in Hin. exact Hin.
      * rewrite !map_map. apply map_ext_in. intros [[i x] e] Hin.
        rewrite Forall_forall in Hf. specialize (Hf _ Hin). simpl in *.
        rewrite Hf. symmetry. apply In_enumerate_nth.
        apply (Permutation_in _ Hp). apply in_or_app. right.
        apply (in_map fst) in Hin. exact Hin.
  - intros memories Hd.
    destruct (indexed_batch_loop
                (batch_create_step memory user_id agent_id run_id infer)
                (batch_create_step_one user_id agent_id run_id infer)
                memories w Hd)
      as (ok & failed & w' & Hr & Hlen & Hpart).
    exists ok, failed, w'. split; [|split; assumption].
    unfold batch_create_memories. rewrite (bind_ok _ _ _ _ _ Hr). reflexivity.
  - intros updates Hd.
    destruct (indexed_batch_loop
                (batch_update_step memory builtins user_id agent_id)
                (batch_update_step_one user_id agent_id)
                updates w Hd)
      as (ok & failed & w' & Hr & Hlen & Hpart).
    exists ok, failed, w'. split; [|split; assumption].
    unfold batch_update_memories. rewrite (bind_ok _ _ _ _ _ Hr). reflexivity.
Qed.

(** ** Statistics *)

Lemma stats_step_pure (acc : stats_acc) (m : value) :
  pure (@stats_step St builtins now_us acc m).
Proof. unfold stats_step. pure_tac. Qed.

(** What one turn of the loop does to the counters.  A record with a
    [created_at] gets through only when its date is timezone-aware, since
    the age is taken against an aware clock. *)
Lemma stats_step_inv (acc acc' : stats_acc) (m : value) (w w' : world St) :
  stats_step builtins now_us acc m w = (Ok acc', w') ->
  w' = w
  /\ is_dict m = true
  /\ (has_created_at m = true ->
      utcoffset (_parse_datetime builtins (field m "created_at")) <> None)
  /\ by_type acc' = dict_incr (by_type acc) (mem_type_of m)
  /\ total_importance acc'
     = (total_importance acc + importance_contribution builtins m)%Q
  /\ growth_by_date acc'
     = (if has_created_at m
        then dict_incr (growth_by_date acc) (date_key_of builtins m)
        else growth_by_date acc)
  /\ age_distribution acc'
     = (if has_created_at m
        then dict_incr (age_distribution acc) (age_bucket_of builtins now_us m)
        else age_distribution acc).
Proof.
  intros H. split; [exact (pure_run _ _ _ _ (stats_step_pure acc m) H)|].
  destruct m; try discriminate H. split; [reflexivity|].
  unfold stats_step in H. inv_run H;
    unfold mem_type_of, importance_contribution, has_created_at, date_key_of,
      age_bucket_of, field;
    rewrite Hrun, Hrun0, Hrun2, Hrun3, Hrun7, Hif.
  - destruct (datetime_sub_days _ _) eqn:Hsub; [|discriminate H].
    apply ret_inv_ok in H. destruct H as [-> _]. simpl. repeat split.
    intros _ Hnaive. unfold datetime_sub_days in Hsub. simpl in Hsub.
    rewrite Hnaive in Hsub. discriminate Hsub.
  - apply ret_inv_ok in H. destruct H as [-> _]. simpl. repeat split.
    discriminate.
Qed.

Lemma stats_loop_inv (ms : list value) :
  forall (acc0 acc : stats_acc) (w w' : world St),
  for_each ms acc0 (stats_step builtins now_us) w = (Ok acc, w') ->
  w' = w
  /\ Forall (fun m => is_dict m = true) ms
  /\ Forall (fun m =>
               has_created_at m = true ->
               utcoffset (_parse_datetime builtins (field m "created_at"))
               <> None) ms
  /\ by_type acc = fold_left dict_incr (map mem_type_of ms) (by_type acc0)
  /\ total_importance acc
     = fold_left Qplus (map (importance_contribution builtins) ms)
         (total_importance acc0)
  /\ growth_by_date acc
     = fold_left dict_incr
         (map (date_key_of builtins) (filter has_created_at ms))
         (growth_by_date acc0)
  /\ age_distribution acc
     = fold_left dict_incr
         (map (age_bucket_of builtins now_us) (filter has_created_at ms))
         (age_distribution acc0).
Proof.
  induction ms as [|m ms IH]; intros acc0 acc w w' H; simpl in H.
  - apply ret_inv_ok in H. destruct H as [-> ->]. simpl.
    repeat split; constructor.
  - apply bind_inv_ok in H. destruct H as (acc1 & w1 & Hstep & Hrest).
    apply stats_step_inv in Hstep.
    destruct Hstep as (-> & Hd & Haw & Hty & Himp & Hgr & Hage).
    apply IH in Hrest.
    destruct Hrest as (-> & Hds & Haws & Hty' & Himp' & Hgr' & Hage').
    split; [reflexivity|]. split; [constructor; assumption|].
    split; [constructor; assumption|].
    simpl. rewrite Hty', Himp', Hgr', Hage', Hty, Himp, Hgr, Hage.
    destruct (has_created_at m); simpl; repeat split.
Qed.

(** The snapshot [_calculate_stats_from_memories] returns, when it returns
    one. *)
Lemma calculate_stats_inv (ms : list value) (snapshot : value)
    (w w' : world St) :
  _calculate_stats_from_memories builtins now_us ms w = (Ok snapshot, w') ->
  w' = w
  /\ Forall (fun m =>
               has_created_at m = true ->
               utcoffset (_parse_datetime builtins (field m "created_at"))
               <> None) ms
  /\ exists top, snapshot = recomputed_snapshot builtins now_us ms top.
Proof.
  unfold _calculate_stats_from_memories. destruct ms as [|m ms].
  - simpl. intros H. apply ret_inv_ok in H. destruct H as [-> ->].
    split; [reflexivity|]. split; [constructor|]. exists []. reflexivity.
  - remember (m :: ms) as l eqn:El.
    assert (Hz : (Z.of_nat (List.length l) =? 0) = false).
    { subst l. simpl List.length. apply Z.eqb_neq. lia. }
    rewrite Hz. intros H.
    apply bind_inv_ok in H. destruct H as (acc & w1 & Hloop & H).
    apply stats_loop_inv in Hloop.
    destruct Hloop as (-> & Hds & Haws & Hty & Himp & Hgr & Hage).
    apply ret_inv_ok in H. destruct H as [-> ->].
    split; [reflexivity|]. split; [assumption|].
    eexists. unfold recomputed_snapshot.
    rewrite Hty, Himp, Hgr, Hage.
    assert (Hp : (0 <? Z.of_nat (List.length l)) = true).
    { subst l. simpl List.length. apply Z.ltb_lt. lia. }
    rewrite Hp. subst l. reflexivity.
Qed.

(** Where the average of the code and the average of the specification
    part: the code takes 0.5 for every falsy importance, the specification
    only for a missing one; they agree on a record whose importance is
    missing or truthy. *)
Lemma importance_contribution_cases (m : value) :
  (field m "importance" = VNone \/ truthy (field m "importance") = true ->
   importance_contribution builtins m = spec_importance builtins m)
  /\ (truthy (field m "importance") = false ->
      importance_contribution builtins m = 0.5%Q).
Proof.
  unfold importance_contribution, spec_importance, py_or. split.
  - intros [-> | Ht]; [reflexivity|]. rewrite Ht.
    destruct (field m "importance"); try reflexivity. discriminate Ht.
  - intros ->. reflexivity.
Qed.

(** The cutoff filter keeps the records on or after the cutoff. *)
Lemma filter_by_cutoff_inv (cutoff : datetime) (ms : list value) :
  forall (kept0 kept : list value) (w w' : world St),
  for_each ms kept0
    (fun kept m =>
       created_at <- lift (py_get m "created_at" VNone) ;;
       match datetime_ge (_parse_datetime builtins created_at) cutoff with
       | Some true => ret (kept ++ [m])
       | Some false => ret kept
       | None =>
           raise (PyExc TypeError
                    "can't compare offset-naive and offset-aware datetimes")
       end)%monad w = (Ok kept, w') ->
  w' = w /\ kept = kept0 ++ filter (on_or_after builtins cutoff) ms.
Proof.
  induction ms as [|m ms IH]; intros kept0 kept w w' H; simpl in H.
  - apply ret_inv_ok in H. destruct H as [-> ->]. rewrite app_nil_r.
    split; reflexivity.
  - apply bind_inv_ok in H. destruct H as (k1 & w1 & Hstep & Hrest).
    apply IH in Hrest. destruct Hrest as [-> ->].
    apply bind_inv_ok in Hstep. destruct Hstep as (c & w2 & Hc & Hstep).
    apply lift_inv_ok in Hc. destruct Hc as [Hc ->].
    simpl. unfold on_or_after, field. rewrite Hc.
    destruct (datetime_ge _ _) as [[|]|]; try discriminate Hstep;
      apply ret_inv_ok in Hstep; destruct Hstep as [-> ->].
    + rewrite <- app_assoc. split; reflexivity.
    + split; reflexivity.
Qed.

Lemma filter_by_cutoff_run (cutoff : datetime) (ms kept : list value)
    (w w' : world St) :
  filter_by_cutoff builtins ms cutoff w = (Ok kept, w') ->
  w' = w /\ kept = filter (on_or_after builtins cutoff) ms.
Proof. unfold filter_by_cutoff. apply filter_by_cutoff_inv. Qed.

(** A record without a date that parses is read as [datetime.min] and falls
    before every naive cutoff later than that. *)
Lemma undated_before_cutoff (cutoff : datetime) (m : value) :
  utcoffset cutoff = None -> 0 < wall cutoff ->
  _parse_datetime builtins (field m "created_at") = datetime_min ->
  on_or_after builtins cutoff m = false.
Proof.
  intros Hnaive Hlater Hmin. unfold on_or_after, datetime_ge.
  rewrite Hmin, Hnaive. simpl. apply Z.leb_gt. exact Hlater.
Qed.

(** C5, as the code has it.  With a cutoff, [get_statistics] recomputes the
    snapshot over the records the cutoff filter keeps, and over no others.
    Of the records kept, [total_memories], [by_type] and [avg_importance]
    count every one, [growth_trend] and [age_distribution] only those with
    a [created_at]; a kept record whose [created_at] is absent or does not
    parse is among the former and not among the latter.  A naive cutoff
    later than [datetime.min] keeps no record whose [created_at] is absent
    or does not parse, so such a record is then counted in no field at
    all. *)
Theorem get_statistics_cutoff_counts
    (user_id agent_id : value) (cutoff : datetime) (w : world St)
    (stats result : value) (all_memories : list value) (s1 s2 : St) :
  memory (store w) (GetStatistics user_id agent_id) = (inl stats, s1) ->
  memory s1 (GetAll user_id agent_id (VInt 10000) None None None)
  = (inl result, s2) ->
  py_get result "results" (VList []) = Ok (VList all_memories) ->
  (forall snapshot w',
      get_statistics memory builtins now_us user_id agent_id (Some cutoff) w
      = (Ok snapshot, w') ->
      (exists top,
          snapshot
          = recomputed_snapshot builtins now_us
              (filter (on_or_after builtins cutoff) all_memories) top)
      /\ (forall m,
            In m (filter (on_or_after builtins cutoff) all_memories) ->
            _parse_datetime builtins (field m "created_at") = datetime_min ->
            has_created_at m = false))
  /\ (utcoffset cutoff = None -> 0 < wall cutoff ->
      forall m,
        _parse_datetime builtins (field m "created_at") = datetime_min ->
        ~ In m (filter (on_or_after builtins cutoff) all_memories)).
Proof.
  intros Hstats Hall Hres. split.
  - intros snapshot w' H. unfold get_statistics in H.
    rewrite (bind_ok _ _ _ _ _ (invoke_ok memory _ _ _ _ Hstats)) in H.
    rewrite (bind_ok _ _ _ _ _
               (invoke_ok memory _ (after_call w _ s1) _ _ Hall)) in H.
    unfold bind at 1 in H. unfold lift at 1 in H. rewrite Hres in H.
    unfold bind at 1 in H. unfold lift at 1 in H. simpl py_iter in H.
    apply bind_inv_ok in H. destruct H as (kept & w1 & Hf & H).
    apply filter_by_cutoff_run in Hf. destruct Hf as [-> ->].
    apply calculate_stats_inv in H. destruct H as (_ & Haw & Htop).
    split; [exact Htop|].
    intros m Hin Hmin. rewrite Forall_forall in Haw. specialize (Haw m Hin).
    destruct (has_created_at m); [|reflexivity].
    exfalso. apply Haw; [reflexivity|]. rewrite Hmin. reflexivity.
  - intros Hnaive Hlater m Hmin Hin. apply filter_In in Hin.
    destruct Hin as [_ Hon].
    rewrite (undated_before_cutoff cutoff m Hnaive Hlater Hmin) in Hon.
    discriminate Hon.
Qed.

(** ** Quality analysis *)

Lemma quality_step_pure (acc : quality_acc) (m : value) :
  pure (@quality_step St builtins acc m).
Proof. unfold quality_step. pure_tac. Qed.

(** What one turn of the loop does: each criterion the record triggers
    raises its own counter by one, and the record's identifier goes into
    the set once if it triggers any. *)
Lemma quality_step_inv (acc acc' : quality_acc) (m : value) (w w' : world St) :
  quality_step builtins acc m w = (Ok acc', w') ->
  is_dict m = true
  /\ missing_metadata acc'
     = missing_metadata acc + Z.b2z (has_missing_metadata m)
  /\ empty_content acc'
     = empty_content acc + Z.b2z (has_empty_content builtins m)
  /\ low_importance acc'
     = low_importance acc + Z.b2z (has_low_importance builtins m)
  /\ low_quality_memories acc'
     = (if defective builtins m
        then set_add (low_quality_memories acc) (record_id m)
        else low_quality_memories acc).
Proof.
  intros H. destruct m; try discriminate H. split; [reflexivity|].
  unfold quality_step in H. repeat inv_step.
  all: repeat match goal with
         | H : py_get (VDict _) _ _ = Ok _ |- _ =>
             simpl in H; injection H as <-
         end.
  all: unfold defective, has_missing_metadata, has_empty_content,
         has_low_importance, content_of, record_id, field; simpl py_get;
       cbv beta iota.
  all: repeat match goal with
         | H : py_hash _ = Ok _ |- _ => apply py_hash_ok in H
         | H : py_float _ _ = Ok _ |- _ => rewrite H
         | H : true = negb _ |- _ => rewrite <- H
         | H : false = negb _ |- _ => rewrite <- H
         | H : _ = true |- _ => rewrite H
         | H : _ = false |- _ => rewrite H
         end.
  all: simpl; rewrite ?set_add_idem by assumption; repeat split; lia.
Qed.

Lemma quality_loop_inv (records : list value) :
  forall (acc0 acc : quality_acc) (w w' : world St),
  for_each records acc0 (quality_step builtins) w = (Ok acc, w') ->
  missing_metadata acc
  = missing_metadata acc0 + count_of has_missing_metadata records
  /\ empty_content acc
     = empty_content acc0 + count_of (has_empty_content builtins) records
  /\ low_importance acc
     = low_importance acc0 + count_of (has_low_importance builtins) records
  /\ low_quality_memories acc
     = fold_left set_add
         (map record_id (filter (defective builtins) records))
         (low_quality_memories acc0).
Proof.
  induction records as [|m ms IH]; intros acc0 acc w w' H; simpl in H.
  - apply ret_inv_ok in H. destruct H as [-> _]. unfold count_of. simpl.
    repeat split; lia.
  - apply bind_inv_ok in H. destruct H as (acc1 & w1 & Hstep & Hrest).
    apply quality_step_inv in Hstep.
    destruct Hstep as (_ & Hmm & Hec & Hli & Hset).
    apply IH in Hrest. destruct Hrest as (Hmm' & Hec' & Hli' & Hset').
    rewrite !count_of_cons, Hmm', Hec', Hli', Hset', Hmm, Hec, Hli, Hset.
    simpl. destruct (defective builtins m); simpl; repeat split; lia.
Qed.

(** The report [quality_report] returns, when it returns one. *)
Lemma quality_report_inv (memories_list report : value) (w w' : world St) :
  quality_report builtins memories_list w = (Ok report, w') ->
  exists records,
    py_iter memories_list = Ok records
    /\ report = quality_report_of builtins records.
Proof.
  unfold quality_report. intros H.
  apply bind_inv_ok in H. destruct H as (n & w1 & Hlen & H).
  apply lift_inv_ok in Hlen. destruct Hlen as [Hlen ->].
  destruct (py_len_iter _ _ Hlen) as (records & Hiter & ->).
  exists records. split; [exact Hiter|].
  destruct records as [|r rs].
  - simpl in H. apply ret_inv_ok in H. destruct H as [-> _]. reflexivity.
  - remember (r :: rs) as l eqn:El.
    assert (Hz : (Z.of_nat (List.length l) =? 0) = false).
    { subst l. simpl List.length. apply Z.eqb_neq. lia. }
    assert (Hp : (0 <? Z.of_nat (List.length l)) = true).
    { subst l. simpl List.length. apply Z.ltb_lt. lia. }
    rewrite Hz in H. unfold bind at 1 in H. unfold lift at 1 in H.
    rewrite Hiter in H.
    apply bind_inv_ok in H. destruct H as (acc & w2 & Hloop & H).
    apply quality_loop_inv in Hloop. destruct Hloop as (Hmm & Hec & Hli & Hset).
    apply ret_inv_ok in H. destruct H as [-> _].
    rewrite Hp, Hmm, Hec, Hli, Hset.
    unfold quality_report_of, low_quality_ratio_of, low_quality_count_of.
    subst l. reflexivity.
Qed.

(** Every report [analyze_memory_quality] returns is the report over the
    records [quality_records] fetched. *)
Lemma analyze_memory_quality_inv (user_id agent_id : value)
    (cutoff_date : option datetime) (report : value) (w w' : world St) :
  analyze_memory_quality memory builtins user_id agent_id cutoff_date w
  = (Ok report, w') ->
  exists memories_list records w1,
    quality_records memory builtins user_id agent_id cutoff_date w
    = (Ok memories_list, w1)
    /\ py_iter memories_list = Ok records
    /\ report = quality_report_of builtins records.
Proof.
  unfold analyze_memory_quality. intros H.
  apply try_except_inv_ok in H. destruct H as [H | (e & w1 & _ & H)];
    [|discriminate H].
  apply bind_inv_ok in H. destruct H as (ml & w1 & Hrec & H).
  apply quality_report_inv in H. destruct H as (records & Hiter & ->).
  exists ml, records, w1. repeat split; assumption.
Qed.

(** The count of low-quality records never exceeds the number of defective
    records, nor that the number of records. *)
Lemma low_quality_count_le (records : list value) :
  (low_quality_count_of builtins records
   <= List.length (filter (defective builtins) records)
   <= List.length records)%nat.
Proof.
  unfold low_quality_count_of. split.
  - pose proof (fold_set_add_length
                  (map record_id (filter (defective builtins) records)) []) as H.
    rewrite length_map in H. simpl in H. exact H.
  - apply filter_length_le.
Qed.

Lemma low_quality_ratio_rounded (records : list value) :
  (0 <= low_quality_ratio_of builtins records
   /\ low_quality_ratio_of builtins records <= 1)%Q
  /\ exists k : Z,
       0 <= k <= 10000
       /\ (low_quality_ratio_of builtins records
           == binary64 (inject_Z k / inject_Z 10000))%Q
       /\ (inject_Z k / inject_Z 10000 - (1 # 2 ^ 53)
           <= low_quality_ratio_of builtins records
           /\ low_quality_ratio_of builtins records
              <= inject_Z k / inject_Z 10000 + (1 # 2 ^ 53))%Q
       /\ (records <> [] ->
           let quotient :=
             int_truediv (Z.of_nat (low_quality_count_of builtins records))
               (Z.of_nat (List.length records)) in
           (inject_Z k - (1 # 2) <= quotient * inject_Z 10000
            /\ quotient * inject_Z 10000 <= inject_Z k + (1 # 2))%Q
           /\ (inject_Z (Z.of_nat (low_quality_count_of builtins records))
               / inject_Z (Z.of_nat (List.length records)) - (1 # 2 ^ 53)
               <= quotient
               /\ quotient
                  <= inject_Z (Z.of_nat (low_quality_count_of builtins records))
                     / inject_Z (Z.of_nat (List.length records))
                     + (1 # 2 ^ 53))%Q).
Proof.
  destruct records as [|r rs].
  - split; [split; discriminate|]. exists 0. split; [lia|].
    split; [reflexivity|]. split; [split; discriminate|].
    intros H. contradiction H. reflexivity.
  - remember (r :: rs) as l eqn:El.
    assert (Hc : 0 <= Z.of_nat (low_quality_count_of builtins l)
                 <= Z.of_nat (List.length l)).
    { pose proof (low_quality_count_le l). lia. }
    assert (Ht : 0 < Z.of_nat (List.length l)).
    { subst l. simpl List.length. lia. }
    destruct (round4_ratio _ _ Hc Ht)
      as (k & Hk & Hr & Hnear & Hbound & Hquot & Hdec).
    assert (E : low_quality_ratio_of builtins l
                = round4 (int_truediv
                            (Z.of_nat (low_quality_count_of builtins l))
                            (Z.of_nat (List.length l)))).
    { subst l. reflexivity. }
    rewrite E. split; [exact Hbound|]. exists k. split; [exact Hk|].
    split; [rewrite Hr; reflexivity|]. split; [exact Hdec|].
    intros _. split; [exact Hnear | exact Hquot].
Qed.

(** C6. In every report of [analyze_memory_quality], over the records it
    looked at: each criterion's counter is the number of records that
    trigger that criterion; [low_quality_count] is the number of different
    identifiers among the records that trigger at least one, so a record
    adds to it once however many criteria it triggers, and with pairwise
    different identifiers it is the number of those records;
    [low_quality_count] is at most [total_memories]; and
    [low_quality_ratio] lies between 0 and 1 and is rounded to four
    decimals: it is the float nearest to [k / 10000] for a whole [k] from 0
    to 10000, so within [2^-53] of that decimal, and [k] is the whole number
    nearest to 10000 times the quotient [low_quality_count /
    total_memories] as Python computes it, the float within [2^-53] of the
    exact quotient. *)
Theorem quality_report_counts_once
    (user_id agent_id : value) (cutoff_date : option datetime)
    (report : value) (w w' : world St) :
  analyze_memory_quality memory builtins user_id agent_id cutoff_date w
  = (Ok report, w') ->
  exists memories_list records w1,
    quality_records memory builtins user_id agent_id cutoff_date w
    = (Ok memories_list, w1)
    /\ py_iter memories_list = Ok records
    /\ report = quality_report_of builtins records
    /\ (low_quality_count_of builtins records
        <= List.length (filter (defective builtins) records)
        <= List.length records)%nat
    /\ (keys_distinct (map record_id (filter (defective builtins) records))
        = true ->
        low_quality_count_of builtins records
        = List.length (filter (defective builtins) records))
    /\ (0 <= low_quality_ratio_of builtins records
        /\ low_quality_ratio_of builtins records <= 1)%Q
    /\ exists k : Z,
         0 <= k <= 10000
         /\ (low_quality_ratio_of builtins records
             == binary64 (inject_Z k / inject_Z 10000))%Q
         /\ (inject_Z k / inject_Z 10000 - (1 # 2 ^ 53)
             <= low_quality_ratio_of builtins records
             /\ low_quality_ratio_of builtins records
                <= inject_Z k / inject_Z 10000 + (1 # 2 ^ 53))%Q
         /\ (records <> [] ->
             let quotient :=
               int_truediv (Z.of_nat (low_quality_count_of builtins records))
                 (Z.of_nat (List.length records)) in
             (inject_Z k - (1 # 2) <= quotient * inject_Z 10000
              /\ quotient * inject_Z 10000 <= inject_Z k + (1 # 2))%Q
             /\ (inject_Z (Z.of_nat (low_quality_count_of builtins records))
                 / inject_Z (Z.of_nat (List.length records)) - (1 # 2 ^ 53)
                 <= quotient
                 /\ quotient
                    <= inject_Z (Z.of_nat (low_quality_count_of builtins records))
                       / inject_Z (Z.of_nat (List.length records))
                       + (1 # 2 ^ 53))%Q).
Proof.
  intros H. apply analyze_memory_quality_inv in H.
  destruct H as (ml & records & w1 & Hrec & Hiter & Hrep).
  exists ml, records, w1.
  split; [exact Hrec|]. split; [exact Hiter|]. split; [exact Hrep|].
  split; [apply low_quality_count_le|]. split.
  - intros Hd. unfold low_quality_count_of.
    rewrite fold_set_add_distinct; [| exact Hd | reflexivity].
    rewrite length_map. reflexivity.
  - apply low_quality_ratio_rounded.
Qed.

(** C10. The set behind [low_quality_count] is keyed by the record's [id],
    else its [memory_id]: two defective records with the same key, two
    records that have neither field among them, add to [low_quality_count]
    once between them, so it stays below the number of defective records,
    while [total_memories] counts both; a report over just such a pair has
    [low_quality_count] 1 and [total_memories] 2. *)
Theorem quality_deduplicates_by_id
    (user_id agent_id : value) (cutoff_date : option datetime)
    (report : value) (w w' : world St) :
  analyze_memory_quality memory builtins user_id agent_id cutoff_date w
  = (Ok report, w') ->
  exists memories_list records w1,
    quality_records memory builtins user_id agent_id cutoff_date w
    = (Ok memories_list, w1)
    /\ py_iter memories_list = Ok records
    /\ report = quality_report_of builtins records
    /\ forall l1 m1 l2 m2 l3,
         records = l1 ++ m1 :: l2 ++ m2 :: l3 ->
         defective builtins m1 = true -> defective builtins m2 = true ->
         key_eqb (record_id m1) (record_id m2) = true ->
         (low_quality_count_of builtins records + 1
          <= List.length (filter (defective builtins) records))%nat
         /\ List.length records
            = (List.length l1 + List.length l2 + List.length l3 + 2)%nat
         /\ (l1 = [] -> l2 = [] -> l3 = [] ->
             low_quality_count_of builtins records = 1%nat
             /\ List.length records = 2%nat).
Proof.
  intros H. apply analyze_memory_quality_inv in H.
  destruct H as (ml & records & w1 & Hrec & Hiter & Hrep).
  exists ml, records, w1.
  split; [exact Hrec|]. split; [exact Hiter|]. split; [exact Hrep|].
  intros l1 m1 l2 m2 l3 -> Hd1 Hd2 Hsame.
  assert (Hpair : (low_quality_count_of builtins (l1 ++ m1 :: l2 ++ m2 :: l3)
                   + 1
                   <= List.length
                        (filter (defective builtins)
                           (l1 ++ m1 :: l2 ++ m2 :: l3)))%nat).
  { unfold low_quality_count_of.
    rewrite filter_app. simpl. rewrite Hd1, filter_app. simpl. rewrite Hd2.
    rewrite map_app. simpl. rewrite map_app. simpl.
    pose proof (fold_set_add_pair
                  (map record_id (filter (defective builtins) l1))
                  (map record_id (filter (defective builtins) l2))
                  (map record_id (filter (defective builtins) l3))
                  [] _ _ Hsame) as Hp.
    simpl in Hp. rewrite !length_app in *. simpl in *.
    rewrite !length_app in *. simpl in *. rewrite !length_map in Hp.
    exact Hp. }
  split; [exact Hpair|]. split.
  - rewrite !length_app. simpl. rewrite length_app. simpl. lia.
  - intros -> -> ->. simpl in *. rewrite Hd1, Hd2 in Hpair. simpl in Hpair.
    split; [|reflexivity].
    assert (Hpos : (1 <= low_quality_count_of builtins [m1; m2])%nat).
    { unfold low_quality_count_of. simpl. rewrite Hd1, Hd2. simpl.
      unfold set_add at 2. simpl.
      destruct (set_add [record_id m1] (record_id m2)) eqn:E; simpl; [|lia].
      unfold set_add in E. destruct (existsb _ _); discriminate E. }
    lia.
Qed.

(** ** create_memory *)

(** C7. When the store's [add] answers with an empty [results] list (or with
    no [results] at all), [create_memory] returns the empty list and raises
    nothing; the store has been called once. *)
Theorem create_memory_empty_results
    (content user_id agent_id run_id metadata filters scope memory_type : value)
    (infer : bool) (w : world St) (result : value) (s1 : St) :
  let c := Add content user_id agent_id run_id metadata filters scope
             memory_type infer in
  memory (store w) c = (inl result, s1) ->
  py_get result "results" (VList []) = Ok (VList []) ->
  create_memory memory builtins content user_id agent_id run_id metadata
    filters scope memory_type infer w
  = (Ok (VList []), after_call w c s1).
Proof.
  intros c Hadd Hres. unfold create_memory, try_except.
  rewrite (bind_ok _ _ _ _ _ (invoke_ok memory _ _ _ _ Hadd)).
  unfold bind at 1. unfold lift at 1. rewrite Hres. reflexivity.
Qed.

(** ** list_memories *)

(** C8. [list_memories] returns exactly the entries of the store's [results]
    list that are dicts, in order; an entry that is not a dict is dropped and
    the call still succeeds, so a response [[dict, non-dict, dict]] gives two
    elements. *)
Theorem list_memories_keeps_dicts
    (user_id agent_id limit offset sort_by order : value)
    (w : world St) (result : value) (entries : list value) (s1 : St) :
  let c := GetAll user_id agent_id limit (Some offset) (Some sort_by)
             (Some order) in
  memory (store w) c = (inl result, s1) ->
  py_get result "results" (VList []) = Ok (VList entries) ->
  list_memories memory user_id agent_id limit offset sort_by order w
  = (Ok (VList (filter is_dict entries)), after_call w c s1)
  /\ (forall a b d,
        entries = [a; b; d] ->
        is_dict a = true -> is_dict b = false -> is_dict d = true ->
        filter is_dict entries = [a; d]).
Proof.
  intros c Hall Hres. split.
  - unfold list_memories, try_except.
    rewrite (bind_ok _ _ _ _ _ (invoke_ok memory _ _ _ _ Hall)).
    unfold bind at 1. unfold lift at 1. rewrite Hres.
    unfold bind at 1. unfold lift at 1. simpl py_iter.
    unfold bind. rewrite for_each_keep_dicts. reflexivity.
  - intros a b d -> Ha Hb Hd. simpl. rewrite Ha, Hb, Hd. reflexivity.
Qed.

End Properties.

(** * Concrete runs *)

(** [create_memory] on content the store already has: no results, an empty
    list. *)
Lemma create_memory_empty_results_run :
  create_memory Demo.list_store Demo.builtins (VStr "green tea") VNone VNone
    VNone VNone VNone VNone VNone true (Demo.world0 [Demo.tea])
  = (Ok (VList []),
     mkWorld [Demo.tea]
       [Add (VStr "green tea") VNone VNone VNone VNone VNone VNone VNone true]).
Proof.
  apply (create_memory_empty_results Demo.list_store Demo.builtins
           (VStr "green tea") VNone VNone VNone VNone VNone VNone VNone true
           (Demo.world0 [Demo.tea]) (VDict [(VStr "results", VList [])])
           [Demo.tea]);
    reflexivity.
Defined.

(** [list_memories] against the response [[dict, non-dict, dict]]. *)
Lemma list_memories_keeps_dicts_run :
  list_memories Demo.list_store VNone VNone (VInt 100) (VInt 0) VNone
    (VStr "desc") (Demo.world0 [Demo.tea; VInt 7; Demo.milk])
  = (Ok (VList [Demo.tea; Demo.milk]),
     mkWorld [Demo.tea; VInt 7; Demo.milk]
       [GetAll VNone VNone (VInt 100) (Some (VInt 0)) (Some VNone)
          (Some (VStr "desc"))]).
Proof.
  apply (list_memories_keeps_dicts Demo.list_store VNone VNone (VInt 100)
           (VInt 0) VNone (VStr "desc")
           (Demo.world0 [Demo.tea; VInt 7; Demo.milk])
           (VDict [(VStr "results", VList [Demo.tea; VInt 7; Demo.milk])])
           [Demo.tea; VInt 7; Demo.milk] [Demo.tea; VInt 7; Demo.milk]);
    reflexivity.
Defined.

(** [update_memory] on an identifier the store does not know. *)
Lemma update_memory_not_found_first_run :
  fails_with
    (update_memory Demo.list_store Demo.builtins (VInt 9) VNone VNone VNone
       VNone (Demo.world0 [Demo.tea]))
    NotFound.
Proof.
  apply (update_memory_not_found_first Demo.list_store Demo.builtins (VInt 9)
           VNone VNone VNone VNone (Demo.world0 [Demo.tea]) [Demo.tea]).
  reflexivity.
Defined.

(** [update_memory] with neither content nor metadata on a record the store
    has: the error that comes out is the update-failed one.  On a record the
    store does not have, the not-found error of the fetch comes out as it
    is. *)
Lemma update_memory_null_arguments_run :
  update_memory Demo.list_store Demo.builtins (VInt 1) VNone VNone VNone VNone
    (Demo.world0 [Demo.tea])
  = (Raise (APIError MEMORY_UPDATE_FAILED
              "Failed to update memory: At least one of content or metadata must be provided"
              500),
     mkWorld [Demo.tea] [Get (VInt 1) VNone VNone])
  /\ update_memory Demo.list_store Demo.builtins (VInt 9) VNone VNone VNone
       VNone (Demo.world0 [Demo.tea])
     = (Raise (APIError MEMORY_NOT_FOUND "Memory 9 not found" 404),
        mkWorld [Demo.tea] [Get (VInt 9) VNone VNone]).
Proof.
  split.
  - destruct (update_memory_null_arguments Demo.list_store Demo.builtins
                (VInt 1) VNone VNone (Demo.world0 [Demo.tea]))
      as (_ & _ & Hfetched & _).
    apply (Hfetched Demo.tea). reflexivity.
  - destruct (update_memory_null_arguments Demo.list_store Demo.builtins
                (VInt 9) VNone VNone (Demo.world0 [Demo.tea]))
      as (_ & _ & _ & Hfailed).
    apply Hfailed. reflexivity.
Defined.

(** C3 as the specification words it does not hold: the record exists, both
    arguments are null, and the error is not of the invalid-argument kind. *)
Lemma update_memory_null_arguments_not_invalid_argument :
  ~ fails_with
      (update_memory Demo.list_store Demo.builtins (VInt 1) VNone VNone VNone
         VNone (Demo.world0 [Demo.tea]))
      InvalidArgument.
Proof.
  intros (e & He & Hk). vm_compute in He. injection He as <-. discriminate Hk.
Qed.

(** An update of the tea record, whose metadata is [{"a": 1}], with
    [{"a": 9, "b": 2}]: the store is asked to write [a] as 9 and [b] as 2,
    and the content it had. *)
Lemma update_writes_merged_metadata_run :
  exists merged,
    dict_get merged (VStr "a") = Some (VInt 9)
    /\ dict_get merged (VStr "b") = Some (VInt 2)
    /\ writes
         (update_memory Demo.list_store Demo.builtins (VInt 1) VNone VNone
            VNone (VDict [(VStr "a", VInt 9); (VStr "b", VInt 2)])
            (Demo.world0 [Demo.tea]))
         (mkWorld [Demo.tea] [Get (VInt 1) VNone VNone])
         (Update (VInt 1) (VStr "green tea") VNone VNone (VDict merged)).
Proof.
  destruct (update_writes_merged_metadata Demo.list_store Demo.builtins
              (VInt 1) VNone VNone VNone
              (VDict [(VStr "a", VInt 9); (VStr "b", VInt 2)])
              Demo.tea_fields (Demo.world0 [Demo.tea])
              (mkWorld [Demo.tea] [Get (VInt 1) VNone VNone])
              eq_refl eq_refl) as [[Hboth _] _].
  destruct (Hboth [(VStr "a", VInt 1)]
              [(VStr "a", VInt 9); (VStr "b", VInt 2)]
              eq_refl ltac:(discriminate) eq_refl ltac:(discriminate) eq_refl)
    as (merged & Hlook & Hw).
  exists merged. rewrite !Hlook. split; [reflexivity|].
  split; [reflexivity | exact Hw].
Defined.

(** A batch of three updates, one good, one for an unknown identifier, one
    without identifier. *)
Lemma batch_results_partition_run :
  exists updated failed w',
    batch_update_memories Demo.list_store Demo.builtins
      [ VDict [(VStr "memory_id", VInt 1); (VStr "content", VStr "black tea")];
        VDict [(VStr "memory_id", VInt 9); (VStr "content", VStr "x")];
        VDict [(VStr "content", VStr "x")] ]
      VNone VNone (Demo.world0 [Demo.tea])
    = (Ok (batch_result "updated" updated failed 3), w')
    /\ (List.length updated + List.length failed = 3)%nat
    /\ indexes_partition updated failed 3.
Proof.
  apply (proj2 (proj2 (batch_results_partition Demo.list_store Demo.builtins
                         VNone VNone VNone true (Demo.world0 [Demo.tea])))
           [ VDict [(VStr "memory_id", VInt 1);
                    (VStr "content", VStr "black tea")];
             VDict [(VStr "memory_id", VInt 9); (VStr "content", VStr "x")];
             VDict [(VStr "content", VStr "x")] ]).
  repeat constructor.
Defined.

(** C4 fails on the code.  One dated record of importance 0.0: the mean of
    the importance values is 0, and [avg_importance] comes out as 0.5,
    because [m.get("importance") or 0.5] takes the 0.0 for a missing
    value. *)
Theorem avg_importance_of_zero_importance :
  exists snapshot w',
    get_statistics Demo.list_store Demo.builtins Demo.now_us VNone VNone
      (Some Demo.utc_cutoff) (Demo.world0 [Demo.plain])
    = (Ok snapshot, w')
    /\ field snapshot "total_memories" = VInt 1
    /\ field snapshot "avg_importance" = VFloat 0.5%Q
    /\ field Demo.plain "importance" = VFloat 0%Q
    /\ spec_avg_importance Demo.builtins [Demo.plain] = 0%Q
    /\ ~ (0.5 == spec_avg_importance Demo.builtins [Demo.plain])%Q.
Proof.
  eexists _, _. split; [vm_compute; reflexivity|].
  do 4 (split; [reflexivity|]). intros H. vm_compute in H. discriminate H.
Qed.

(** C5 as the specification words it does not hold.  The store has one
    record, without [created_at]; with a cutoff of 2024-01-01 the snapshot
    counts nothing at all, the record being neither in [total_memories] nor
    in [by_type] nor in [avg_importance]. *)
Lemma get_statistics_drops_undated_record :
  has_created_at Demo.milk = false
  /\ get_statistics Demo.list_store Demo.builtins Demo.now_us VNone VNone
       (Some Demo.naive_cutoff) (Demo.world0 [Demo.milk])
     = (Ok Demo.empty_snapshot,
        mkWorld [Demo.milk]
          [GetStatistics VNone VNone;
           GetAll VNone VNone (VInt 10000) None None None])
  /\ field Demo.empty_snapshot "total_memories" = VInt 0
  /\ field Demo.empty_snapshot "by_type" = VDict []
  /\ field Demo.empty_snapshot "avg_importance" = VFloat 0%Q.
Proof. repeat split; reflexivity. Qed.

(** The same store and cutoff, and the dated record under a UTC cutoff. *)
Lemma get_statistics_cutoff_counts_run :
  (~ In Demo.milk (filter (on_or_after Demo.builtins Demo.naive_cutoff)
                     [Demo.milk]))
  /\ (exists top,
        Demo.empty_snapshot
        = recomputed_snapshot Demo.builtins Demo.now_us
            (filter (on_or_after Demo.builtins Demo.naive_cutoff) [Demo.milk])
            top)
  /\ (exists snapshot top,
        get_statistics Demo.list_store Demo.builtins Demo.now_us VNone VNone
          (Some Demo.utc_cutoff) (Demo.world0 [Demo.plain])
        = (Ok snapshot,
           mkWorld [Demo.plain]
             [GetStatistics VNone VNone;
              GetAll VNone VNone (VInt 10000) None None None])
        /\ snapshot
           = recomputed_snapshot Demo.builtins Demo.now_us
               (filter (on_or_after Demo.builtins Demo.utc_cutoff)
                  [Demo.plain]) top).
Proof.
  destruct (get_statistics_cutoff_counts Demo.list_store Demo.builtins
              Demo.now_us VNone VNone Demo.naive_cutoff
              (Demo.world0 [Demo.milk]) (VDict [])
              (VDict [(VStr "results", VList [Demo.milk])])
              [Demo.milk] [Demo.milk] [Demo.milk] eq_refl eq_refl eq_refl)
    as [Hrun Hdrop].
  split; [apply Hdrop; reflexivity|]. split.
  - destruct (Hrun Demo.empty_snapshot
                (mkWorld [Demo.milk]
                   [GetStatistics VNone VNone;
                    GetAll VNone VNone (VInt 10000) None None None])
                eq_refl) as [Htop _].
    exact Htop.
  - destruct (get_statistics_cutoff_counts Demo.list_store Demo.builtins
                Demo.now_us VNone VNone Demo.utc_cutoff
                (Demo.world0 [Demo.plain]) (VDict [])
                (VDict [(VStr "results", VList [Demo.plain])])
                [Demo.plain] [Demo.plain] [Demo.plain] eq_refl eq_refl eq_refl)
      as [Hrun' _].
    eexists. 
    destruct (Hrun' _ _ eq_refl) as [[top Htop] _].
    exists top. split; [reflexivity | exact Htop].
Defined.

(** A report over the stub record, which has empty metadata and two
    characters of content, and the tea record: both counters of the stub
    rise, and it counts once. *)
Lemma quality_report_counts_once_run :
  analyze_memory_quality Demo.list_store Demo.builtins VNone VNone None
    (Demo.world0 [Demo.stub; Demo.tea])
  = (Ok (VDict [ (VStr "total_memories", VInt 2);
                 (VStr "low_quality_count", VInt 1);
                 (VStr "low_quality_ratio", VFloat (1 # 2));
                 (VStr "quality_criteria",
                  VDict [ (VStr "missing_metadata", VInt 1);
                          (VStr "empty_content", VInt 1);
                          (VStr "low_importance", VInt 0) ]) ]),
     mkWorld [Demo.stub; Demo.tea]
       [GetAll VNone VNone (VInt 10000) (Some (VInt 0)) None None])
  /\ exists records,
       low_quality_count_of Demo.builtins records
       = List.length (filter (defective Demo.builtins) records)
       /\ (0 <= low_quality_ratio_of Demo.builtins records
           /\ low_quality_ratio_of Demo.builtins records <= 1)%Q.
Proof.
  split; [vm_compute; reflexivity|].
  destruct (quality_report_counts_once Demo.list_store Demo.builtins VNone
              VNone None
              (VDict [ (VStr "total_memories", VInt 2);
                       (VStr "low_quality_count", VInt 1);
                       (VStr "low_quality_ratio", VFloat (1 # 2));
                       (VStr "quality_criteria",
                        VDict [ (VStr "missing_metadata", VInt 1);
                                (VStr "empty_content", VInt 1);
                                (VStr "low_importance", VInt 0) ]) ])
              (Demo.world0 [Demo.stub; Demo.tea])
              (mkWorld [Demo.stub; Demo.tea]
                 [GetAll VNone VNone (VInt 10000) (Some (VInt 0)) None None])
              eq_refl)
    as (ml & records & w1 & Hrec & Hiter & _ & _ & Hdist & Hratio & _).
  injection Hrec as <- _. injection Hiter as <-.
  exists [Demo.stub; Demo.tea]. split; [apply Hdist; reflexivity | exact Hratio].
Defined.

(** One defective record among 160: the quotient is the float next above
    0.00625, so the ratio is the float 0.0063, where the exact 0.00625
    rounded half to even would give 0.0062. *)
Lemma low_quality_ratio_one_in_160 :
  low_quality_ratio_of Demo.builtins (Demo.stub :: repeat Demo.tea 159)
  = binary64 (63 # 10000)
  /\ round_half_even (int_truediv 1 160 * inject_Z 10000) = 63
  /\ round_half_even ((1 # 160) * inject_Z 10000) = 62.
Proof. vm_compute. repeat split; reflexivity. Qed.

(** A report over two defective records that have no identifier: the pair
    counts once, the total is two. *)
Lemma quality_deduplicates_by_id_run :
  record_id Demo.anon_short = VNone /\ record_id Demo.anon_bare = VNone
  /\ low_quality_count_of Demo.builtins [Demo.anon_short; Demo.anon_bare]
     = 1%nat
  /\ List.length [Demo.anon_short; Demo.anon_bare] = 2%nat.
Proof.
  split; [reflexivity|]. split; [reflexivity|].
  destruct (quality_deduplicates_by_id Demo.list_store Demo.builtins VNone
              VNone None
              (quality_report_of Demo.builtins
                 [Demo.anon_short; Demo.anon_bare])
              (Demo.world0 [Demo.anon_short; Demo.anon_bare])
              (mkWorld [Demo.anon_short; Demo.anon_bare]
                 [GetAll VNone VNone (VInt 10000) (Some (VInt 0)) None None])
              eq_refl)
    as (ml & records & w1 & Hrec & Hiter & _ & Hpair).
  injection Hrec as <- _. injection Hiter as <-.
  apply (Hpair [] Demo.anon_short [] Demo.anon_bare [] eq_refl eq_refl eq_refl
           eq_refl);
    reflexivity.
Defined.

(** * Further properties of MemoryService *)

Lemma bind_inv_raise {St A B} (c : M St A) (k : A -> M St B) w e w' :
  bind c k w = (Raise e, w') ->
  c w = (Raise e, w')
  \/ exists a w1, c w = (Ok a, w1) /\ k a w1 = (Raise e, w').
Proof.
  unfold bind. destruct (c w) as [[a | e0] w1]; intros H.
  - right. exists a, w1. split; [reflexivity | exact H].
  - left. injection H as -> ->. reflexivity.
Qed.

Lemma try_except_inv_raise {St A} (body : M St A) (handler : exn -> M St A)
    (w w' : world St) (e : exn) :
  try_except body handler w = (Raise e, w') ->
  exists e0 w1, body w = (Raise e0, w1) /\ handler e0 w1 = (Raise e, w').
Proof.
  unfold try_except. destruct (body w) as [[x | e0] w1]; intros H.
  - discriminate H.
  - exists e0, w1. split; [reflexivity | exact H].
Qed.


(** ** What a computation can raise *)

Lemma raises_ret {St A} (P : exn -> Prop) (a : A) : raises_only P (@ret St A a).
Proof. intros w e w' H. discriminate H. Qed.

Lemma raises_raise {St A} (P : exn -> Prop) (e : exn) :
  P e -> raises_only P (@raise St A e).
Proof. intros He w e' w' H. injection H as <- _. exact He. Qed.

Lemma raises_lift {St A} (P : exn -> Prop) (o : outcome A) :
  outcome_only P o -> raises_only P (@lift St A o).
Proof. intros Ho w e w' H. injection H as -> _. apply Ho. reflexivity. Qed.

Lemma raises_bind {St A B} (P : exn -> Prop) (c : M St A) (k : A -> M St B) :
  raises_only P c -> (forall a, raises_only P (k a)) -> raises_only P (bind c k).
Proof.
  intros Hc Hk w e w' H. apply bind_inv_raise in H.
  destruct H as [H | (a & w1 & _ & H)]; [exact (Hc _ _ _ H) | exact (Hk _ _ _ _ H)].
Qed.

Lemma raises_try_except {St A} (P : exn -> Prop) (body : M St A)
    (handler : exn -> M St A) :
  (forall e, raises_only P (handler e)) -> raises_only P (try_except body handler).
Proof.
  intros Hh w e w' H. apply try_except_inv_raise in H.
  destruct H as (e0 & w1 & _ & H). exact (Hh _ _ _ _ H).
Qed.

Lemma raises_for_each {St A B} (P : exn -> Prop) (step : A -> B -> M St A)
    (l : list B) :
  (forall acc x, raises_only P (step acc x)) ->
  forall acc, raises_only P (for_each l acc step).
Proof.
  intros Hs. induction l as [|x l IH]; intros acc; simpl.
  - apply raises_ret.
  - apply raises_bind; [apply Hs | intros a; apply IH].
Qed.

Lemma raises_invoke {St} (P : exn -> Prop)
    (memory : St -> call -> store_result * St) (c : call) :
  (forall cls msg, P (PyExc cls msg)) -> raises_only P (invoke memory c).
Proof.
  intros HP w e w' H. unfold invoke in H.
  destruct (memory (store w) c) as [[v | [cls msg]] s']; [discriminate H|].
  injection H as <- _. apply HP.
Qed.

(** The operations on values raise no [APIError]. *)
Lemma outcome_only_ok {A} (P : exn -> Prop) (a : A) : outcome_only P (Ok a).
Proof. intros e H. discriminate H. Qed.

Lemma outcome_only_pyexc {A} (P : exn -> Prop) (cls : exc_class) (msg : string) :
  P (PyExc cls msg) -> outcome_only P (@Raise A (PyExc cls msg)).
Proof. intros HP e H. injection H as <-. exact HP. Qed.

Ltac pyop_tac :=
  intros;
  repeat match goal with
         | |- outcome_only _ (Ok _) => apply outcome_only_ok
         | |- outcome_only _ (Raise (PyExc _ _)) =>
             apply outcome_only_pyexc; auto
         | |- outcome_only _ (attribute_error _ _) =>
             apply outcome_only_pyexc; auto
         | |- outcome_only _ (match ?x with _ => _ end) => destruct x
         | |- outcome_only _ (if ?b then _ else _) => destruct b
         end.

Section PyOps.

Variable P : exn -> Prop.
Hypothesis P_pyexc : forall cls msg, P (PyExc cls msg).

Lemma py_get_only m k d : outcome_only P (py_get m k d).
Proof. unfold py_get. pyop_tac. Qed.

Lemma py_len_only v : outcome_only P (py_len v).
Proof. unfold py_len. pyop_tac. Qed.

Lemma py_iter_only v : outcome_only P (py_iter v).
Proof. unfold py_iter. pyop_tac. Qed.

Lemma py_contains_only k c : outcome_only P (py_contains k c).
Proof. unfold py_contains. pyop_tac. Qed.

Lemma py_getitem_only c k : outcome_only P (py_getitem c k).
Proof. unfold py_getitem. pyop_tac. Qed.

Lemma py_getitem0_only c : outcome_only P (py_getitem0 c).
Proof. unfold py_getitem0. pyop_tac. Qed.

Lemma py_setitem_only c k v : outcome_only P (py_setitem c k v).
Proof. unfold py_setitem. pyop_tac. Qed.

Lemma py_merge_only a b : outcome_only P (py_merge a b).
Proof. unfold py_merge. pyop_tac. Qed.

Lemma py_slice100_only v : outcome_only P (py_slice100 v).
Proof. unfold py_slice100. pyop_tac. Qed.

Lemma py_gt0_only v : outcome_only P (py_gt0 v).
Proof. unfold py_gt0. pyop_tac. Qed.

Lemma py_hash_only v : outcome_only P (py_hash v).
Proof. unfold py_hash. pyop_tac. Qed.

Lemma py_float_only builtins v : outcome_only P (py_float builtins v).
Proof. unfold py_float. pyop_tac. Qed.

End PyOps.

Ltac raises_tac HP :=
  repeat first
    [ apply raises_ret
    | apply raises_raise; solve [apply HP | simpl; auto]
    | apply raises_invoke; exact HP
    | apply raises_lift;
      first [ apply py_get_only | apply py_len_only | apply py_iter_only
            | apply py_contains_only | apply py_getitem_only
            | apply py_getitem0_only | apply py_setitem_only
            | apply py_merge_only | apply py_slice100_only | apply py_gt0_only
            | apply py_hash_only | apply py_float_only ]; exact HP
    | apply raises_bind; [|intros ?]
    | match goal with
      | |- raises_only _ (if ?b then _ else _) => destruct b
      | |- raises_only _ (match ?x with _ => _ end) => destruct x
      | |- raises_only _ (let (_, _) := ?x in _) => destruct x
      end ].

Section ServiceProperties.

Context {St : Type}.
Variable memory : St -> call -> store_result * St.
Variable builtins : Builtins.
Variable now_us : Z.

(** ** get_memory *)

(** The secondary lookup changes nothing but the content, and nothing at
    all when it fails. *)
Lemma content_from_payload_or_not (d : dict) (memory_id : value) (w : world St) :
  exists d' w',
    try_except (content_from_payload memory (VDict d) memory_id)
      (fun _ => ret (VDict d)) w = (Ok (VDict d'), w')
    /\ (d' = d
        \/ exists payload data s2,
             memory (store w) (VectorStoreGet memory_id) = (inl payload, s2)
             /\ py_get payload "data" (VStr "") = Ok data
             /\ truthy payload = true /\ truthy data = true
             /\ d' = dict_set d (VStr "content") data)
    /\ exists s2, w' = after_call w (VectorStoreGet memory_id) s2.
Proof.
  unfold content_from_payload, try_except, bind, invoke, lift, ret.
  destruct (memory (store w) (VectorStoreGet memory_id))
    as [[payload | [cls msg]] s2] eqn:Hv; simpl.
  2:{ exists d. eexists. split; [reflexivity|]. split; [left; reflexivity|].
      eexists. reflexivity. }
  destruct (truthy payload) eqn:Hp; simpl.
  2:{ exists d. eexists. split; [reflexivity|]. split; [left; reflexivity|].
      eexists. reflexivity. }
  destruct (py_get payload "data" (VStr "")) as [data | e] eqn:Hd; simpl.
  2:{ exists d. eexists. split; [reflexivity|]. split; [left; reflexivity|].
      eexists. reflexivity. }
  destruct (truthy data) eqn:Ht; simpl.
  - eexists. eexists. split; [reflexivity|]. split.
    + right. exists payload, data, s2. repeat split; assumption.
    + eexists. reflexivity.
  - exists d. eexists. split; [reflexivity|]. split; [left; reflexivity|].
    eexists. reflexivity.
Qed.

(** What [get_memory] does with a dict the store hands back. *)
Lemma get_memory_on_dict (memory_id user_id agent_id : value) (d : dict)
    (w : world St) (s1 : St) :
  memory (store w) (Get memory_id user_id agent_id) = (inl (VDict d), s1) ->
  let w1 := after_call w (Get memory_id user_id agent_id) s1 in
  (truthy (field (VDict d) "content") = true ->
   get_memory memory builtins memory_id user_id agent_id w = (Ok (VDict d), w1))
  /\ (truthy (field (VDict d) "content") = false ->
      get_memory memory builtins memory_id user_id agent_id w
      = try_except (content_from_payload memory (VDict d) memory_id)
          (fun _ => ret (VDict d)) w1).
Proof.
  intros Hget w1.
  assert (E : get_memory memory builtins memory_id user_id agent_id w
              = try_except
                  (if negb (truthy (field (VDict d) "content"))
                      || key_eqb (field (VDict d) "content") (VStr "")
                   then try_except
                          (content_from_payload memory (VDict d) memory_id)
                          (fun _ => ret (VDict d))
                   else ret (VDict d))
                  (fun e =>
                     match e with
                     | APIError _ _ _ => raise e
                     | PyExc _ _ =>
                         raise (APIError INTERNAL_ERROR
                                  ("Failed to get memory: " ++ exn_str e) 500)
                     end) w1).
  { unfold get_memory, try_except at 1 3.
    rewrite (bind_ok _ _ _ _ _ (invoke_ok memory _ _ _ _ Hget)).
    reflexivity. }
  rewrite E. split; intros Hc.
  - rewrite Hc. simpl negb.
    assert (Hk : key_eqb (field (VDict d) "content") (VStr "") = false).
    { destruct (field (VDict d) "content") as [| | | |s| |];
        try reflexivity; try discriminate Hc.
      destruct s; [discriminate Hc | reflexivity]. }
    rewrite Hk. reflexivity.
  - rewrite Hc. simpl negb. simpl orb. unfold try_except at 1.
    destruct (content_from_payload_or_not d memory_id w1) as (d' & w' & Hr & _).
    rewrite Hr. reflexivity.
Qed.

(** X1. What [get_memory] answers is decided by what the store's [get]
    hands back: a dict gives a dict, [None] the not-found error (404), any
    other value or an exception of the store the internal error (500) with
    the cause in its message. *)
Theorem get_memory_outcomes (memory_id user_id agent_id : value) (w : world St) :
  match fst (memory (store w) (Get memory_id user_id agent_id)) with
  | inl (VDict d) =>
      exists d', fst (get_memory memory builtins memory_id user_id agent_id w)
                 = Ok (VDict d')
  | inl VNone =>
      fst (get_memory memory builtins memory_id user_id agent_id w)
      = Raise (APIError MEMORY_NOT_FOUND
                 ("Memory " ++ py_str builtins memory_id ++ " not found") 404)
  | inl v =>
      fst (get_memory memory builtins memory_id user_id agent_id w)
      = Raise (APIError INTERNAL_ERROR
                 ("Failed to get memory: '" ++ type_name v
                  ++ "' object has no attribute 'get'") 500)
  | inr (cls, msg) =>
      fst (get_memory memory builtins memory_id user_id agent_id w)
      = Raise (APIError INTERNAL_ERROR ("Failed to get memory: " ++ msg) 500)
  end.
Proof.
  destruct (memory (store w) (Get memory_id user_id agent_id))
    as [[v | [cls msg]] s1] eqn:Hget; simpl fst at 1.
  - destruct v;
      try (unfold get_memory, try_except, bind, invoke; rewrite Hget;
           reflexivity).
    destruct (get_memory_on_dict memory_id user_id agent_id l w s1 Hget)
      as [Htruthy Hfalsy].
    destruct (truthy (field (VDict l) "content")) eqn:Hc.
    + exists l. rewrite (Htruthy eq_refl). reflexivity.
    + rewrite (Hfalsy eq_refl).
      destruct (content_from_payload_or_not l memory_id
                  (after_call w (Get memory_id user_id agent_id) s1))
        as (d' & w' & Hr & _).
      exists d'. rewrite Hr. reflexivity.
  - unfold get_memory, try_except, bind, invoke. rewrite Hget. reflexivity.
Qed.

(** X2. When the record the store hands back has no content and the raw
    payload carries a non-empty ["data"], [get_memory] returns the record
    with that data as its content and every other field as it was. *)
Theorem get_memory_content_from_payload
    (memory_id user_id agent_id data : value) (d p : dict) (w : world St)
    (s1 s2 : St) :
  memory (store w) (Get memory_id user_id agent_id) = (inl (VDict d), s1) ->
  truthy (field (VDict d) "content") = false ->
  memory s1 (VectorStoreGet memory_id) = (inl (VDict p), s2) ->
  dict_get p (VStr "data") = Some data ->
  truthy data = true ->
  exists d',
    get_memory memory builtins memory_id user_id agent_id w
    = (Ok (VDict d'),
       after_call (after_call w (Get memory_id user_id agent_id) s1)
         (VectorStoreGet memory_id) s2)
    /\ dict_get d' (VStr "content") = Some data
    /\ forall k, key_eqb (VStr "content") k = false ->
                 dict_get d' k = dict_get d k.
Proof.
  intros Hget Hc Hvec Hdata Ht.
  destruct (get_memory_on_dict memory_id user_id agent_id d w s1 Hget)
    as [_ Hfalsy].
  exists (dict_set d (VStr "content") data). split; [|split].
  - rewrite (Hfalsy Hc).
    unfold content_from_payload, try_except, bind, invoke, lift.
    simpl store. rewrite Hvec. simpl.
    destruct p as [|kv p]; [discriminate Hdata|].
    simpl truthy. cbv iota. rewrite Hdata, Ht. reflexivity.
  - rewrite dict_get_set. reflexivity.
  - intros k Hk. rewrite dict_get_set, Hk. reflexivity.
Qed.

(** A dict of the store always gets through [get_memory]. *)
Lemma get_memory_dict_ok (memory_id user_id agent_id : value) (d : dict)
    (w : world St) (s1 : St) :
  memory (store w) (Get memory_id user_id agent_id) = (inl (VDict d), s1) ->
  exists d' w',
    get_memory memory builtins memory_id user_id agent_id w
    = (Ok (VDict d'), w').
Proof.
  intros Hget.
  destruct (get_memory_on_dict memory_id user_id agent_id d w s1 Hget)
    as [Htruthy Hfalsy].
  destruct (truthy (field (VDict d) "content")) eqn:Hc.
  - exists d. eexists. apply Htruthy. reflexivity.
  - rewrite (Hfalsy eq_refl).
    destruct (content_from_payload_or_not d memory_id
                (after_call w (Get memory_id user_id agent_id) s1))
      as (d' & w' & Hr & _).
    exists d', w'. exact Hr.
Qed.

(** X3. Whatever the secondary lookup does, a dict of the store comes back
    from [get_memory] as a dict that differs from it at most in its
    content; a record that has content comes back as it is, after one call
    to the store. *)
Theorem get_memory_keeps_other_fields
    (memory_id user_id agent_id : value) (d : dict) (w : world St) (s1 : St) :
  memory (store w) (Get memory_id user_id agent_id) = (inl (VDict d), s1) ->
  exists d' w',
    get_memory memory builtins memory_id user_id agent_id w
    = (Ok (VDict d'), w')
    /\ (forall k, key_eqb (VStr "content") k = false ->
                  dict_get d' k = dict_get d k)
    /\ (truthy (field (VDict d) "content") = true ->
        d' = d /\ w' = after_call w (Get memory_id user_id agent_id) s1).
Proof.
  intros Hget.
  destruct (get_memory_on_dict memory_id user_id agent_id d w s1 Hget)
    as [Htruthy Hfalsy].
  destruct (truthy (field (VDict d) "content")) eqn:Hc.
  - exists d. eexists. split; [apply Htruthy; reflexivity|].
    split; [reflexivity|]. intros _. split; reflexivity.
  - rewrite (Hfalsy eq_refl).
    destruct (content_from_payload_or_not d memory_id
                (after_call w (Get memory_id user_id agent_id) s1))
      as (d' & w' & Hr & Hd' & _).
    exists d', w'. split; [exact Hr|]. split; [|discriminate].
    intros k Hk.
    destruct Hd' as [-> | (payload & data & s2 & _ & _ & _ & _ & ->)];
      [reflexivity|].
    rewrite dict_get_set, Hk. reflexivity.
Qed.

(** ** delete_memory *)

(** A failed fetch is an [APIError] raised right after the store's [get]. *)
Lemma get_memory_raise_inv (memory_id user_id agent_id : value) (w w1 : world St)
    (e : exn) :
  get_memory memory builtins memory_id user_id agent_id w = (Raise e, w1) ->
  (exists code message status, e = APIError code message status)
  /\ exists s1, w1 = after_call w (Get memory_id user_id agent_id) s1.
Proof.
  intros H.
  destruct (memory (store w) (Get memory_id user_id agent_id))
    as [[v | [cls msg]] s1] eqn:Hget.
  - destruct v;
      try (unfold get_memory, try_except, bind, invoke in H; rewrite Hget in H;
           simpl in H; injection H as <- <-;
           split; [eexists _, _, _; reflexivity | eexists; reflexivity]).
    destruct (get_memory_dict_ok memory_id user_id agent_id l w s1 Hget)
      as (d' & w' & Hr).
    rewrite Hr in H. discriminate H.
  - unfold get_memory, try_except, bind, invoke in H. rewrite Hget in H.
    simpl in H. injection H as <- <-.
    split; [eexists _, _, _; reflexivity | eexists; reflexivity].
Qed.

(** X4. What [delete_memory] does is decided by the fetch and then by the
    store's [delete].  When the fetch fails, it fails with the error of
    the fetch, and the store has been asked for the record and nothing
    else: no delete is issued for a record that could not be fetched.
    Once the record is fetched, it returns [True] for a truthy answer of
    the store's [delete], raises the delete-failed error naming the record
    for a falsy one, and the delete-failed error carrying the cause when
    the store raises. *)
Theorem delete_memory_outcomes
    (memory_id user_id agent_id : value) (w : world St) :
  match get_memory memory builtins memory_id user_id agent_id w with
  | (Raise e, w1) =>
      delete_memory memory builtins memory_id user_id agent_id w
      = (Raise e, w1)
      /\ exists s1, w1 = after_call w (Get memory_id user_id agent_id) s1
  | (Ok _, w1) =>
      delete_memory memory builtins memory_id user_id agent_id w
      = match memory (store w1) (Delete memory_id user_id agent_id) with
        | (inl success, s2) =>
            (if truthy success then Ok (VBool true)
             else Raise (APIError MEMORY_DELETE_FAILED
                           ("Failed to delete memory "
                            ++ py_str builtins memory_id) 500),
             after_call w1 (Delete memory_id user_id agent_id) s2)
        | (inr (cls, msg), s2) =>
            (Raise (APIError MEMORY_DELETE_FAILED
                      ("Failed to delete memory: " ++ msg) 500),
             after_call w1 (Delete memory_id user_id agent_id) s2)
        end
  end.
Proof.
  destruct (get_memory memory builtins memory_id user_id agent_id w)
    as [[r | e] w1] eqn:H.
  - unfold delete_memory, try_except.
    rewrite (bind_ok _ _ _ _ _ H). unfold bind, invoke.
    destruct (memory (store w1) (Delete memory_id user_id agent_id))
      as [[success | [cls msg]] s2]; simpl; [|reflexivity].
    destruct (truthy success); reflexivity.
  - destruct (get_memory_raise_inv _ _ _ _ _ _ H)
      as [(code & message & status & ->) Hw].
    split; [|exact Hw].
    unfold delete_memory, try_except. rewrite (bind_raise _ _ _ _ _ H).
    reflexivity.
Qed.

(** ** update_memory: the identifier in the result *)


(** ** The errors of the service *)

Lemma get_memory_raises (memory_id user_id agent_id : value) :
  raises_only fetch_error
    (get_memory memory builtins memory_id user_id agent_id).
Proof.
  intros w e w' H.
  destruct (get_memory_cases memory builtins memory_id user_id agent_id w)
    as (w1 & rest & _ & _ & Hc).
  rewrite H in Hc. simpl in Hc.
  destruct Hc as [[d Hd] | [[msg Hm] | [msg Hm]]].
  - discriminate Hd.
  - injection Hm as ->. exists msg. left. reflexivity.
  - injection Hm as ->. exists msg. right. reflexivity.
Qed.

Lemma raises_result {A} (P : exn -> Prop) (c : M St A) (w : world St) :
  raises_only P c ->
  match fst (c w) with Ok _ => True | Raise e => P e end.
Proof.
  intros Hc. destruct (c w) as [[a | e] w'] eqn:E; simpl; [exact I|].
  exact (Hc _ _ _ E).
Qed.

(** X6. The methods that run in a [try] raise nothing but an [APIError]:
    [create_memory], [list_memories] and [analyze_memory_quality] only
    their own wrapping error, status 500, with the cause after a fixed
    prefix; [update_memory] and [delete_memory] the error of the fetch, or
    their own wrapping error. *)
Theorem service_raises_api_errors
    (content memory_id user_id agent_id run_id metadata filters scope
       memory_type limit offset sort_by order : value)
    (infer : bool) (cutoff_date : option datetime) (w : world St) :
  match fst (create_memory memory builtins content user_id agent_id run_id
               metadata filters scope memory_type infer w) with
  | Ok _ => True
  | Raise e => wrapped_as MEMORY_CREATE_FAILED "Failed to create memory: " e
  end
  /\ match fst (list_memories memory user_id agent_id limit offset sort_by
                  order w) with
     | Ok _ => True
     | Raise e => wrapped_as INTERNAL_ERROR "Failed to list memories: " e
     end
  /\ match fst (analyze_memory_quality memory builtins user_id agent_id
                  cutoff_date w) with
     | Ok _ => True
     | Raise e =>
         wrapped_as INTERNAL_ERROR "Failed to analyze memory quality: " e
     end
  /\ match fst (update_memory memory builtins memory_id content user_id
                  agent_id metadata w) with
     | Ok _ => True
     | Raise e =>
         fetch_error e
         \/ wrapped_as MEMORY_UPDATE_FAILED "Failed to update memory: " e
     end
  /\ match fst (delete_memory memory builtins memory_id user_id agent_id w) with
     | Ok _ => True
     | Raise e =>
         fetch_error e
         \/ wrapped_as MEMORY_DELETE_FAILED "Failed to delete memory" e
     end.
Proof.
  split; [|split; [|split; [|split]]]; apply raises_result.
  - unfold create_memory. apply raises_try_except. intros e.
    apply raises_raise. exists (exn_str e). reflexivity.
  - unfold list_memories. apply raises_try_except. intros e.
    apply raises_raise. exists (exn_str e). reflexivity.
  - unfold analyze_memory_quality. apply raises_try_except. intros e.
    apply raises_raise. exists (exn_str e). reflexivity.
  - intros w0 e w' H. unfold update_memory in H.
    apply try_except_inv_raise in H. destruct H as (e0 & w1 & Hbody & H).
    destruct e0 as [code message status | cls msg].
    + injection H as <- _.
      apply bind_inv_raise in Hbody.
      destruct Hbody as [Hg | (existing & w2 & _ & Hk)].
      * left. exact (get_memory_raises _ _ _ _ _ _ Hg).
      * exfalso. revert Hk.
        assert (Hp : raises_only is_pyexc
                       (if is_none content && is_none metadata
                        then raise (PyExc ValueError
                                      "At least one of content or metadata must be provided")
                        else
                          final_content <- final_content_of existing content ;;
                          final_metadata <- final_metadata_of existing metadata ;;
                          result <- invoke memory
                                      (Update memory_id final_content user_id
                                         agent_id final_metadata) ;;
                          if truthy result then
                            has_id <- lift (py_contains "id" result) ;;
                            if negb has_id then
                              result' <- lift (py_setitem result "id" memory_id) ;;
                              lift (py_setitem result' "memory_id" memory_id)
                            else ret result
                          else ret result)).
        { unfold final_content_of, final_metadata_of.
          raises_tac (fun (cls : exc_class) (msg : string) => I). }
        intros Hk. exact (Hp _ _ _ Hk).
    + injection H as <- _. right. exists msg. reflexivity.
  - intros w0 e w' H. unfold delete_memory in H.
    apply try_except_inv_raise in H. destruct H as (e0 & w1 & Hbody & H).
    destruct e0 as [code message status | cls msg].
    + injection H as <- _.
      apply bind_inv_raise in Hbody.
      destruct Hbody as [Hg | (existing & w2 & _ & Hk)].
      * left. exact (get_memory_raises _ _ _ _ _ _ Hg).
      * right. apply bind_inv_raise in Hk.
        destruct Hk as [Hinv | (success & w3 & _ & Hk)].
        -- exfalso.
           exact (raises_invoke is_pyexc memory _
                    (fun (cls : exc_class) (msg : string) => I) _ _ _ Hinv).
        -- destruct (negb (truthy success)); [|discriminate Hk].
           injection Hk as <- <- <- _.
           exists (" " ++ py_str builtins memory_id)%string. reflexivity.
    + injection H as <- _. right. exists (": " ++ msg)%string. reflexivity.
Qed.

(** ** get_statistics *)

Lemma stats_step_raises (acc : stats_acc) (m : value) :
  raises_only is_pyexc (@stats_step St builtins now_us acc m).
Proof.
  unfold stats_step. raises_tac (fun (cls : exc_class) (msg : string) => I).
Qed.

(** X7. [get_statistics] runs outside any [try]: without a cutoff it hands
    on what the store's [get_statistics] answers, and whenever it fails,
    with a cutoff or without, the exception is the original one of the
    store or of the interpreter, never an [APIError]. *)
Theorem get_statistics_raises_unwrapped
    (user_id agent_id : value) (cutoff_date : option datetime) (w : world St) :
  match fst (get_statistics memory builtins now_us user_id agent_id
               cutoff_date w) with
  | Ok _ => True
  | Raise e => is_pyexc e
  end
  /\ get_statistics memory builtins now_us user_id agent_id None w
     = match memory (store w) (GetStatistics user_id agent_id) with
       | (inl stats, s1) =>
           (Ok stats, after_call w (GetStatistics user_id agent_id) s1)
       | (inr (cls, msg), s1) =>
           (Raise (PyExc cls msg),
            after_call w (GetStatistics user_id agent_id) s1)
       end.
Proof.
  split.
  - apply raises_result. unfold get_statistics.
    apply raises_bind;
      [apply raises_invoke; exact (fun (cls : exc_class) (msg : string) => I)|].
    intros stats. destruct cutoff_date as [cutoff|]; [|apply raises_ret].
    apply raises_bind;
      [apply raises_invoke; exact (fun (cls : exc_class) (msg : string) => I)|].
    intros result.
    apply raises_bind;
      [apply raises_lift, py_get_only;
       exact (fun (cls : exc_class) (msg : string) => I)|].
    intros all_memories.
    apply raises_bind;
      [apply raises_lift, py_iter_only;
       exact (fun (cls : exc_class) (msg : string) => I)|].
    intros items. apply raises_bind.
    + unfold filter_by_cutoff. apply raises_for_each. intros kept m.
      raises_tac (fun (cls : exc_class) (msg : string) => I).
    + intros filtered. unfold _calculate_stats_from_memories.
      destruct (Z.of_nat (List.length filtered) =? 0); [apply raises_ret|].
      apply raises_bind; [|intros acc; apply raises_ret].
      apply raises_for_each. apply stats_step_raises.
  - unfold get_statistics, bind, invoke.
    destruct (memory (store w) (GetStatistics user_id agent_id))
      as [[stats | [cls msg]] s1]; reflexivity.
Qed.

End ServiceProperties.

(** * create_memory: the records it returns *)

Section CreateProperties.

Context {St : Type}.
Variable memory : St -> call -> store_result * St.
Variable builtins : Builtins.

Lemma get_field_dict (e : dict) (k : string) (p : value) (w : world St) :
  get_field (VDict e) k p w = (Ok (entry_or e k p), w).
Proof.
  unfold get_field, entry_or, bind, lift, ret. simpl. unfold dict_mem.
  destruct (dict_get e (VStr k)) as [v|]; [|reflexivity].
  destruct (is_none v); reflexivity.
Qed.

Lemma copy_timestamp_dict (e n : dict) (k : string) (w : world St) :
  copy_timestamp (VDict e) (VDict n) k w
  = (Ok (VDict (match stamp_of e k with
                | Some v => dict_set n (VStr k) v
                | None => n
                end)), w).
Proof.
  unfold copy_timestamp, stamp_of, bind, lift, ret. simpl. unfold dict_mem.
  destruct (dict_get e (VStr k)) as [v|]; [|reflexivity].
  destruct (is_none v); reflexivity.
Qed.

(** The fallback record, in closed form. *)
Lemma fallback_memory_dict (e : dict)
    (memory_id content user_id agent_id run_id metadata : value) (w : world St) :
  exists md : dict,
    (md = match dict_get e (VStr "metadata") with
          | Some (VDict m) => m
          | Some VNone | None => match metadata with VDict m => m | _ => [] end
          | Some _ => []
          end)
    /\ fallback_memory (VDict e) memory_id content user_id agent_id run_id
         metadata w
       = (Ok (VDict
                (let base :=
                   [ (VStr "id", memory_id);
                     (VStr "memory_id", memory_id);
                     (VStr "content", entry_or e "memory" content);
                     (VStr "user_id", entry_or e "user_id" user_id);
                     (VStr "agent_id", entry_or e "agent_id" agent_id);
                     (VStr "run_id", entry_or e "run_id" run_id);
                     (VStr "metadata", VDict md) ] in
                 let stamped :=
                   match stamp_of e "created_at" with
                   | Some v => dict_set base (VStr "created_at") v
                   | None => base
                   end in
                 match stamp_of e "updated_at" with
                 | Some v => dict_set stamped (VStr "updated_at") v
                 | None => stamped
                 end)), w).
Proof.
  eexists. split; [reflexivity|].
  unfold fallback_memory.
  unfold bind at 1. unfold lift at 1. simpl py_get. cbv iota beta.
  rewrite (bind_ok _ _ _ _ _ (get_field_dict e "memory" content w)).
  rewrite (bind_ok _ _ _ _ _ (get_field_dict e "user_id" user_id w)).
  rewrite (bind_ok _ _ _ _ _ (get_field_dict e "agent_id" agent_id w)).
  rewrite (bind_ok _ _ _ _ _ (get_field_dict e "run_id" run_id w)).
  rewrite (bind_ok _ _ _ _ _ (copy_timestamp_dict e _ "created_at" w)).
  rewrite copy_timestamp_dict.
  assert (Hm : forall rm0 : value,
             (if is_dict (if is_none rm0 then py_or metadata (VDict []) else rm0)
              then if is_none rm0 then py_or metadata (VDict []) else rm0
              else VDict [])
             = VDict match rm0 with
                     | VDict m => m
                     | VNone => match metadata with VDict m => m | _ => [] end
                     | _ => []
                     end).
  { intros rm0. destruct rm0; simpl; try reflexivity.
    unfold py_or. destruct (truthy metadata) eqn:Ht;
      destruct metadata as [|b|z|q|s|l|m]; simpl; try reflexivity.
    destruct m; [reflexivity | discriminate Ht]. }
  rewrite !Hm.
  destruct (dict_get e (VStr "metadata")) as [v|]; [destruct v|]; reflexivity.
Qed.

(** X8. When the created record cannot be fetched back, [create_memory]
    builds it from the store's entry: it carries the identifier as ["id"]
    and ["memory_id"]; content, user, agent and run are the entry's
    ["memory"], ["user_id"], ["agent_id"] and ["run_id"] where the entry
    has one that is not [None], and the caller's argument otherwise; its
    metadata is always a dict (the entry's if that is a dict, the caller's
    if the entry has none, empty otherwise); and it has a timestamp exactly
    when the entry has one that is not [None]. *)
Theorem fallback_record_fields (e : dict)
    (memory_id content user_id agent_id run_id metadata : value) (w : world St) :
  exists r md : dict,
    fallback_memory (VDict e) memory_id content user_id agent_id run_id
      metadata w = (Ok (VDict r), w)
    /\ dict_get r (VStr "id") = Some memory_id
    /\ dict_get r (VStr "memory_id") = Some memory_id
    /\ dict_get r (VStr "content") = Some (entry_or e "memory" content)
    /\ dict_get r (VStr "user_id") = Some (entry_or e "user_id" user_id)
    /\ dict_get r (VStr "agent_id") = Some (entry_or e "agent_id" agent_id)
    /\ dict_get r (VStr "run_id") = Some (entry_or e "run_id" run_id)
    /\ dict_get r (VStr "metadata") = Some (VDict md)
    /\ (forall m, dict_get e (VStr "metadata") = Some (VDict m) -> md = m)
    /\ (field (VDict e) "metadata" = VNone ->
        md = match metadata with VDict m => m | _ => [] end)
    /\ (forall v, dict_get e (VStr "metadata") = Some v ->
        is_none v = false -> is_dict v = false -> md = [])
    /\ dict_get r (VStr "created_at") = stamp_of e "created_at"
    /\ dict_get r (VStr "updated_at") = stamp_of e "updated_at".
Proof.
  destruct (fallback_memory_dict e memory_id content user_id agent_id run_id
              metadata w) as (md & Hmd & Hrun).
  eexists. exists md. split; [exact Hrun|]. cbv zeta.
  assert (Hkeep : forall k,
             key_eqb (VStr "created_at") k = false ->
             key_eqb (VStr "updated_at") k = false ->
             forall base : dict,
             dict_get
               (match stamp_of e "updated_at" with
                | Some v =>
                    dict_set
                      (match stamp_of e "created_at" with
                       | Some v0 => dict_set base (VStr "created_at") v0
                       | None => base
                       end) (VStr "updated_at") v
                | None =>
                    match stamp_of e "created_at" with
                    | Some v0 => dict_set base (VStr "created_at") v0
                    | None => base
                    end
                end) k = dict_get base k).
  { intros k Hc Hu base.
    destruct (stamp_of e "updated_at"), (stamp_of e "created_at");
      rewrite ?dict_get_set, ?Hc, ?Hu; rewrite ?dict_get_set, ?Hc, ?Hu;
      reflexivity. }
  repeat (split; [rewrite Hkeep by reflexivity; reflexivity|]).
  split; [|split; [|split; [|split]]].
  - intros m Hm. rewrite Hm in Hmd. exact Hmd.
  - unfold field. simpl py_get. intros Hnone. rewrite Hmd.
    destruct (dict_get e (VStr "metadata")) as [v|]; [|reflexivity].
    rewrite Hnone. reflexivity.
  - intros v Hv Hnone Hdict. rewrite Hv in Hmd.
    destruct v; try discriminate; exact Hmd.
  - destruct (stamp_of e "updated_at"), (stamp_of e "created_at");
      rewrite ?dict_get_set; simpl; rewrite ?dict_get_set; reflexivity.
  - destruct (stamp_of e "updated_at"), (stamp_of e "created_at");
      rewrite ?dict_get_set; simpl; rewrite ?dict_get_set; reflexivity.
Qed.

Lemma dict_set_nonempty (d : dict) (k v : value) : dict_set d k v <> [].
Proof.
  destruct d as [|[k0 v0] d]; simpl; [discriminate|].
  destruct (key_eqb k0 k); discriminate.
Qed.

Lemma fallback_memory_id (e : dict)
    (memory_id content user_id agent_id run_id metadata : value) (w : world St) :
  exists r : dict,
    fallback_memory (VDict e) memory_id content user_id agent_id run_id
      metadata w = (Ok (VDict r), w)
    /\ r <> [] /\ dict_get r (VStr "id") = Some memory_id.
Proof.
  destruct (fallback_memory_dict e memory_id content user_id agent_id run_id
              metadata w) as (md & _ & Hrun).
  eexists. split; [exact Hrun|]. cbv zeta.
  destruct (stamp_of e "updated_at"), (stamp_of e "created_at"); split;
    try apply dict_set_nonempty; try discriminate;
    rewrite ?dict_get_set; simpl; rewrite ?dict_get_set; reflexivity.
Qed.

(** One turn of the loop of [create_memory] on an entry that is a dict. *)
Lemma normalize_item_unfold (content user_id agent_id run_id metadata : value)
    (acc : list value) (e : dict) (w : world St) :
  normalize_item memory builtins content user_id agent_id run_id metadata acc
    (VDict e) w
  = if is_none (field (VDict e) "id") then (Ok acc, w)
    else
      let fallback :=
        (normalized_memory <-
           fallback_memory (VDict e) (field (VDict e) "id") content user_id
             agent_id run_id metadata ;;
         ret (acc ++ [normalized_memory])) in
      match get_memory memory builtins (field (VDict e) "id") user_id
              agent_id w with
      | (Ok v, w1) => if truthy v then (Ok (acc ++ [v]), w1) else fallback w1
      | (Raise _, w1) => fallback w1
      end.
Proof.
  unfold normalize_item. unfold bind at 1. unfold lift at 1.
  change (py_get (VDict e) "id" VNone) with (Ok (field (VDict e) "id")).
  cbv iota beta.
  destruct (is_none (field (VDict e) "id")); [reflexivity|].
  unfold try_except, bind at 1 2. simpl negb. cbv iota zeta.
  destruct (get_memory memory builtins (field (VDict e) "id") user_id
              agent_id w) as [[v | ex] w1]; [|reflexivity].
  unfold ret at 1. destruct (truthy v); reflexivity.
Qed.

(** One turn of the loop on an entry with an identifier: a record that is
    not an empty dict is added. *)
Lemma normalize_item_record (content user_id agent_id run_id metadata : value)
    (acc : list value) (e : dict) (w : world St) :
  has_identifier (VDict e) = true ->
  exists (m : value) (r : dict),
    normalize_item memory builtins content user_id agent_id run_id metadata
      acc (VDict e) w
    = (Ok (acc ++ [m]),
       snd (get_memory memory builtins (field (VDict e) "id") user_id
              agent_id w))
    /\ record_for memory builtins content user_id agent_id run_id metadata
         (VDict e) w m
    /\ m = VDict r /\ r <> [].
Proof.
  intros Hid. rewrite normalize_item_unfold. unfold has_identifier in Hid.
  destruct (is_none (field (VDict e) "id")); [discriminate Hid|].
  cbv zeta. unfold record_for.
  pose proof (get_memory_cases memory builtins (field (VDict e) "id")
                user_id agent_id w) as (w2 & rest & _ & _ & Hc).
  destruct (get_memory memory builtins (field (VDict e) "id") user_id
              agent_id w) as [[v | ex] w1] eqn:G; cbn [fst snd] in *.
  - destruct Hc as [[d Hd] | [[msg Hm] | [msg Hm]]]; try discriminate.
    injection Hd as ->.
    destruct d as [|kv d]; cbn [truthy].
    + destruct (fallback_memory_id e (field (VDict e) "id") content
                  user_id agent_id run_id metadata w1) as (r & Hr & Hne & _).
      exists (VDict r), r. rewrite (bind_ok _ _ _ _ _ Hr).
      repeat split; [exact Hr | exact Hne].
    + exists (VDict (kv :: d)), (kv :: d). repeat split. discriminate.
  - destruct (fallback_memory_id e (field (VDict e) "id") content
                user_id agent_id run_id metadata w1) as (r & Hr & Hne & _).
    exists (VDict r), r. rewrite (bind_ok _ _ _ _ _ Hr).
    repeat split; [exact Hr | exact Hne].
Qed.

Lemma normalize_item_skip (content user_id agent_id run_id metadata : value)
    (acc : list value) (e : dict) (w : world St) :
  has_identifier (VDict e) = false ->
  normalize_item memory builtins content user_id agent_id run_id metadata
    acc (VDict e) w = (Ok acc, w).
Proof.
  intros Hid. rewrite normalize_item_unfold. unfold has_identifier in Hid.
  destruct (is_none (field (VDict e) "id")); [reflexivity | discriminate Hid].
Qed.

Lemma normalize_loop (content user_id agent_id run_id metadata : value)
    (entries : list value) :
  Forall (fun e => is_dict e = true) entries ->
  forall (acc : list value) (w : world St),
  exists ms w',
    for_each entries acc
      (normalize_item memory builtins content user_id agent_id run_id metadata)
      w = (Ok (acc ++ ms), w')
    /\ records_for memory builtins content user_id agent_id run_id metadata
         entries w ms w'
    /\ Forall (fun m => exists r : dict, m = VDict r /\ r <> []) ms
    /\ List.length ms = List.length (filter has_identifier entries).
Proof.
  induction 1 as [|e entries He _ IH]; intros acc w.
  - exists [], w. cbn. rewrite app_nil_r. repeat split. constructor.
  - destruct e as [| | | | | |d]; try discriminate He.
    cbn [for_each records_for filter].
    destruct (has_identifier (VDict d)) eqn:Hid.
    + destruct (normalize_item_record content user_id agent_id run_id
                  metadata acc d w Hid) as (m & r & Hrun & Hrec & Hm & Hne).
      destruct (IH (acc ++ [m])
                  (snd (get_memory memory builtins (field (VDict d) "id")
                          user_id agent_id w)))
        as (ms & w' & Hloop & Hall & Hdicts & Hlen).
      exists (m :: ms), w'. rewrite (bind_ok _ _ _ _ _ Hrun), Hloop.
      rewrite <- app_assoc. split; [reflexivity|].
      split; [split; assumption|]. split.
      * constructor; [exists r; split; assumption | exact Hdicts].
      * cbn [List.length]. rewrite Hlen. reflexivity.
    + rewrite (bind_ok _ _ _ _ _
                 (normalize_item_skip content user_id agent_id run_id metadata
                    acc d w Hid)).
      apply IH.
Qed.

(** X9. When the store's [add] answers with entries that are dicts,
    [create_memory] succeeds and returns one record for each entry that has
    an ["id"] other than [None], in the order of the entries, and none for
    the others.  It takes the entries in turn, in the world the store's
    [add] and the entries before have left: the record of an entry is the
    one [get_memory] fetches there under the entry's identifier when that
    fetch succeeds with a record that is not empty, and only when the fetch
    fails or comes back empty the record built from the entry.  Each record
    is a dict that is not empty, and the call ends in the world the last
    fetch left. *)
Theorem create_memory_one_record_per_identifier
    (content user_id agent_id run_id metadata filters scope memory_type : value)
    (infer : bool) (w : world St) (result : value) (entries : list value)
    (s1 : St) :
  memory (store w)
    (Add content user_id agent_id run_id metadata filters scope memory_type
       infer) = (inl result, s1) ->
  py_get result "results" (VList []) = Ok (VList entries) ->
  Forall (fun e => is_dict e = true) entries ->
  exists ms w',
    create_memory memory builtins content user_id agent_id run_id metadata
      filters scope memory_type infer w = (Ok (VList ms), w')
    /\ records_for memory builtins content user_id agent_id run_id metadata
         entries
         (after_call w
            (Add content user_id agent_id run_id metadata filters scope
               memory_type infer) s1)
         ms w'
    /\ Forall (fun m => exists r : dict, m = VDict r /\ r <> []) ms
    /\ List.length ms = List.length (filter has_identifier entries).
Proof.
  intros Hadd Hres Hd.
  destruct entries as [|e entries].
  - exists [], (after_call w
                  (Add content user_id agent_id run_id metadata filters scope
                     memory_type infer) s1).
    split; [|repeat split; constructor].
    unfold create_memory, try_except.
    rewrite (bind_ok _ _ _ _ _ (invoke_ok memory _ _ _ _ Hadd)).
    unfold bind at 1. unfold lift at 1. rewrite Hres. reflexivity.
  - destruct (normalize_loop content user_id agent_id run_id metadata
                (e :: entries) Hd []
                (after_call w
                   (Add content user_id agent_id run_id metadata filters scope
                      memory_type infer) s1))
      as (ms & w' & Hloop & Hall & Hdicts & Hlen).
    exists ms, w'. split; [|split; [exact Hall | split; assumption]].
    unfold create_memory, try_except.
    rewrite (bind_ok _ _ _ _ _ (invoke_ok memory _ _ _ _ Hadd)).
    unfold bind at 1. unfold lift at 1. rewrite Hres.
    cbn [truthy negb]. unfold bind at 1. unfold lift at 1. cbn [py_len].
    unfold bind at 1. unfold lift at 1. cbn [py_iter].
    rewrite (bind_ok _ _ _ _ _ Hloop). reflexivity.
Qed.

End CreateProperties.

(** * Batch operations: validation, order, identifiers *)

(** The world a batch loop ends in, when the world after one turn depends on
    the item and the world before it only, and an item that is not valid
    leaves the world alone. *)
Section BatchWorld.

Context {St : Type}.
Variable step : batch_acc -> nat * value -> M St batch_acc.
Variable item_world : value -> world St -> world St.
Variable valid : value -> bool.

Hypothesis step_world :
  forall acc i m w, is_dict m = true ->
    exists acc', step acc (i, m) w = (Ok acc', item_world m w).

Hypothesis invalid_world :
  forall m w, is_dict m = true -> valid m = false -> item_world m w = w.

Lemma batch_world_loop (l : list value) :
  Forall (fun m => is_dict m = true) l ->
  forall s acc w,
  exists acc',
    for_each (combine (seq s (List.length l)) l) acc step w
    = (Ok acc', fold_left (fun w m => item_world m w) l w).
Proof.
  induction 1 as [|m l Hm _ IH]; intros s acc w; simpl.
  - exists acc. reflexivity.
  - destruct (step_world acc s m w Hm) as (acc1 & Hstep).
    destruct (IH (S s) acc1 (item_world m w)) as (acc' & Hloop).
    exists acc'. rewrite (bind_ok _ _ _ _ _ Hstep). exact Hloop.
Qed.

Lemma batch_world_filter (l : list value) :
  Forall (fun m => is_dict m = true) l ->
  forall w,
    fold_left (fun w m => item_world m w) (filter valid l) w
    = fold_left (fun w m => item_world m w) l w.
Proof.
  induction 1 as [|m l Hm _ IH]; intros w; simpl; [reflexivity|].
  destruct (valid m) eqn:Hv; simpl.
  - apply IH.
  - rewrite (invalid_world m w Hm Hv). apply IH.
Qed.

Lemma batch_world_same (l : list value) (w : world St) :
  Forall (fun m => is_dict m = true) l ->
  snd (for_each (enumerate (filter valid l)) ([], []) step w)
  = snd (for_each (enumerate l) ([], []) step w).
Proof.
  intros Hl. unfold enumerate.
  assert (Hf : Forall (fun m => is_dict m = true) (filter valid l)).
  { rewrite Forall_forall in *. intros m Hin. apply filter_In in Hin.
    apply Hl. apply Hin. }
  destruct (batch_world_loop l Hl 0%nat ([], []) w) as (a1 & H1).
  destruct (batch_world_loop (filter valid l) Hf 0%nat ([], []) w) as (a2 & H2).
  transitivity (fold_left (fun w m => item_world m w) (filter valid l) w);
    [exact (f_equal snd H2)|].
  rewrite (batch_world_filter l Hl). symmetry. exact (f_equal snd H1).
Qed.

End BatchWorld.

Section BatchProperties.

Context {St : Type}.
Variable memory : St -> call -> store_result * St.
Variable builtins : Builtins.

(** ** batch_create_memories *)

Lemma batch_create_item_world (user_id agent_id run_id : value) (infer : bool)
    (i j : nat) (m : value) (w : world St) :
  snd (batch_create_item memory user_id agent_id run_id infer i m w)
  = snd (batch_create_item memory user_id agent_id run_id infer j m w).
Proof.
  unfold batch_create_item, bind, lift, raise, ret.
  repeat (match goal with
          | |- context [match ?x with _ => _ end] => destruct x
          | |- context [if ?x then _ else _] => destruct x
          end; try reflexivity).
Qed.

Lemma batch_create_step_world (user_id agent_id run_id : value) (infer : bool)
    (acc : batch_acc) (i : nat) (m : value) (w : world St) :
  is_dict m = true ->
  exists acc',
    batch_create_step memory user_id agent_id run_id infer acc (i, m) w
    = (Ok acc',
       snd (batch_create_item memory user_id agent_id run_id infer 0 m w)).
Proof.
  intros Hd. destruct m as [| | | | | |d]; try discriminate Hd.
  destruct acc as [created failed].
  rewrite (batch_create_item_world user_id agent_id run_id infer 0 i).
  unfold batch_create_step, try_except.
  destruct (batch_create_item memory user_id agent_id run_id infer i
              (VDict d) w) as [[entry | e] w1] eqn:E.
  - rewrite (bind_ok _ _ _ _ _ E). eexists. reflexivity.
  - rewrite (bind_raise _ _ _ _ _ E). eexists. reflexivity.
Qed.

Lemma batch_create_item_no_content (user_id agent_id run_id : value)
    (infer : bool) (i : nat) (d : dict) (w : world St) :
  has_content (VDict d) = false ->
  batch_create_item memory user_id agent_id run_id infer i (VDict d) w
  = (Raise (PyExc ValueError "Memory content is required"), w).
Proof.
  unfold has_content, field. simpl py_get. intros Hc.
  unfold batch_create_item. unfold bind at 1. unfold lift at 1.
  simpl py_get. cbv iota beta. rewrite Hc. reflexivity.
Qed.

(** X10. An item of [batch_create_memories] whose ["content"] is missing,
    [None] or empty is rejected before the store is asked anything: it goes
    to the failure list with its index and the error
    ["Memory content is required"], and the world is left as it was.  So a
    batch leaves the store, and the calls made to it, exactly as the batch
    of its items that have content does. *)
Theorem batch_create_skips_items_without_content
    (user_id agent_id run_id : value) (infer : bool) (memories : list value)
    (w : world St) :
  Forall (fun m => is_dict m = true) memories ->
  (forall created failed idx m,
      In m memories -> has_content m = false ->
      exists entry,
        batch_create_step memory user_id agent_id run_id infer
          (created, failed) (idx, m) w
        = (Ok (created, failed ++ [entry]), w)
        /\ entry_index entry = Some (Z.of_nat idx)
        /\ entry_error entry = Some (VStr "Memory content is required"))
  /\ snd (batch_create_memories memory (filter has_content memories) user_id
            agent_id run_id infer w)
     = snd (batch_create_memories memory memories user_id agent_id run_id
              infer w).
Proof.
  intros Hd. split.
  - intros created failed idx m Hin Hc.
    rewrite Forall_forall in Hd. specialize (Hd m Hin).
    destruct m as [| | | | | |d]; try discriminate Hd.
    eexists. unfold batch_create_step, try_except.
    rewrite (bind_raise _ _ _ _ _
               (batch_create_item_no_content user_id agent_id run_id infer
                  idx d w Hc)).
    unfold bind, lift, ret. simpl py_get. cbv iota beta.
    split; [reflexivity|]. split; reflexivity.
  - assert (Hw : forall l,
               snd (batch_create_memories memory l user_id agent_id run_id
                      infer w)
               = snd (for_each (enumerate l) ([], [])
                        (batch_create_step memory user_id agent_id run_id
                           infer) w)).
    { intros l. unfold batch_create_memories, bind.
      destruct (for_each (enumerate l) ([], []) _ w) as [[[c f] | e] w1];
        reflexivity. }
    rewrite !Hw.
    apply (batch_world_same
             (batch_create_step memory user_id agent_id run_id infer)
             (fun m w0 =>
                snd (batch_create_item memory user_id agent_id run_id infer 0
                       m w0))
             has_content).
    + intros acc i m w0. apply batch_create_step_world.
    + intros m w0 Hm Hc. destruct m as [| | | | | |d]; try discriminate Hm.
      rewrite (batch_create_item_no_content _ _ _ _ _ _ _ Hc). reflexivity.
    + exact Hd.
Qed.

(** X11. Where [batch_create_memories] reads the identifier of the memory
    it made, for an item with content and an answer of the store that is a
    dict: off the first entry of ["results"] when there is one, even if
    that entry has no ["id"] and the answer has an identifier of its own;
    with no entry, off the answer's ["memory_id"] when that key is there,
    and off its ["id"] only when it is not.  The item fails with
    ["Failed to extract memory_id from result"] when the identifier read is
    [None]. *)
Theorem batch_create_identifier_precedence
    (user_id agent_id run_id : value) (infer : bool) (idx : nat)
    (d r : dict) (w : world St) (s1 : St) :
  let item := VDict d in
  let c := Add (field item "content") user_id agent_id run_id
             (field item "metadata") (field item "filters")
             (field item "scope") (field item "memory_type") infer in
  let run := batch_create_item memory user_id agent_id run_id infer idx item w in
  let settle := fun memory_id =>
    settle_created idx (field item "content") memory_id (after_call w c s1) in
  has_content item = true ->
  memory (store w) c = (inl (VDict r), s1) ->
  (forall first rest,
      dict_get r (VStr "results") = Some (VList (VDict first :: rest)) ->
      run = settle (field (VDict first) "id"))
  /\ (dict_get r (VStr "results") = None
      \/ dict_get r (VStr "results") = Some (VList []) ->
      (forall v, dict_get r (VStr "memory_id") = Some v -> run = settle v)
      /\ (dict_get r (VStr "memory_id") = None ->
          forall v, dict_get r (VStr "id") = Some v -> run = settle v)
      /\ (dict_get r (VStr "memory_id") = None ->
          dict_get r (VStr "id") = None -> run = settle VNone)).
Proof.
  intros item c run settle Hc Hadd.
  assert (Hrun : run
                 = (memory_id <- extract_memory_id (VDict r) ;;
                    fun w1 => settle_created idx (field item "content")
                                memory_id w1)
                     (after_call w c s1)).
  { unfold run, batch_create_item, item.
    unfold bind at 1. unfold lift at 1. cbn [py_get]. cbv iota beta.
    unfold has_content, item, field in Hc. cbn [py_get] in Hc. rewrite Hc.
    cbn [negb]. cbv iota.
    do 4 (unfold bind at 1; unfold lift at 1; cbn [py_get]; cbv iota beta).
    unfold c, item, field in Hadd. cbn [py_get] in Hadd.
    rewrite (bind_ok _ _ _ _ _ (invoke_ok memory _ _ _ _ Hadd)).
    unfold bind. unfold c, item, field. cbn [py_get].
    destruct (extract_memory_id (VDict r) _) as [[memory_id | e] w1];
      [|reflexivity].
    unfold settle_created. destruct (is_none memory_id); reflexivity. }
  rewrite Hrun. unfold settle.
  unfold extract_memory_id, bind, lift, ret. simpl py_contains.
  unfold dict_mem. split.
  - intros first rest Hres. rewrite Hres. simpl. rewrite Hres. reflexivity.
  - intros Hres.
    destruct Hres as [Hres | Hres]; rewrite Hres; simpl; rewrite ?Hres; simpl;
      (split; [|split]).
    all: unfold dict_mem.
    all: try (intros v Hv; rewrite Hv; reflexivity).
    all: try (intros Hm v Hv; rewrite Hm, Hv; reflexivity).
    all: intros Hm Hi; rewrite Hm, Hi; reflexivity.
Qed.

(** ** batch_update_memories *)

Lemma batch_update_item_world (user_id agent_id : value)
    (i j : nat) (m : value) (w : world St) :
  snd (batch_update_item memory builtins user_id agent_id i m w)
  = snd (batch_update_item memory builtins user_id agent_id j m w).
Proof.
  unfold batch_update_item, bind, lift, raise, ret.
  repeat (match goal with
          | |- context [match ?x with _ => _ end] => destruct x
          | |- context [if ?x then _ else _] => destruct x
          end; try reflexivity).
Qed.

Lemma batch_update_step_world (user_id agent_id : value)
    (acc : batch_acc) (i : nat) (m : value) (w : world St) :
  is_dict m = true ->
  exists acc',
    batch_update_step memory builtins user_id agent_id acc (i, m) w
    = (Ok acc',
       snd (batch_update_item memory builtins user_id agent_id 0 m w)).
Proof.
  intros Hd. destruct m as [| | | | | |d]; try discriminate Hd.
  destruct acc as [updated failed].
  rewrite (batch_update_item_world user_id agent_id 0 i).
  unfold batch_update_step, try_except.
  destruct (batch_update_item memory builtins user_id agent_id i
              (VDict d) w) as [[entry | e] w1] eqn:E.
  - rewrite (bind_ok _ _ _ _ _ E). eexists. reflexivity.
  - rewrite (bind_raise _ _ _ _ _ E). eexists. reflexivity.
Qed.

Lemma batch_update_item_invalid (user_id agent_id : value)
    (i : nat) (d : dict) (w : world St) :
  valid_update (VDict d) = false ->
  batch_update_item memory builtins user_id agent_id i (VDict d) w
  = (Raise (PyExc ValueError
              (if is_none (field (VDict d) "memory_id")
               then "memory_id is required for each update"
               else "At least one of content or metadata must be provided")),
     w).
Proof.
  unfold valid_update, field. simpl py_get. intros Hv.
  unfold batch_update_item. unfold bind at 1. unfold lift at 1.
  simpl py_get. cbv iota beta.
  destruct (is_none match dict_get d (VStr "memory_id") with
                    | Some v => v
                    | None => VNone
                    end); [reflexivity|].
  simpl in Hv. apply negb_false_iff in Hv.
  unfold bind at 1. unfold lift at 1. simpl py_get. cbv iota beta.
  unfold bind at 1. unfold lift at 1. simpl py_get. cbv iota beta.
  rewrite Hv. reflexivity.
Qed.

(** X12. [batch_update_memories] checks an item before it fetches anything,
    the other way round from [update_memory]: an item without a
    ["memory_id"], or with neither ["content"] nor ["metadata"], goes to the
    failure list with its index and the error of the check that failed,
    the first check first, and the world is left as it was.  So a batch
    leaves the store, and the calls made to it, exactly as the batch of its
    valid items does. *)
Theorem batch_update_validates_before_fetch
    (user_id agent_id : value) (updates : list value) (w : world St) :
  Forall (fun m => is_dict m = true) updates ->
  (forall updated failed idx m,
      In m updates -> valid_update m = false ->
      exists entry,
        batch_update_step memory builtins user_id agent_id
          (updated, failed) (idx, m) w
        = (Ok (updated, failed ++ [entry]), w)
        /\ entry_index entry = Some (Z.of_nat idx)
        /\ entry_error entry
           = Some (VStr (if is_none (field m "memory_id")
                         then "memory_id is required for each update"
                         else
                           "At least one of content or metadata must be provided")))
  /\ snd (batch_update_memories memory builtins (filter valid_update updates)
            user_id agent_id w)
     = snd (batch_update_memories memory builtins updates user_id agent_id w).
Proof.
  intros Hd. split.
  - intros updated failed idx m Hin Hv.
    rewrite Forall_forall in Hd. specialize (Hd m Hin).
    destruct m as [| | | | | |d]; try discriminate Hd.
    eexists. unfold batch_update_step, try_except.
    rewrite (bind_raise _ _ _ _ _
               (batch_update_item_invalid user_id agent_id idx d w Hv)).
    unfold bind, lift, ret. simpl py_get. cbv iota beta.
    split; [reflexivity|]. split; reflexivity.
  - assert (Hw : forall l,
               snd (batch_update_memories memory builtins l user_id agent_id w)
               = snd (for_each (enumerate l) ([], [])
                        (batch_update_step memory builtins user_id agent_id)
                        w)).
    { intros l. unfold batch_update_memories, bind.
      destruct (for_each (enumerate l) ([], []) _ w) as [[[c f] | e] w1];
        reflexivity. }
    rewrite !Hw.
    apply (batch_world_same
             (batch_update_step memory builtins user_id agent_id)
             (fun m w0 =>
                snd (batch_update_item memory builtins user_id agent_id 0
                       m w0))
             valid_update).
    + intros acc i m w0. apply batch_update_step_world.
    + intros m w0 Hm Hv. destruct m as [| | | | | |d]; try discriminate Hm.
      rewrite (batch_update_item_invalid _ _ _ _ _ Hv). reflexivity.
    + exact Hd.
Qed.

(** ** The order of the result lists *)

Lemma ordered_batch_loop (step : batch_acc -> nat * value -> M St batch_acc) :
  (forall ok failed item w, is_dict (snd item) = true ->
     exists entry w',
       (step (ok, failed) item w = (Ok (ok ++ [entry], failed), w')
        /\ entry_index entry = Some (Z.of_nat (fst item)))
       \/ (step (ok, failed) item w = (Ok (ok, failed ++ [entry]), w')
           /\ entry_index entry = Some (Z.of_nat (fst item)))) ->
  forall items : list value,
    Forall (fun m => is_dict m = true) items ->
    forall (s : nat) (ok failed : list value) (w : world St),
    exists oks fails ixs jxs w',
      for_each (combine (seq s (List.length items)) items) (ok, failed) step w
      = (Ok (ok ++ oks, failed ++ fails), w')
      /\ carries_indexes oks ixs /\ carries_indexes fails jxs
      /\ StronglySorted lt ixs /\ StronglySorted lt jxs
      /\ Forall (le s) ixs /\ Forall (le s) jxs.
Proof.
  intros Hstep. induction 1 as [|m items Hm _ IH]; intros s ok failed w.
  - exists [], [], [], [], w. simpl. rewrite !app_nil_r.
    repeat split; constructor.
  - assert (Hup : forall l, Forall (le (S s)) l -> Forall (le s) l /\ Forall (lt s) l).
    { intros l Hl. split; eapply Forall_impl; try exact Hl; simpl; intros; lia. }
    destruct (Hstep ok failed (s, m) w Hm) as (entry & w1 & [[Hs Hi] | [Hs Hi]]).
    + destruct (IH (S s) (ok ++ [entry]) failed w1)
        as (oks & fails & ixs & jxs & w' & Hr & Hoi & Hfi & Hso & Hsf & Hlo & Hlf).
      exists (entry :: oks), fails, (s :: ixs), jxs, w'. simpl for_each.
      rewrite (bind_ok _ _ _ _ _ Hs), Hr, <- app_assoc.
      destruct (Hup _ Hlo) as [Hle Hlt]. destruct (Hup _ Hlf) as [Hle' _].
      split; [reflexivity|]. split.
      { unfold carries_indexes in *. simpl. rewrite Hi, Hoi. reflexivity. }
      split; [exact Hfi|]. split; [constructor; assumption|].
      split; [exact Hsf|]. split; [constructor; [lia | exact Hle] | exact Hle'].
    + destruct (IH (S s) ok (failed ++ [entry]) w1)
        as (oks & fails & ixs & jxs & w' & Hr & Hoi & Hfi & Hso & Hsf & Hlo & Hlf).
      exists oks, (entry :: fails), ixs, (s :: jxs), w'. simpl for_each.
      rewrite (bind_ok _ _ _ _ _ Hs), Hr, <- app_assoc.
      destruct (Hup _ Hlo) as [Hle _]. destruct (Hup _ Hlf) as [Hle' Hlt'].
      split; [reflexivity|]. split; [exact Hoi|]. split.
      { unfold carries_indexes in *. simpl. rewrite Hi, Hfi. reflexivity. }
      split; [exact Hso|]. split; [constructor; assumption|].
      split; [exact Hle | constructor; [lia | exact Hle']].
Qed.

(** X13. [batch_create_memories] and [batch_update_memories] fill both of
    their result lists in input order: the indexes carried by the entries
    of the success list are strictly increasing, and so are those of the
    failure list. *)
Theorem batch_lists_in_input_order
    (user_id agent_id run_id : value) (infer : bool) (w : world St) :
  (forall memories : list value,
      Forall (fun m => is_dict m = true) memories ->
      exists created failed ixs jxs w',
        batch_create_memories memory memories user_id agent_id run_id infer w
        = (Ok (batch_result "created" created failed (List.length memories)),
           w')
        /\ carries_indexes created ixs /\ carries_indexes failed jxs
        /\ StronglySorted lt ixs /\ StronglySorted lt jxs)
  /\ (forall updates : list value,
        Forall (fun m => is_dict m = true) updates ->
        exists updated failed ixs jxs w',
          batch_update_memories memory builtins updates user_id agent_id w
          = (Ok (batch_result "updated" updated failed (List.length updates)),
             w')
          /\ carries_indexes updated ixs /\ carries_indexes failed jxs
          /\ StronglySorted lt ixs /\ StronglySorted lt jxs).
Proof.
  split.
  - intros memories Hd.
    destruct (ordered_batch_loop
                (batch_create_step memory user_id agent_id run_id infer)
                (batch_create_step_one memory user_id agent_id run_id infer)
                memories Hd 0%nat [] [] w)
      as (ok & failed & ixs & jxs & w' & Hr & Hoi & Hfi & Hso & Hsf & _).
    exists ok, failed, ixs, jxs, w'.
    split; [|repeat split; assumption].
    unfold batch_create_memories, enumerate.
    rewrite (bind_ok _ _ _ _ _ Hr). reflexivity.
  - intros updates Hd.
    destruct (ordered_batch_loop
                (batch_update_step memory builtins user_id agent_id)
                (batch_update_step_one memory builtins user_id agent_id)
                updates Hd 0%nat [] [] w)
      as (ok & failed & ixs & jxs & w' & Hr & Hoi & Hfi & Hso & Hsf & _).
    exists ok, failed, ixs, jxs, w'.
    split; [|repeat split; assumption].
    unfold batch_update_memories, enumerate.
    rewrite (bind_ok _ _ _ _ _ Hr). reflexivity.
Qed.

End BatchProperties.

(** * Statistics: what the counters add up to, and the ranking *)

(** ** Counting dicts *)

Lemma dict_total_set (d : dict) (k : value) (n : Z) :
  dict_total (dict_set d k (VInt n))
  = dict_total d
    - match dict_get d k with Some (VInt m) => m | _ => 0 end + n.
Proof.
  induction d as [|[k0 v0] d IH]; simpl; [lia|].
  destruct (key_eqb k0 k); simpl.
  - destruct v0; lia.
  - rewrite IH. destruct v0; lia.
Qed.

Lemma dict_total_incr (d : dict) (k : value) :
  dict_total (dict_incr d k) = dict_total d + 1.
Proof.
  unfold dict_incr.
  destruct (dict_get d k) as [v|] eqn:E;
    [destruct v|]; rewrite dict_total_set, E; lia.
Qed.

Lemma dict_total_count (l : list value) :
  forall d : dict,
    dict_total (fold_left dict_incr l d)
    = dict_total d + Z.of_nat (List.length l).
Proof.
  induction l as [|k l IH]; intros d; simpl fold_left.
  - simpl. lia.
  - rewrite IH, dict_total_incr. simpl List.length. lia.
Qed.

Lemma dict_mem_keys (d : dict) (k : value) :
  dict_mem d k = existsb (fun k' => key_eqb k' k) (map fst d).
Proof.
  unfold dict_mem. induction d as [|[k0 v0] d IH]; simpl; [reflexivity|].
  destruct (key_eqb k0 k); [reflexivity | exact IH].
Qed.

Lemma dict_set_keys (d : dict) (k v : value) :
  dict_mem d k = true -> map fst (dict_set d k v) = map fst d.
Proof.
  unfold dict_mem. induction d as [|[k0 v0] d IH]; simpl; [discriminate|].
  destruct (key_eqb k0 k); simpl; [reflexivity|].
  intros H. rewrite (IH H). reflexivity.
Qed.

Lemma dict_incr_keys (d : dict) (k : value) :
  dict_mem d k = true -> map fst (dict_incr d k) = map fst d.
Proof.
  intros H. unfold dict_incr.
  destruct (dict_get d k) as [v|]; [destruct v|]; apply dict_set_keys, H.
Qed.

Lemma age_bucket_known (age : Z) :
  dict_mem empty_age_distribution (VStr (age_bucket age)) = true.
Proof.
  unfold age_bucket.
  destruct (age <? 1); [reflexivity|].
  destruct (age <? 7); [reflexivity|].
  destruct (age <? 30); reflexivity.
Qed.

Lemma age_keys_fixed (l : list value) :
  Forall (fun k => exists age, k = VStr (age_bucket age)) l ->
  forall d : dict,
    map fst d = map fst empty_age_distribution ->
    map fst (fold_left dict_incr l d) = map fst empty_age_distribution.
Proof.
  induction 1 as [|k l [age ->] _ IH]; intros d Hd; simpl fold_left;
    [exact Hd|].
  apply IH. rewrite dict_incr_keys; [exact Hd|].
  rewrite dict_mem_keys, Hd, <- dict_mem_keys. apply age_bucket_known.
Qed.

(** ** The ranking *)

Lemma insert_desc_perm (x : Q * value) (l : list (Q * value)) :
  Permutation (insert_desc x l) (x :: l).
Proof.
  induction l as [|y l IH]; simpl; [reflexivity|].
  destruct (Qle_bool (fst x) (fst y)); [|reflexivity].
  rewrite IH. apply perm_swap.
Qed.

Lemma sort_desc_perm (l : list (Q * value)) : Permutation (sort_desc l) l.
Proof.
  unfold sort_desc.
  assert (H : forall acc,
             Permutation (fold_left (fun sorted x => insert_desc x sorted) l acc)
                         (acc ++ l)).
  { induction l as [|x l IH]; intros acc; simpl.
    - rewrite app_nil_r. reflexivity.
    - rewrite IH, insert_desc_perm. apply Permutation_middle. }
  exact (H []).
Qed.

Lemma insert_desc_sorted (x : Q * value) (l : list (Q * value)) :
  StronglySorted (fun a b => (fst b <= fst a)%Q) l ->
  StronglySorted (fun a b => (fst b <= fst a)%Q) (insert_desc x l).
Proof.
  induction 1 as [|y l Hs IH Hy]; simpl.
  - constructor; constructor.
  - destruct (Qle_bool (fst x) (fst y)) eqn:E.
    + constructor; [exact IH|].
      apply (Permutation_Forall (Permutation_sym (insert_desc_perm x l))).
      constructor; [apply Qle_bool_iff; exact E | exact Hy].
    + assert (Hlt : (fst y <= fst x)%Q).
      { apply Qlt_le_weak, Qnot_le_lt. intros Hle.
        apply Qle_bool_iff in Hle. rewrite Hle in E. discriminate. }
      constructor; [constructor; assumption|].
      constructor; [exact Hlt|].
      eapply Forall_impl; [|exact Hy]. simpl. intros z Hz.
      eapply Qle_trans; eassumption.
Qed.

Lemma sort_desc_sorted (l : list (Q * value)) :
  StronglySorted (fun a b => (fst b <= fst a)%Q) (sort_desc l).
Proof.
  unfold sort_desc.
  assert (H : forall acc,
             StronglySorted (fun a b => (fst b <= fst a)%Q) acc ->
             StronglySorted (fun a b => (fst b <= fst a)%Q)
               (fold_left (fun sorted x => insert_desc x sorted) l acc)).
  { induction l as [|x l IH]; intros acc Hacc; simpl; [exact Hacc|].
    apply IH, insert_desc_sorted, Hacc. }
  apply H. constructor.
Qed.

Lemma with_count_none (q : Q) (l : list (Q * value)) :
  Forall (fun p => (fst p < q)%Q) l -> with_count q l = [].
Proof.
  unfold with_count. induction 1 as [|y l Hy _ IH]; [reflexivity|].
  cbn [filter]. rewrite IH.
  destruct (Qeq_bool (fst y) q) eqn:E; [|reflexivity].
  apply Qeq_bool_eq in E. rewrite E in Hy. apply Qlt_irrefl in Hy.
  contradiction.
Qed.

Lemma with_count_app (q : Q) (l1 l2 : list (Q * value)) :
  with_count q (l1 ++ l2) = with_count q l1 ++ with_count q l2.
Proof. apply filter_app. Qed.

(** The sort is stable: an entry goes in behind the entries of its own
    count. *)
Lemma insert_desc_stable (q : Q) (x : Q * value) (l : list (Q * value)) :
  StronglySorted (fun a b => (fst b <= fst a)%Q) l ->
  with_count q (insert_desc x l) = with_count q l ++ with_count q [x].
Proof.
  induction 1 as [|y l Hs IH Hy]; [reflexivity|].
  cbn [insert_desc]. destruct (Qle_bool (fst x) (fst y)) eqn:E.
  - unfold with_count in *. cbn [filter]. rewrite IH.
    destruct (Qeq_bool (fst y) q); reflexivity.
  - assert (Hlt : (fst y < fst x)%Q).
    { apply Qnot_le_lt. intros Hle.
      apply Qle_bool_iff in Hle. rewrite Hle in E. discriminate. }
    change (x :: y :: l) with ([x] ++ y :: l). rewrite with_count_app.
    unfold with_count at 1 4. cbn [filter].
    destruct (Qeq_bool (fst x) q) eqn:Ex; [|rewrite app_nil_r; reflexivity].
    apply Qeq_bool_eq in Ex. rewrite with_count_none; [reflexivity|].
    constructor; [rewrite <- Ex; exact Hlt|].
    eapply Forall_impl; [|exact Hy]. cbn beta. intros z Hz. rewrite <- Ex.
    eapply Qle_lt_trans; eassumption.
Qed.

Lemma sort_desc_stable (q : Q) (l : list (Q * value)) :
  with_count q (sort_desc l) = with_count q l.
Proof.
  unfold sort_desc.
  assert (H : forall acc,
             StronglySorted (fun a b => (fst b <= fst a)%Q) acc ->
             with_count q (fold_left (fun sorted x => insert_desc x sorted) l acc)
             = with_count q acc ++ with_count q l).
  { induction l as [|x l IH]; intros acc Hacc; cbn [fold_left].
    - rewrite app_nil_r. reflexivity.
    - rewrite IH by (apply insert_desc_sorted, Hacc).
      rewrite insert_desc_stable by exact Hacc.
      change (x :: l) with ([x] ++ l).
      rewrite with_count_app, app_assoc. reflexivity. }
  apply (H []). constructor.
Qed.

(** What is left after the first [n] of a ranking is at most what is in. *)
Lemma firstn_outranks (n : nat) (l : list (Q * value)) :
  StronglySorted (fun a b => (fst b <= fst a)%Q) l ->
  forall p r, In p (firstn n l) -> In r (skipn n l) -> (fst r <= fst p)%Q.
Proof.
  intros H. revert n. induction H as [|x l Hs IH Hx]; intros n p r Hp Hr.
  - rewrite firstn_nil in Hp. contradiction.
  - destruct n as [|n]; [contradiction|]. cbn [firstn skipn] in Hp, Hr.
    destruct Hp as [<- | Hp].
    + rewrite Forall_forall in Hx. apply Hx.
      rewrite <- (firstn_skipn n l). apply in_or_app. right. exact Hr.
    + eapply IH; eassumption.
Qed.

Section StatisticsProperties.

Context {St : Type}.
Variable builtins : Builtins.
Variable now_us : Z.

Lemma stats_step_access (acc acc' : stats_acc) (m : value) (w w' : world St) :
  stats_step builtins now_us acc m w = (Ok acc', w') ->
  access_counts acc'
  = access_counts acc ++ map access_entry (filter is_accessed [m])
  /\ (is_accessed m = true ->
      accessed (fst (access_entry m)) (snd (access_entry m))).
Proof.
  intros H. unfold stats_step in H. inv_run H.
  all: assert (Ha : a6 = access_counts acc
                         ++ map access_entry (filter is_accessed [m])
                    /\ (is_accessed m = true ->
                        accessed (fst (access_entry m))
                          (snd (access_entry m)))).
  1,3: match goal with
       | Hg : py_get _ "access_count" _ = Ok ?v |- _ =>
           assert (Hc : access_count_of m = v)
             by (unfold access_count_of; rewrite Hg; reflexivity)
       end;
       match goal with
       | Hg : py_gt0 _ = Ok ?b |- _ =>
           assert (Hi : is_accessed m = b)
             by (unfold is_accessed; rewrite Hc, Hg; reflexivity);
           unfold py_gt0 in Hg
       end;
       cbn [filter]; rewrite Hi;
       destruct a5; [inv_run Hrun6|];
       apply ret_inv_ok in Hrun6; destruct Hrun6 as [-> _];
       cbn [map]; unfold access_entry, field; rewrite Hc;
       repeat match goal with
              | Hg : py_get _ _ _ = Ok _ |- _ => rewrite Hg
              | Hg : py_slice100 _ = Ok _ |- _ => rewrite Hg
              end;
       cbn [fst snd];
       [ split; [reflexivity|]; intros _;
         destruct (num_of a4) as [q|] eqn:Hq; [|discriminate];
         eexists _, _, _; split; [reflexivity|]; split; [exact Hq|];
         apply Qnot_le_lt; intros Hle; apply Qle_bool_iff in Hle;
         rewrite Hle in *; discriminate
       | split; [rewrite app_nil_r; reflexivity | discriminate] ].
  - destruct (datetime_sub_days _ _); [|discriminate H].
    apply ret_inv_ok in H. destruct H as [-> _]. exact Ha.
  - apply ret_inv_ok in H. destruct H as [-> _]. exact Ha.
Qed.

Lemma stats_loop_access (ms : list value) :
  forall (acc0 acc : stats_acc) (w w' : world St),
  for_each ms acc0 (stats_step builtins now_us) w = (Ok acc, w') ->
  access_counts acc
  = access_counts acc0 ++ map access_entry (filter is_accessed ms)
  /\ Forall (fun p => accessed (fst p) (snd p))
       (map access_entry (filter is_accessed ms)).
Proof.
  induction ms as [|m ms IH]; intros acc0 acc w w' H; cbn [for_each] in H.
  - apply ret_inv_ok in H. destruct H as [-> _].
    cbn [filter map]. rewrite app_nil_r. split; [reflexivity | constructor].
  - apply bind_inv_ok in H. destruct H as (acc1 & w1 & Hstep & Hrest).
    apply IH in Hrest. destruct Hrest as [He Hall].
    apply stats_step_access in Hstep. destruct Hstep as [Hadd Hacc].
    rewrite He, Hadd, <- app_assoc. cbn [filter].
    destruct (is_accessed m); cbn [map app]; split;
      [reflexivity | constructor; [apply Hacc; reflexivity | exact Hall]
      | reflexivity | exact Hall].
Qed.

(** X14. [top_accessed] ranks the records that have been read, those whose
    ["access_count"] is a number above zero, by that count.  There is a
    ranking of exactly these records' entries, one entry a record, that
    never rises in count and keeps the records' order among entries of one
    count; [top_accessed] is its first ten entries, so that no entry left
    out has a higher count than one that is in.  Every entry carries its
    record's identifier, the start of its text and its count. *)
Theorem top_accessed_ranked (ms : list value) (snapshot : value)
    (w w' : world St) :
  _calculate_stats_from_memories builtins now_us ms w = (Ok snapshot, w') ->
  exists ranked : list (Q * value),
    field snapshot "top_accessed" = VList (map snd (firstn 10 ranked))
    /\ Permutation ranked (map access_entry (filter is_accessed ms))
    /\ StronglySorted (fun a b => (fst b <= fst a)%Q) ranked
    /\ (forall q : Q,
          with_count q ranked
          = with_count q (map access_entry (filter is_accessed ms)))
    /\ (forall p r,
          In p (firstn 10 ranked) -> In r (skipn 10 ranked) ->
          (fst r <= fst p)%Q)
    /\ Forall (fun p => accessed (fst p) (snd p)) ranked.
Proof.
  unfold _calculate_stats_from_memories.
  destruct (Z.of_nat (List.length ms) =? 0) eqn:E.
  - intros H. apply ret_inv_ok in H. destruct H as [-> _].
    apply Z.eqb_eq in E. destruct ms; [|discriminate E].
    exists []. split; [reflexivity|].
    repeat split; try constructor. intros p r [].
  - intros H. apply bind_inv_ok in H. destruct H as (acc & w1 & Hloop & H).
    apply ret_inv_ok in H. destruct H as [-> _].
    apply stats_loop_access in Hloop. destruct Hloop as [He Hall].
    cbn [access_counts stats_init app] in He. rewrite He in *.
    set (entries := map access_entry (filter is_accessed ms)) in *.
    exists (sort_desc entries).
    split; [rewrite firstn_map; reflexivity|].
    split; [apply sort_desc_perm|].
    split; [apply sort_desc_sorted|].
    split; [intros q; apply sort_desc_stable|].
    split; [apply firstn_outranks, sort_desc_sorted|].
    apply (Permutation_Forall (Permutation_sym (sort_desc_perm entries))).
    exact Hall.
Qed.

(** X15. The counters of a recomputed snapshot add up: the counts of
    [by_type] sum to [total_memories], the number of records; the counts of
    [growth_trend] and those of [age_distribution] each sum to the number
    of records that have a [created_at]; and [age_distribution] has its
    four buckets, in their fixed order, whatever the records are. *)
Theorem snapshot_counts_add_up (ms : list value) (snapshot : value)
    (w w' : world St) :
  _calculate_stats_from_memories builtins now_us ms w = (Ok snapshot, w') ->
  exists by_type growth_trend age_distribution : dict,
    field snapshot "total_memories" = VInt (Z.of_nat (List.length ms))
    /\ field snapshot "by_type" = VDict by_type
    /\ field snapshot "growth_trend" = VDict growth_trend
    /\ field snapshot "age_distribution" = VDict age_distribution
    /\ dict_total by_type = Z.of_nat (List.length ms)
    /\ dict_total growth_trend = count_of has_created_at ms
    /\ dict_total age_distribution = count_of has_created_at ms
    /\ map fst age_distribution
       = [VStr "< 1 day"; VStr "1-7 days"; VStr "7-30 days"; VStr "> 30 days"].
Proof.
  intros H. apply calculate_stats_inv in H.
  destruct H as (_ & Haw & top & ->).
  eexists _, _, _. unfold recomputed_snapshot.
  split; [reflexivity|]. split; [reflexivity|]. split; [reflexivity|].
  split; [reflexivity|].
  rewrite !dict_total_count, !length_map. unfold count_of.
  split; [simpl; lia|]. split; [simpl; lia|]. split; [simpl; lia|].
  apply (age_keys_fixed _) with (d := empty_age_distribution);
    [|reflexivity].
  rewrite Forall_forall in *. intros k Hk. apply in_map_iff in Hk.
  destruct Hk as (m & <- & Hin). apply filter_In in Hin.
  destruct Hin as [Hin Hc]. specialize (Haw m Hin Hc).
  unfold age_bucket_of, datetime_sub_days. simpl utcoffset.
  destruct (utcoffset (_parse_datetime builtins (field m "created_at")));
    [|contradiction Haw; reflexivity].
  eexists. reflexivity.
Qed.

Lemma filter_by_cutoff_comparable (cutoff : datetime) (ms : list value) :
  forall (kept0 kept : list value) (w w' : world St),
  for_each ms kept0
    (fun kept m =>
       created_at <- lift (py_get m "created_at" VNone) ;;
       match datetime_ge (_parse_datetime builtins created_at) cutoff with
       | Some true => ret (kept ++ [m])
       | Some false => ret kept
       | None =>
           raise (PyExc TypeError
                    "can't compare offset-naive and offset-aware datetimes")
       end)%monad w = (Ok kept, w') ->
  Forall (fun m => comparable builtins cutoff m = true) ms.
Proof.
  induction ms as [|m ms IH]; intros kept0 kept w w' H; simpl in H;
    [constructor|].
  apply bind_inv_ok in H. destruct H as (k1 & w1 & Hstep & Hrest).
  constructor; [|exact (IH _ _ _ _ Hrest)].
  apply bind_inv_ok in Hstep. destruct Hstep as (c & w2 & Hc & Hstep).
  apply lift_inv_ok in Hc. destruct Hc as [Hc ->].
  unfold comparable, field. rewrite Hc.
  destruct (datetime_ge _ _) as [b|]; [reflexivity | discriminate Hstep].
Qed.

Lemma filter_by_cutoff_mismatch (cutoff : datetime) (ms : list value) :
  Forall (fun m => is_dict m = true) ms ->
  Exists (fun m => comparable builtins cutoff m = false) ms ->
  forall (kept0 : list value) (w : world St),
  for_each ms kept0
    (fun kept m =>
       created_at <- lift (py_get m "created_at" VNone) ;;
       match datetime_ge (_parse_datetime builtins created_at) cutoff with
       | Some true => ret (kept ++ [m])
       | Some false => ret kept
       | None =>
           raise (PyExc TypeError
                    "can't compare offset-naive and offset-aware datetimes")
       end)%monad w
  = (Raise (PyExc TypeError
              "can't compare offset-naive and offset-aware datetimes"), w).
Proof.
  induction 1 as [|m ms Hm _ IH]; intros Hex kept0 w.
  - inversion Hex.
  - destruct m as [| | | | | |d]; try discriminate Hm. simpl for_each.
    assert (Hstep :
              (created_at <- lift (py_get (VDict d) "created_at" VNone) ;;
               match datetime_ge (_parse_datetime builtins created_at) cutoff
               with
               | Some true => ret (kept0 ++ [VDict d])
               | Some false => ret kept0
               | None =>
                   raise (PyExc TypeError
                            "can't compare offset-naive and offset-aware datetimes")
               end)%monad w
              = match datetime_ge
                        (_parse_datetime builtins
                           (field (VDict d) "created_at")) cutoff with
                | Some true => (Ok (kept0 ++ [VDict d]), w)
                | Some false => (Ok kept0, w)
                | None =>
                    (Raise (PyExc TypeError
                              "can't compare offset-naive and offset-aware datetimes"),
                     w)
                end).
    { unfold bind, lift, field. cbn [py_get].
      destruct (datetime_ge _ cutoff) as [[|]|]; reflexivity. }
    assert (Htail : comparable builtins cutoff (VDict d) = true ->
                    Exists (fun m => comparable builtins cutoff m = false) ms).
    { intros Hc. inversion Hex as [? ? Hc' | ? ? Ht]; subst; [|exact Ht].
      rewrite Hc in Hc'. discriminate Hc'. }
    unfold comparable in Htail.
    destruct (datetime_ge
                (_parse_datetime builtins (field (VDict d) "created_at"))
                cutoff) as [[|]|].
    + rewrite (bind_ok _ _ _ _ _ Hstep). apply IH, Htail. reflexivity.
    + rewrite (bind_ok _ _ _ _ _ Hstep). apply IH, Htail. reflexivity.
    + rewrite (bind_raise _ _ _ _ _ Hstep). reflexivity.
Qed.

End StatisticsProperties.

Section CutoffProperties.

Context {St : Type}.
Variable memory : St -> call -> store_result * St.
Variable builtins : Builtins.
Variable now_us : Z.

(** X16. [get_statistics] with a cutoff compares every record's date with
    the cutoff, a record without a date that parses standing at the naive
    [datetime.min], and takes the age of every dated record it keeps
    against a clock in UTC.  So it returns only when every record of the
    store can be compared with the cutoff, both with a timezone or both
    without, and keeps a dated record only under a cutoff that has a
    timezone; and when the records are dicts and one of them cannot be
    compared, a record without date under a cutoff with a timezone for
    one, it raises the [TypeError] of the comparison after its two calls
    to the store. *)
Theorem get_statistics_cutoff_needs_comparable_dates
    (user_id agent_id : value) (cutoff : datetime) (w : world St)
    (stats result : value) (all_memories : list value) (s1 s2 : St) :
  let c1 := GetStatistics user_id agent_id in
  let c2 := GetAll user_id agent_id (VInt 10000) None None None in
  memory (store w) c1 = (inl stats, s1) ->
  memory s1 c2 = (inl result, s2) ->
  py_get result "results" (VList []) = Ok (VList all_memories) ->
  (forall snapshot w',
      get_statistics memory builtins now_us user_id agent_id (Some cutoff) w
      = (Ok snapshot, w') ->
      Forall (fun m => comparable builtins cutoff m = true) all_memories
      /\ forall m,
           In m all_memories -> on_or_after builtins cutoff m = true ->
           has_created_at m = true ->
           utcoffset cutoff <> None)
  /\ (Forall (fun m => is_dict m = true) all_memories ->
      Exists (fun m => comparable builtins cutoff m = false) all_memories ->
      get_statistics memory builtins now_us user_id agent_id (Some cutoff) w
      = (Raise (PyExc TypeError
                  "can't compare offset-naive and offset-aware datetimes"),
         after_call (after_call w c1 s1) c2 s2))
  /\ (forall m,
        utcoffset cutoff <> None ->
        _parse_datetime builtins (field m "created_at") = datetime_min ->
        comparable builtins cutoff m = false).
Proof.
  intros c1 c2 Hstats Hall Hres.
  assert (Hrun : get_statistics memory builtins now_us user_id agent_id
                   (Some cutoff) w
                 = (filtered_memories <- filter_by_cutoff builtins all_memories
                                           cutoff ;;
                    _calculate_stats_from_memories builtins now_us
                      filtered_memories)
                     (after_call (after_call w c1 s1) c2 s2)).
  { unfold get_statistics.
    rewrite (bind_ok _ _ _ _ _ (invoke_ok memory _ _ _ _ Hstats)).
    rewrite (bind_ok _ _ _ _ _
               (invoke_ok memory _ (after_call w c1 s1) _ _ Hall)).
    unfold bind at 1. unfold lift at 1. rewrite Hres.
    unfold bind at 1. unfold lift at 1. reflexivity. }
  rewrite Hrun. split; [|split].
  - intros snapshot w' H.
    apply bind_inv_ok in H. destruct H as (kept & w1 & Hf & H).
    pose proof (filter_by_cutoff_comparable builtins cutoff all_memories
                  _ _ _ _ Hf) as Hcmp.
    split; [exact Hcmp|].
    apply filter_by_cutoff_run in Hf. destruct Hf as [-> ->].
    apply calculate_stats_inv in H. destruct H as (_ & Haw & _).
    intros m Hin Hon Hdated Hnaive.
    rewrite Forall_forall in Haw, Hcmp.
    assert (Hk : In m (filter (on_or_after builtins cutoff) all_memories)).
    { apply filter_In. split; assumption. }
    specialize (Haw m Hk Hdated). specialize (Hcmp m Hin).
    unfold comparable, datetime_ge in Hcmp. rewrite Hnaive in Hcmp.
    destruct (utcoffset (_parse_datetime builtins (field m "created_at")));
      [discriminate Hcmp | contradiction Haw; reflexivity].
  - intros Hd Hex. unfold filter_by_cutoff.
    rewrite (bind_raise _ _ _ _ _
               (filter_by_cutoff_mismatch builtins cutoff all_memories Hd Hex
                  [] _)).
    reflexivity.
  - intros m Haware Hmin. unfold comparable, datetime_ge. rewrite Hmin.
    simpl. destruct (utcoffset cutoff); [reflexivity | contradiction Haware;
    reflexivity].
Qed.

End CutoffProperties.

(** * Quality analysis: the records looked at, and the counters *)

Lemma fold_set_add_grows (ks s : list value) :
  (List.length s <= List.length (fold_left set_add ks s))%nat.
Proof.
  revert s. induction ks as [|k ks IH]; intros s; simpl; [lia|].
  specialize (IH (set_add s k)).
  assert (List.length s <= List.length (set_add s k))%nat; [|lia].
  unfold set_add. destruct (existsb _ s); [lia|].
  rewrite length_app. simpl. lia.
Qed.

Lemma fold_set_add_empty (ks : list value) :
  List.length (fold_left set_add ks []) = 0%nat <-> ks = [].
Proof.
  split; [|intros ->; reflexivity].
  destruct ks as [|k ks]; [reflexivity|]. simpl. intros H.
  pose proof (fold_set_add_grows ks (set_add [] k)) as Hg.
  change (set_add [] k) with [k] in *. simpl List.length in Hg at 1. lia.
Qed.

Lemma count_of_range (p : value -> bool) (records : list value) :
  0 <= count_of p records <= Z.of_nat (List.length records).
Proof.
  unfold count_of. pose proof (filter_length_le p records). lia.
Qed.

Section QualityProperties.

Context {St : Type}.
Variable memory : St -> call -> store_result * St.
Variable builtins : Builtins.

Lemma defective_count_le (records : list value) :
  count_of (defective builtins) records
  <= count_of has_missing_metadata records
     + count_of (has_empty_content builtins) records
     + count_of (has_low_importance builtins) records.
Proof.
  induction records as [|m ms IH].
  - unfold count_of. simpl. lia.
  - rewrite !count_of_cons. unfold defective at 1.
    destruct (has_missing_metadata m), (has_empty_content builtins m),
      (has_low_importance builtins m); simpl Z.b2z; lia.
Qed.

Lemma defective_count_zero (records : list value) :
  count_of (defective builtins) records = 0
  <-> count_of has_missing_metadata records
      + count_of (has_empty_content builtins) records
      + count_of (has_low_importance builtins) records = 0.
Proof.
  induction records as [|m ms IH].
  - unfold count_of. simpl. lia.
  - rewrite !count_of_cons. unfold defective at 1.
    pose proof (count_of_range (defective builtins) ms).
    pose proof (count_of_range has_missing_metadata ms).
    pose proof (count_of_range (has_empty_content builtins) ms).
    pose proof (count_of_range (has_low_importance builtins) ms).
    destruct (has_missing_metadata m), (has_empty_content builtins m),
      (has_low_importance builtins m); simpl Z.b2z; lia.
Qed.

Lemma quality_report_pure (memories_list : value) :
  pure (@quality_report St builtins memories_list).
Proof.
  unfold quality_report. pure_tac.
  apply pure_for_each. intros acc m. apply quality_step_pure.
Qed.

(** X17. Which records [analyze_memory_quality] reports on.  It asks the
    store once, for the first 10000 records of the user and agent; with a
    cutoff the report is the one over the records of that answer dated on
    or after the cutoff, without a cutoff over all of them; and an answer
    without records gives the report of zeros. *)
Theorem analyze_memory_quality_scope
    (user_id agent_id : value) (cutoff_date : option datetime)
    (w : world St) (result : value) (entries : list value) (s1 : St) :
  let c := GetAll user_id agent_id (VInt 10000) (Some (VInt 0)) None None in
  memory (store w) c = (inl result, s1) ->
  py_get result "results" (VList []) = Ok (VList entries) ->
  (forall report w',
      analyze_memory_quality memory builtins user_id agent_id cutoff_date w
      = (Ok report, w') ->
      w' = after_call w c s1
      /\ report
         = quality_report_of builtins
             match cutoff_date with
             | Some cutoff => filter (on_or_after builtins cutoff) entries
             | None => entries
             end)
  /\ (entries = [] ->
      analyze_memory_quality memory builtins user_id agent_id cutoff_date w
      = (Ok (VDict [ (VStr "total_memories", VInt 0);
                     (VStr "low_quality_count", VInt 0);
                     (VStr "low_quality_ratio", VFloat 0%Q);
                     (VStr "quality_criteria", VDict []) ]),
         after_call w c s1)).
Proof.
  intros c Hall Hres. split.
  - intros report w' H. unfold analyze_memory_quality in H.
    apply try_except_inv_ok in H.
    destruct H as [H | (e & w1 & _ & H)]; [|discriminate H].
    apply bind_inv_ok in H. destruct H as (ml & w1 & Hrec & H).
    pose proof (pure_run _ _ _ _ (quality_report_pure ml) H) as ->.
    apply quality_report_inv in H. destruct H as (records & Hiter & ->).
    unfold quality_records in Hrec.
    rewrite (bind_ok _ _ _ _ _ (invoke_ok memory _ _ _ _ Hall)) in Hrec.
    unfold bind at 1 in Hrec. unfold lift at 1 in Hrec. rewrite Hres in Hrec.
    destruct cutoff_date as [cutoff|].
    + unfold bind at 1 in Hrec. unfold lift at 1 in Hrec.
      cbn [py_iter] in Hrec.
      apply bind_inv_ok in Hrec. destruct Hrec as (kept & w2 & Hf & Hrec).
      apply filter_by_cutoff_run in Hf. destruct Hf as [-> ->].
      apply ret_inv_ok in Hrec. destruct Hrec as [-> ->].
      cbn [py_iter] in Hiter. injection Hiter as <-.
      split; reflexivity.
    + apply ret_inv_ok in Hrec. destruct Hrec as [-> ->].
      cbn [py_iter] in Hiter. injection Hiter as <-.
      split; reflexivity.
  - intros ->. unfold c in *.
    unfold analyze_memory_quality, try_except, quality_records, bind, invoke,
      lift.
    rewrite Hall, Hres. destruct cutoff_date as [cutoff|]; reflexivity.
Qed.

(** X18. The counters of a quality report hang together.  Over no records
    the report has no criteria at all and ratio 0.  Otherwise each of the
    three counters lies between 0 and [total_memories];
    [low_quality_count] is at most their sum; and it is 0 exactly when all
    three are. *)
Theorem quality_counters_consistent
    (user_id agent_id : value) (cutoff_date : option datetime)
    (report : value) (w w' : world St) :
  analyze_memory_quality memory builtins user_id agent_id cutoff_date w
  = (Ok report, w') ->
  exists total low_quality_count : Z,
    field report "total_memories" = VInt total
    /\ field report "low_quality_count" = VInt low_quality_count
    /\ 0 <= total /\ 0 <= low_quality_count
    /\ (total = 0 ->
        low_quality_count = 0
        /\ field report "quality_criteria" = VDict []
        /\ field report "low_quality_ratio" = VFloat 0%Q)
    /\ (0 < total ->
        exists missing empty low : Z,
          field report "quality_criteria"
          = VDict [ (VStr "missing_metadata", VInt missing);
                    (VStr "empty_content", VInt empty);
                    (VStr "low_importance", VInt low) ]
          /\ 0 <= missing <= total /\ 0 <= empty <= total
          /\ 0 <= low <= total
          /\ low_quality_count <= missing + empty + low
          /\ (low_quality_count = 0 <-> missing + empty + low = 0)).
Proof.
  intros H. apply analyze_memory_quality_inv in H.
  destruct H as (ml & records & w1 & _ & _ & ->).
  exists (Z.of_nat (List.length records)),
         (Z.of_nat (low_quality_count_of builtins records)).
  split; [reflexivity|]. split; [reflexivity|].
  split; [lia|]. split; [lia|]. split.
  - intros Hz. destruct records as [|r rs]; [|simpl in Hz; lia].
    repeat split.
  - intros Hpos. destruct records as [|r rs]; [simpl in Hpos; lia|].
    remember (r :: rs) as l eqn:El.
    exists (count_of has_missing_metadata l),
           (count_of (has_empty_content builtins) l),
           (count_of (has_low_importance builtins) l).
    split; [subst l; reflexivity|].
    split; [apply count_of_range|]. split; [apply count_of_range|].
    split; [apply count_of_range|].
    pose proof (low_quality_count_le builtins l) as [Hle _].
    pose proof (defective_count_le l) as Hsum.
    pose proof (defective_count_zero l) as Hzero.
    unfold count_of in Hsum at 1. unfold count_of in Hzero at 1.
    split; [lia|]. split.
    + intros Hlq. apply Hzero.
      assert (Hn : low_quality_count_of builtins l = 0%nat) by lia.
      unfold low_quality_count_of in Hn. apply fold_set_add_empty in Hn.
      apply map_eq_nil in Hn. rewrite Hn. reflexivity.
    + intros Hs. apply Hzero in Hs. lia.
Qed.

(** X19. [analyze_memory_quality] with a cutoff compares every record's
    date with the cutoff, a record without a date that parses standing at
    the naive [datetime.min].  So it returns a report only when every
    record of the store's answer can be compared with the cutoff; and when
    the records are dicts and one of them cannot, a record without date
    under a cutoff with a timezone for one, it fails with the internal
    error that carries the [TypeError] of the comparison. *)
Theorem analyze_memory_quality_cutoff_needs_comparable_dates
    (user_id agent_id : value) (cutoff : datetime) (w : world St)
    (result : value) (entries : list value) (s1 : St) :
  let c := GetAll user_id agent_id (VInt 10000) (Some (VInt 0)) None None in
  memory (store w) c = (inl result, s1) ->
  py_get result "results" (VList []) = Ok (VList entries) ->
  (forall report w',
      analyze_memory_quality memory builtins user_id agent_id (Some cutoff) w
      = (Ok report, w') ->
      Forall (fun m => comparable builtins cutoff m = true) entries)
  /\ (Forall (fun m => is_dict m = true) entries ->
      Exists (fun m => comparable builtins cutoff m = false) entries ->
      analyze_memory_quality memory builtins user_id agent_id (Some cutoff) w
      = (Raise (APIError INTERNAL_ERROR
                  "Failed to analyze memory quality: can't compare offset-naive and offset-aware datetimes"
                  500),
         after_call w c s1)).
Proof.
  intros c Hall Hres.
  assert (Hrec : quality_records memory builtins user_id agent_id
                   (Some cutoff) w
                 = (kept <- filter_by_cutoff builtins entries cutoff ;;
                    ret (VList kept)) (after_call w c s1)).
  { unfold quality_records.
    rewrite (bind_ok _ _ _ _ _ (invoke_ok memory _ _ _ _ Hall)).
    unfold bind at 1. unfold lift at 1. rewrite Hres.
    unfold bind at 1. unfold lift at 1. reflexivity. }
  split.
  - intros report w' H. unfold analyze_memory_quality in H.
    apply try_except_inv_ok in H.
    destruct H as [H | (e & w1 & _ & H)]; [|discriminate H].
    apply bind_inv_ok in H. destruct H as (ml & w1 & Hq & _).
    rewrite Hrec in Hq.
    apply bind_inv_ok in Hq. destruct Hq as (kept & w2 & Hf & _).
    exact (filter_by_cutoff_comparable builtins cutoff entries _ _ _ _ Hf).
  - intros Hd Hex. unfold analyze_memory_quality, try_except.
    assert (Hq : quality_records memory builtins user_id agent_id
                   (Some cutoff) w
                 = (Raise (PyExc TypeError
                             "can't compare offset-naive and offset-aware datetimes"),
                    after_call w c s1)).
    { rewrite Hrec. unfold filter_by_cutoff.
      rewrite (bind_raise _ _ _ _ _
                 (filter_by_cutoff_mismatch builtins cutoff entries Hd Hex
                    [] _)).
      reflexivity. }
    rewrite (bind_raise _ _ _ _ _ Hq). reflexivity.
Qed.

End QualityProperties.

(** * Import of memories *)

Section ImportProperties.

Variable json_loads : string -> outcome value.
Variable csv_rows : string -> list dict * option exn.

Lemma import_loop_dicts (items : list value) :
  forall result : list value,
    fold_left
      (fun result memory =>
         match memory with
         | VDict d => result ++ [cleaned d]
         | _ => result
         end)
      items result
    = result ++ map cleaned_entry (filter is_dict items).
Proof.
  induction items as [|x items IH]; intros result; simpl.
  - rewrite app_nil_r. reflexivity.
  - destruct x; simpl; rewrite IH; try reflexivity.
    rewrite <- app_assoc. reflexivity.
Qed.

Lemma filter_is_dict_strings (l : list value) :
  Forall (fun k => exists s, k = VStr s) l -> filter is_dict l = [].
Proof.
  induction 1 as [|k l [s ->] _ IH]; simpl; [reflexivity | exact IH].
Qed.

Lemma filter_is_dict_chars (s : string) : filter is_dict (str_chars s) = [].
Proof. induction s as [|c s IH]; simpl; [reflexivity | exact IH]. Qed.

(** X20. What [import_from_json] does with the parsed text.  Of a list it
    keeps the entries that are dicts, in order, each cut down to the six
    keys of a memory, and drops every other entry without failing.  A JSON
    object or a JSON string at top level is iterated as well, over its keys
    or its characters, none of which is a dict: the import succeeds and
    returns nothing.  Any other JSON value fails the import with a
    [TypeError], as does a text that does not parse with the parser's
    error. *)
Theorem import_from_json_keeps_dicts (json_str : string) :
  match json_loads json_str with
  | Ok (VList entries) =>
      import_from_json json_loads json_str
      = Ok (map cleaned_entry (filter is_dict entries))
      /\ Forall (fun m => exists r, m = VDict r /\ map fst r = memory_keys)
           (map cleaned_entry (filter is_dict entries))
  | Ok (VDict d) =>
      string_keys d -> import_from_json json_loads json_str = Ok []
  | Ok (VStr s) => import_from_json json_loads json_str = Ok []
  | Ok _ =>
      exists msg,
        import_from_json json_loads json_str = Raise (PyExc TypeError msg)
  | Raise e => import_from_json json_loads json_str = Raise e
  end.
Proof.
  unfold import_from_json.
  destruct (json_loads json_str) as [[| b | z | q | s | entries | d] | e];
    simpl; try (eexists; reflexivity); try reflexivity.
  - rewrite import_loop_dicts, filter_is_dict_chars. reflexivity.
  - rewrite import_loop_dicts. split; [reflexivity|].
    rewrite Forall_forall. intros m Hm. apply in_map_iff in Hm.
    destruct Hm as (x & <- & Hx). apply filter_In in Hx.
    destruct Hx as [_ Hd]. destruct x; try discriminate Hd.
    eexists. split; reflexivity.
  - intros Hk. rewrite import_loop_dicts, (filter_is_dict_strings _ Hk).
    reflexivity.
Qed.

Lemma cleaned_entries_fixed (items : list value) :
  map cleaned_entry (filter is_dict (map cleaned_entry (filter is_dict items)))
  = map cleaned_entry (filter is_dict items).
Proof.
  induction items as [|x items IH]; [reflexivity|].
  destruct x as [| | | | | |d]; try exact IH.
  change (cleaned_entry (cleaned d)
          :: map cleaned_entry
               (filter is_dict (map cleaned_entry (filter is_dict items)))
          = cleaned d :: map cleaned_entry (filter is_dict items)).
  rewrite IH. reflexivity.
Qed.

(** X21. Importing is idempotent: a text that parses to the list an import
    returned imports to that same list again, nothing added, dropped or
    changed. *)
Theorem import_from_json_idempotent (first again : string)
    (imported : list value) :
  import_from_json json_loads first = Ok imported ->
  json_loads again = Ok (VList imported) ->
  import_from_json json_loads again = Ok imported.
Proof.
  intros Hfirst Hagain.
  assert (Hshape : exists items,
             imported = map cleaned_entry (filter is_dict items)).
  { unfold import_from_json in Hfirst.
    destruct (json_loads first) as [memories | e]; [|discriminate Hfirst].
    destruct (py_iter memories) as [items | e]; [|discriminate Hfirst].
    injection Hfirst as <-. exists items. apply import_loop_dicts. }
  destruct Hshape as (items & ->).
  unfold import_from_json. rewrite Hagain. cbn [py_iter].
  rewrite import_loop_dicts. cbn [app]. rewrite cleaned_entries_fixed.
  reflexivity.
Qed.

Lemma import_rows_ok (rows : list dict) (reader_error : option exn) :
  forall memories ms : list value,
    import_rows json_loads rows reader_error memories = Ok ms ->
    reader_error = None
    /\ exists made,
         ms = memories ++ made
         /\ Forall2
              (fun row m =>
                 exists metadata,
                   json_loads_value json_loads (metadata_text row) = Ok metadata
                   /\ m = memory_of_row row metadata)
              rows made.
Proof.
  induction rows as [|row rows IH]; intros memories ms H; simpl in H.
  - destruct reader_error; [discriminate H|]. injection H as <-.
    split; [reflexivity|]. exists []. rewrite app_nil_r.
    split; [reflexivity | constructor].
  - destruct (json_loads_value json_loads (dict_get_or row "metadata" (VStr "{}")))
      as [metadata | e] eqn:E; [|discriminate H].
    apply IH in H. destruct H as (Herr & made & -> & Hall).
    split; [exact Herr|]. exists (memory_of_row row metadata :: made).
    rewrite <- app_assoc. split; [reflexivity|].
    constructor; [|exact Hall]. exists metadata. split; [exact E | reflexivity].
Qed.

Lemma import_rows_first_failure (before : list dict) (row : dict)
    (after : list dict) (reader_error : option exn) (e : exn) :
  Forall (fun r => exists metadata,
                     json_loads_value json_loads (metadata_text r) = Ok metadata)
    before ->
  json_loads_value json_loads (metadata_text row) = Raise e ->
  forall memories,
    import_rows json_loads (before ++ row :: after) reader_error memories
    = Raise e.
Proof.
  intros Hbefore Hrow.
  induction Hbefore as [|r before [metadata Hr] _ IH]; intros memories; simpl.
  - unfold metadata_text in Hrow. rewrite Hrow. reflexivity.
  - unfold metadata_text in Hr. rewrite Hr. apply IH.
Qed.

(** X22. [import_from_csv] returns the empty list for a text that is empty
    or all whitespace, without reading any row.  Otherwise it makes one
    memory of every row, in order, with the row's metadata parsed as JSON;
    it returns only when the reader ended without an error and every
    row's metadata parsed; and the first row whose metadata does not parse
    fails the whole import with the parser's error, the rows before it
    notwithstanding. *)
Theorem import_from_csv_all_or_nothing (csv_str : string) :
  (strip csv_str = "" -> import_from_csv json_loads csv_rows csv_str = Ok [])
  /\ (strip csv_str <> "" ->
      (forall ms,
          import_from_csv json_loads csv_rows csv_str = Ok ms ->
          snd (csv_rows csv_str) = None
          /\ Forall2
               (fun row m =>
                  exists metadata,
                    json_loads_value json_loads (metadata_text row)
                    = Ok metadata
                    /\ m = memory_of_row row metadata)
               (fst (csv_rows csv_str)) ms)
      /\ (forall before row after e,
            fst (csv_rows csv_str) = before ++ row :: after ->
            Forall (fun r => exists metadata,
                               json_loads_value json_loads (metadata_text r)
                               = Ok metadata) before ->
            json_loads_value json_loads (metadata_text row) = Raise e ->
            import_from_csv json_loads csv_rows csv_str = Raise e)).
Proof.
  unfold import_from_csv. split.
  - intros ->. reflexivity.
  - intros Hne.
    assert (Ht : negb (truthy (VStr (strip csv_str))) = false).
    { destruct (strip csv_str); [contradiction Hne; reflexivity | reflexivity]. }
    rewrite Ht. destruct (csv_rows csv_str) as [rows reader_error]. simpl.
    split.
    + intros ms H. apply import_rows_ok in H.
      destruct H as (Herr & made & -> & Hall). split; assumption.
    + intros before row after e -> Hbefore Hrow.
      apply import_rows_first_failure; assumption.
Qed.

End ImportProperties.

(** * Health checks and the system status *)

Lemma str_prefix_length (n : nat) (s : string) :
  (String.length (str_prefix n s) <= n)%nat.
Proof.
  revert s. induction n as [|n IH]; intros s; destruct s; simpl; try lia.
  specialize (IH s). lia.
Qed.

Lemma str_prefix_full (n : nat) (s : string) :
  (n <= String.length s)%nat -> String.length (str_prefix n s) = n.
Proof.
  revert s. induction n as [|n IH]; intros s; destruct s; simpl; try lia.
  intros H. rewrite IH; lia.
Qed.

Lemma string_length_append (a b : string) :
  String.length (a ++ b) = (String.length a + String.length b)%nat.
Proof. induction a as [|c a IH]; simpl; [reflexivity | rewrite IH; reflexivity]. Qed.

Lemma str_prefix_is_prefix (n : nat) (s : string) :
  exists rest, s = (str_prefix n s ++ rest)%string.
Proof.
  revert s. induction n as [|n IH]; intros s.
  - exists s. destruct s; reflexivity.
  - destruct s as [|c s]; [exists EmptyString; reflexivity|].
    destruct (IH s) as (rest & Hr). exists rest. simpl. rewrite <- Hr.
    reflexivity.
Qed.

Lemma truncated_length (error_msg : string) :
  (String.length (HealthCheck.truncated error_msg) <= 200)%nat.
Proof.
  unfold HealthCheck.truncated.
  destruct (200 <? String.length error_msg)%nat eqn:E.
  - rewrite string_length_append.
    pose proof (str_prefix_length 197 error_msg). simpl String.length at 2.
    lia.
  - apply Nat.ltb_ge in E. exact E.
Qed.

(** X23. The error message of a health check never exceeds 200 characters,
    whichever check it is and whatever went wrong.  A message of the
    exception that fits is passed on whole; a longer one is cut to its
    first 197 characters followed by three dots, 200 characters in all. *)
Theorem health_check_error_message_bounded (o : HealthCheck.observation) :
  (forall check m,
      In check [ HealthCheck.check_vector_store; HealthCheck.check_database;
                 HealthCheck.check_llm ] ->
      HealthCheck.error_message (check o) = Some m ->
      (String.length m <= 200)%nat)
  /\ (forall e,
        HealthCheck.auto_config o = Raise e ->
        let m := HealthCheck.truncated (exn_str e) in
        HealthCheck.error_message (HealthCheck.check_vector_store o) = Some m
        /\ HealthCheck.error_message (HealthCheck.check_database o) = Some m
        /\ HealthCheck.error_message (HealthCheck.check_llm o) = Some m
        /\ ((String.length (exn_str e) <= 200)%nat -> m = exn_str e)
        /\ ((200 < String.length (exn_str e))%nat ->
            String.length m = 200%nat
            /\ exists rest,
                 m = (str_prefix 197 (exn_str e) ++ "...")%string
                 /\ exn_str e = (str_prefix 197 (exn_str e) ++ rest)%string)).
Proof.
  split.
  - intros check m Hin Hm.
    assert (Hcases : m = "LLM provider not configured"
                     \/ exists e, m = HealthCheck.truncated (exn_str e)).
    { simpl in Hin.
      destruct Hin as [<- | [<- | [<- | []]]];
        unfold HealthCheck.check_vector_store, HealthCheck.check_database,
          HealthCheck.check_llm in Hm;
        destruct (HealthCheck.auto_config o) as [config | e];
        try (right; exists e; simpl in Hm; injection Hm as <-; reflexivity).
      - destruct (HealthCheck.memory_init o config) as [u | e];
          [discriminate Hm|].
        right. exists e. simpl in Hm. injection Hm as <-. reflexivity.
      - destruct (HealthCheck.memory_init o config) as [u | e];
          [discriminate Hm|].
        right. exists e. simpl in Hm. injection Hm as <-. reflexivity.
      - destruct (HealthCheck.llm_provider_of config) as [p | e].
        + destruct (negb (HealthCheck.obj_truthy p)); [|discriminate Hm].
          left. simpl in Hm. injection Hm as <-. reflexivity.
        + right. exists e. simpl in Hm. injection Hm as <-. reflexivity. }
    destruct Hcases as [-> | [e ->]].
    + simpl. lia.
    + apply truncated_length.
  - intros e He m.
    unfold HealthCheck.check_vector_store, HealthCheck.check_database,
      HealthCheck.check_llm.
    rewrite He. simpl HealthCheck.error_message.
    split; [reflexivity|]. split; [reflexivity|]. split; [reflexivity|].
    unfold m, HealthCheck.truncated. split.
    + intros Hle. apply Nat.ltb_ge in Hle. rewrite Hle. reflexivity.
    + intros Hgt. pose proof Hgt as Hlt. apply Nat.ltb_lt in Hlt. rewrite Hlt.
      split.
      * rewrite string_length_append, str_prefix_full; [reflexivity | lia].
      * destruct (str_prefix_is_prefix 197 (exn_str e)) as (rest & Hr).
        exists rest. split; [reflexivity | exact Hr].
Qed.

(** The two ways a check can end. *)
Lemma check_vector_store_cases (o : HealthCheck.observation) :
  (HealthCheck.status (HealthCheck.check_vector_store o) = "healthy"
   /\ HealthCheck.error_message (HealthCheck.check_vector_store o) = None
   /\ exists config u,
        HealthCheck.auto_config o = Ok config
        /\ HealthCheck.memory_init o config = Ok u)
  \/ (HealthCheck.status (HealthCheck.check_vector_store o) = "unavailable"
      /\ HealthCheck.error_message (HealthCheck.check_vector_store o) <> None
      /\ forall config u,
           HealthCheck.auto_config o = Ok config ->
           HealthCheck.memory_init o config <> Ok u).
Proof.
  unfold HealthCheck.check_vector_store.
  destruct (HealthCheck.auto_config o) as [config | e].
  - destruct (HealthCheck.memory_init o config) as [u | e] eqn:E.
    + left. split; [reflexivity|]. split; [reflexivity|].
      exists config, u. split; [reflexivity | exact E].
    + right. split; [reflexivity|]. split; [discriminate|].
      intros config' u H. injection H as <-. rewrite E. discriminate.
  - right. split; [reflexivity|]. split; [discriminate|].
    intros config u H. discriminate H.
Qed.

Lemma check_database_cases (o : HealthCheck.observation) :
  (HealthCheck.status (HealthCheck.check_database o) = "healthy"
   /\ HealthCheck.error_message (HealthCheck.check_database o) = None
   /\ exists config u,
        HealthCheck.auto_config o = Ok config
        /\ HealthCheck.memory_init o config = Ok u)
  \/ (HealthCheck.status (HealthCheck.check_database o) = "unavailable"
      /\ HealthCheck.error_message (HealthCheck.check_database o) <> None
      /\ forall config u,
           HealthCheck.auto_config o = Ok config ->
           HealthCheck.memory_init o config <> Ok u).
Proof.
  unfold HealthCheck.check_database.
  destruct (HealthCheck.auto_config o) as [config | e].
  - destruct (HealthCheck.memory_init o config) as [u | e] eqn:E.
    + left. split; [reflexivity|]. split; [reflexivity|].
      exists config, u. split; [reflexivity | exact E].
    + right. split; [reflexivity|]. split; [discriminate|].
      intros config' u H. injection H as <-. rewrite E. discriminate.
  - right. split; [reflexivity|]. split; [discriminate|].
    intros config u H. discriminate H.
Qed.

Lemma check_llm_cases (o : HealthCheck.observation) :
  (HealthCheck.status (HealthCheck.check_llm o) = "healthy"
   /\ HealthCheck.error_message (HealthCheck.check_llm o) = None
   /\ exists config provider,
        HealthCheck.auto_config o = Ok config
        /\ HealthCheck.llm_provider_of config = Ok provider
        /\ HealthCheck.obj_truthy provider = true)
  \/ (HealthCheck.status (HealthCheck.check_llm o) = "unavailable"
      /\ HealthCheck.error_message (HealthCheck.check_llm o) <> None
      /\ forall config provider,
           HealthCheck.auto_config o = Ok config ->
           HealthCheck.llm_provider_of config = Ok provider ->
           HealthCheck.obj_truthy provider = false).
Proof.
  unfold HealthCheck.check_llm.
  destruct (HealthCheck.auto_config o) as [config | e].
  - destruct (HealthCheck.llm_provider_of config) as [p | e] eqn:E.
    + destruct (HealthCheck.obj_truthy p) eqn:Hp; cbn [negb].
      * left. split; [reflexivity|]. split; [reflexivity|].
        exists config, p. split; [reflexivity|]. split; assumption.
      * right. split; [reflexivity|]. split; [discriminate|].
        intros config' p' H Hp'. injection H as <-. rewrite E in Hp'.
        injection Hp' as <-. exact Hp.
    + right. split; [reflexivity|]. split; [discriminate|].
      intros config' p' H Hp'. injection H as <-. rewrite E in Hp'.
      discriminate Hp'.
  - right. split; [reflexivity|]. split; [discriminate|].
    intros config p H. discriminate H.
Qed.

(** The overall status of three dependencies that are healthy or
    unavailable. *)
Lemma system_status_three (n1 n2 n3 : string)
    (d1 d2 d3 : HealthCheck.DependencyStatus) (h1 h2 h3 : bool) :
  HealthCheck.status d1 = (if h1 then "healthy" else "unavailable") ->
  HealthCheck.status d2 = (if h2 then "healthy" else "unavailable") ->
  HealthCheck.status d3 = (if h3 then "healthy" else "unavailable") ->
  SystemRoutes.system_status [(n1, d1); (n2, d2); (n3, d3)]
  = if h1 && h2 && h3 then "operational" else "down".
Proof.
  intros H1 H2 H3. unfold SystemRoutes.system_status. cbn [filter snd].
  rewrite H1, H2, H3. destruct h1, h2, h3; reflexivity.
Qed.

(** The overall status of the three checks: never ["degraded"]. *)
Lemma system_status_of_checks
    (vector_store database llm : HealthCheck.observation) :
  let dependencies :=
    HealthCheck.check_all_dependencies vector_store database llm in
  (all_healthy vector_store database llm
   <-> SystemRoutes.system_status dependencies = "operational")
  /\ (~ all_healthy vector_store database llm
      <-> SystemRoutes.system_status dependencies = "down")
  /\ (SystemRoutes.system_status dependencies = "operational"
      \/ SystemRoutes.system_status dependencies = "down").
Proof.
  intros dependencies. unfold dependencies, all_healthy.
  unfold HealthCheck.check_all_dependencies.
  pose proof (check_vector_store_cases vector_store) as Hv.
  pose proof (check_database_cases database) as Hd.
  pose proof (check_llm_cases llm) as Hl.
  set (dv := HealthCheck.check_vector_store vector_store) in *.
  set (dd := HealthCheck.check_database database) in *.
  set (dl := HealthCheck.check_llm llm) in *.
  clearbody dv dd dl.
  destruct Hv as [(Hvs & _ & Hvi) | (Hvs & _ & Hvi)].
  2:{ rewrite (system_status_three _ _ _ dv dd dl false
                 (String.eqb (HealthCheck.status dd) "healthy")
                 (String.eqb (HealthCheck.status dl) "healthy") Hvs).
      - cbn [andb]. split; [|split; [|right; reflexivity]].
        + split; [|discriminate]. intros ((c & u & H1 & H2) & _).
          exfalso. exact (Hvi c u H1 H2).
        + split; [reflexivity|]. intros _ ((c & u & H1 & H2) & _).
          exact (Hvi c u H1 H2).
      - destruct Hd as [(H & _) | (H & _)]; rewrite H; reflexivity.
      - destruct Hl as [(H & _) | (H & _)]; rewrite H; reflexivity. }
  destruct Hd as [(Hds & _ & Hdi) | (Hds & _ & Hdi)].
  2:{ rewrite (system_status_three _ _ _ dv dd dl true false
                 (String.eqb (HealthCheck.status dl) "healthy") Hvs Hds).
      - cbn [andb]. split; [|split; [|right; reflexivity]].
        + split; [|discriminate]. intros (_ & (c & u & H1 & H2) & _).
          exfalso. exact (Hdi c u H1 H2).
        + split; [reflexivity|]. intros _ (_ & (c & u & H1 & H2) & _).
          exact (Hdi c u H1 H2).
      - destruct Hl as [(H & _) | (H & _)]; rewrite H; reflexivity. }
  destruct Hl as [(Hls & _ & Hli) | (Hls & _ & Hli)].
  2:{ rewrite (system_status_three _ _ _ dv dd dl true true false Hvs Hds Hls).
      cbn [andb]. split; [|split; [|right; reflexivity]].
      - split; [|discriminate]. intros (_ & _ & (c & p & H1 & H2 & H3)).
        exfalso. rewrite (Hli c p H1 H2) in H3. discriminate H3.
      - split; [reflexivity|]. intros _ (_ & _ & (c & p & H1 & H2 & H3)).
        rewrite (Hli c p H1 H2) in H3. discriminate H3. }
  rewrite (system_status_three _ _ _ dv dd dl true true true Hvs Hds Hls).
  cbn [andb]. split; [|split; [|left; reflexivity]].
  - split; [reflexivity|]. intros _. split; [exact Hvi|]. split; assumption.
  - split; [|discriminate]. intros Hn. exfalso. apply Hn.
    split; [exact Hvi|]. split; assumption.
Qed.

Section StatusProperties.

Context {Dump : Type}.
Variable status_response : SystemRoutes.status_fields -> outcome Dump.

(** X24. Every answer of [get_status] reports success, and its status is
    one of three.  When nothing in the [try] raises, the status comes from
    the three checks: ["operational"] when every check is healthy and
    ["down"] as soon as one is not, never ["degraded"], since a check only
    ever answers ["healthy"] or ["unavailable"]; the answer then carries the
    three checks and the providers read off the configuration.  The status
    is ["degraded"] exactly when the [try] raised: the route's own
    [auto_config()], the reading of a provider, the uptime or the response
    model failed.  The answer then carries no dependency and no provider,
    and its message ends in the first hundred characters of the
    exception's text. *)
Theorem get_status_statuses (env : SystemRoutes.status_env)
    (response : SystemRoutes.api_response Dump) :
  SystemRoutes.get_status Dump status_response env = Ok response ->
  let checks :=
    HealthCheck.check_all_dependencies (SystemRoutes.vector_store_check env)
      (SystemRoutes.database_check env) (SystemRoutes.llm_check env) in
  let healthy :=
    all_healthy (SystemRoutes.vector_store_check env)
      (SystemRoutes.database_check env) (SystemRoutes.llm_check env) in
  SystemRoutes.success response = true
  /\ exists fields : SystemRoutes.status_fields,
       status_response fields = Ok (SystemRoutes.data response)
       /\ (((exists config,
               SystemRoutes.own_config env = Ok config
               /\ SystemRoutes.storage_type_of config
                  = Ok (SystemRoutes.storage_type fields)
               /\ HealthCheck.llm_provider_of config
                  = Ok (SystemRoutes.llm_provider fields))
            /\ SystemRoutes.uptime env = Ok (SystemRoutes.uptime_seconds fields)
            /\ SystemRoutes.dependencies fields = checks
            /\ SystemRoutes.message response
               = "System status retrieved successfully"
            /\ (SystemRoutes.overall fields = "operational"
                \/ SystemRoutes.overall fields = "down")
            /\ (healthy <-> SystemRoutes.overall fields = "operational")
            /\ (~ healthy <-> SystemRoutes.overall fields = "down"))
           \/ (exists (e : exn) (uptime_seconds : Q),
                 SystemRoutes.get_status_try Dump status_response env = Raise e
                 /\ (SystemRoutes.own_config env = Raise e
                     \/ exists config,
                          SystemRoutes.own_config env = Ok config
                          /\ (SystemRoutes.storage_type_of config = Raise e
                              \/ HealthCheck.llm_provider_of config = Raise e
                              \/ SystemRoutes.uptime env = Raise e
                              \/ exists main : SystemRoutes.status_fields,
                                   SystemRoutes.dependencies main = checks
                                   /\ status_response main = Raise e))
                 /\ SystemRoutes.uptime_again env = Ok uptime_seconds
                 /\ fields = SystemRoutes.mkStatusFields "degraded"
                               (HealthCheck.OValue VNone)
                               (HealthCheck.OValue VNone) uptime_seconds []
                 /\ SystemRoutes.message response
                    = ("System status retrieved with errors: "
                       ++ str_prefix 100 (exn_str e))%string)).
Proof.
  intros H checks healthy. unfold SystemRoutes.get_status in H.
  destruct (SystemRoutes.get_status_try Dump status_response env)
    as [r | e] eqn:Htry.
  - injection H as ->. unfold SystemRoutes.get_status_try in Htry.
    destruct (SystemRoutes.own_config env) as [config | e0];
      [|discriminate Htry].
    destruct (SystemRoutes.storage_type_of config) as [st | e0] eqn:Hst;
      [|discriminate Htry].
    destruct (HealthCheck.llm_provider_of config) as [lp | e0] eqn:Hlp;
      [|discriminate Htry].
    destruct (SystemRoutes.uptime env) as [up | e0]; [|discriminate Htry].
    cbv zeta in Htry. fold checks in Htry.
    destruct (status_response _) as [d | e0] eqn:Hresp; [|discriminate Htry].
    injection Htry as <-. split; [reflexivity|].
    eexists. split; [exact Hresp|]. left. cbn.
    destruct (system_status_of_checks (SystemRoutes.vector_store_check env)
                (SystemRoutes.database_check env) (SystemRoutes.llm_check env))
      as (Hop & Hdown & Hcases).
    split; [exists config; split; [reflexivity|]; split; assumption|].
    split; [reflexivity|]. split; [reflexivity|]. split; [reflexivity|].
    split; [exact Hcases|]. split; [exact Hop | exact Hdown].
  - unfold SystemRoutes.get_status_fallback in H.
    destruct (SystemRoutes.uptime_again env) as [up | e0]; [|discriminate H].
    destruct (status_response _) as [d | e0] eqn:Hresp; [|discriminate H].
    injection H as <-. split; [reflexivity|].
    eexists. split; [exact Hresp|]. right. exists e, up.
    split; [reflexivity|]. split; [|repeat split].
    unfold SystemRoutes.get_status_try in Htry.
    destruct (SystemRoutes.own_config env) as [config | e0];
      [|injection Htry as ->; left; reflexivity].
    right. exists config. split; [reflexivity|].
    destruct (SystemRoutes.storage_type_of config) as [st | e0];
      [|injection Htry as ->; left; reflexivity].
    destruct (HealthCheck.llm_provider_of config) as [lp | e0];
      [|injection Htry as ->; right; left; reflexivity].
    destruct (SystemRoutes.uptime env) as [up0 | e0];
      [|injection Htry as ->; right; right; left; reflexivity].
    cbv zeta in Htry.
    destruct (status_response _) as [d0 | e0] eqn:Hmain in Htry;
      [discriminate Htry|].
    injection Htry as ->. right. right. right.
    eexists. split; [|exact Hmain]. reflexivity.
Qed.

End StatusProperties.

(** * More concrete runs *)

(** [get_memory] of an identifier the store does not know. *)
Lemma get_memory_outcomes_run :
  fst (get_memory Demo.list_store Demo.builtins (VInt 9) VNone VNone
         (Demo.world0 [Demo.tea]))
  = Raise (APIError MEMORY_NOT_FOUND "Memory 9 not found" 404).
Proof.
  exact (get_memory_outcomes Demo.list_store Demo.builtins (VInt 9) VNone
           VNone (Demo.world0 [Demo.tea])).
Defined.

(** [update_memory] of the tea record with neither content nor metadata
    raises its own wrapping error. *)
Lemma service_raises_api_errors_run :
  fetch_error
    (APIError MEMORY_UPDATE_FAILED
       "Failed to update memory: At least one of content or metadata must be provided"
       500)
  \/ wrapped_as MEMORY_UPDATE_FAILED "Failed to update memory: "
       (APIError MEMORY_UPDATE_FAILED
          "Failed to update memory: At least one of content or metadata must be provided"
          500).
Proof.
  exact (proj1 (proj2 (proj2 (proj2
           (service_raises_api_errors Demo.list_store Demo.builtins
              VNone (VInt 1) VNone VNone VNone VNone VNone VNone VNone
              (VInt 100) (VInt 0) VNone VNone true None
              (Demo.world0 [Demo.tea])))))).
Defined.

(** [get_statistics] without a cutoff hands on the store's statistics. *)
Lemma get_statistics_raises_unwrapped_run :
  get_statistics Demo.list_store Demo.builtins Demo.now_us VNone VNone None
    (Demo.world0 [Demo.tea])
  = (Ok (VDict []), mkWorld [Demo.tea] [GetStatistics VNone VNone]).
Proof.
  rewrite (proj2 (get_statistics_raises_unwrapped Demo.list_store
                    Demo.builtins Demo.now_us VNone VNone None
                    (Demo.world0 [Demo.tea]))).
  reflexivity.
Defined.

(** A record without content comes back from [get_memory] with the text of
    the raw payload as its content. *)
Lemma get_memory_content_from_payload_run :
  exists d',
    get_memory Fixtures.payload_store Demo.builtins (VInt 7) VNone VNone
      (Demo.world0 [])
    = (Ok (VDict d'), mkWorld [] [Get (VInt 7) VNone VNone; VectorStoreGet (VInt 7)])
    /\ dict_get d' (VStr "content") = Some (VStr "raw text")
    /\ dict_get d' (VStr "id") = Some (VInt 7).
Proof.
  destruct (get_memory_content_from_payload Fixtures.payload_store
              Demo.builtins (VInt 7) VNone VNone (VStr "raw text")
              [(VStr "id", VInt 7); (VStr "metadata", VDict [])]
              [(VStr "data", VStr "raw text")] (Demo.world0 []) [] []
              eq_refl eq_refl eq_refl eq_refl eq_refl)
    as (d' & Hrun & Hcontent & Hother).
  exists d'. split; [exact Hrun|]. split; [exact Hcontent|].
  rewrite Hother; reflexivity.
Defined.

(** The tea record, which has content, comes back as it is. *)
Lemma get_memory_keeps_other_fields_run :
  exists d' w',
    get_memory Demo.list_store Demo.builtins (VInt 1) VNone VNone
      (Demo.world0 [Demo.tea])
    = (Ok (VDict d'), w')
    /\ d' = Demo.tea_fields
    /\ w' = mkWorld [Demo.tea] [Get (VInt 1) VNone VNone].
Proof.
  destruct (get_memory_keeps_other_fields Demo.list_store Demo.builtins
              (VInt 1) VNone VNone Demo.tea_fields (Demo.world0 [Demo.tea])
              [Demo.tea] eq_refl)
    as (d' & w' & Hrun & _ & Hsame).
  exists d', w'. split; [exact Hrun|]. apply Hsame. reflexivity.
Defined.

(** [delete_memory] of an identifier the store does not know: the error of
    the fetch, and no delete; and of the tea record. *)
Lemma delete_memory_outcomes_run :
  delete_memory Demo.list_store Demo.builtins (VInt 9) VNone VNone
    (Demo.world0 [Demo.tea])
  = (Raise (APIError MEMORY_NOT_FOUND "Memory 9 not found" 404),
     mkWorld [Demo.tea] [Get (VInt 9) VNone VNone])
  /\ delete_memory Demo.list_store Demo.builtins (VInt 1) VNone VNone
       (Demo.world0 [Demo.tea])
     = (Ok (VBool true),
        mkWorld [] [Get (VInt 1) VNone VNone; Delete (VInt 1) VNone VNone]).
Proof.
  split.
  - pose proof (delete_memory_outcomes Demo.list_store Demo.builtins (VInt 9)
                  VNone VNone (Demo.world0 [Demo.tea])) as H.
    assert (G : get_memory Demo.list_store Demo.builtins (VInt 9) VNone VNone
                  (Demo.world0 [Demo.tea])
                = (Raise (APIError MEMORY_NOT_FOUND "Memory 9 not found" 404),
                   mkWorld [Demo.tea] [Get (VInt 9) VNone VNone]))
      by reflexivity.
    rewrite G in H. exact (proj1 H).
  - pose proof (delete_memory_outcomes Demo.list_store Demo.builtins (VInt 1)
                  VNone VNone (Demo.world0 [Demo.tea])) as H.
    assert (G : get_memory Demo.list_store Demo.builtins (VInt 1) VNone VNone
                  (Demo.world0 [Demo.tea])
                = (Ok Demo.tea, mkWorld [Demo.tea] [Get (VInt 1) VNone VNone]))
      by reflexivity.
    rewrite G in H. exact H.
Defined.


(** [create_memory] against a store that answers with two entries, one of
    them without identifier: one record comes back, the one fetched under
    the identifier 7. *)
Lemma create_memory_one_record_per_identifier_run :
  exists ms w',
    create_memory Fixtures.payload_store Demo.builtins (VStr "black tea")
      VNone VNone VNone VNone VNone VNone VNone true (Demo.world0 [])
    = (Ok (VList ms), w')
    /\ ms = [ VDict [ (VStr "id", VInt 7); (VStr "metadata", VDict []);
                      (VStr "content", VStr "raw text") ] ].
Proof.
  destruct (create_memory_one_record_per_identifier Fixtures.payload_store
              Demo.builtins (VStr "black tea") VNone VNone VNone VNone VNone
              VNone VNone true (Demo.world0 [])
              (VDict [(VStr "results",
                       VList [ VDict [ (VStr "id", VInt 7);
                                       (VStr "memory", VStr "black tea");
                                       (VStr "created_at", VStr "2024-01-01") ];
                               VDict [ (VStr "event", VStr "NONE") ] ])])
              [ VDict [ (VStr "id", VInt 7);
                        (VStr "memory", VStr "black tea");
                        (VStr "created_at", VStr "2024-01-01") ];
                VDict [ (VStr "event", VStr "NONE") ] ]
              [] eq_refl eq_refl ltac:(repeat constructor))
    as (ms & w' & Hrun & Hrec & _ & _).
  exists ms, w'. split; [exact Hrun|].
  destruct ms as [|m ms]; [contradiction Hrec|].
  destruct Hrec as [Hm [-> _]]. vm_compute in Hm. rewrite Hm. reflexivity.
Defined.

(** The fallback record for an entry with a timestamp and no metadata. *)
Lemma fallback_record_fields_run :
  exists r : dict,
    fallback_memory
      (VDict [ (VStr "id", VInt 7); (VStr "memory", VStr "black tea");
               (VStr "created_at", VStr "2024-01-01") ])
      (VInt 7) (VStr "tea, black") (VStr "ann") VNone VNone VNone
      (Demo.world0 [])
    = (Ok (VDict r), Demo.world0 [])
    /\ dict_get r (VStr "content") = Some (VStr "black tea")
    /\ dict_get r (VStr "user_id") = Some (VStr "ann")
    /\ dict_get r (VStr "metadata") = Some (VDict [])
    /\ dict_get r (VStr "created_at") = Some (VStr "2024-01-01")
    /\ dict_get r (VStr "updated_at") = None.
Proof.
  destruct (fallback_record_fields
              [ (VStr "id", VInt 7); (VStr "memory", VStr "black tea");
                (VStr "created_at", VStr "2024-01-01") ]
              (VInt 7) (VStr "tea, black") (VStr "ann") VNone VNone VNone
              (Demo.world0 []))
    as (r & md & Hrun & _ & _ & Hc & Hu & _ & _ & Hm & _ & Hnone & _ & Hca
        & Hua).
  exists r. split; [exact Hrun|]. split; [exact Hc|]. split; [exact Hu|].
  split; [rewrite Hm, (Hnone eq_refl); reflexivity|].
  split; [exact Hca | exact Hua].
Defined.

(** A batch of three items, the last two without content: the store ends
    up as after a batch of the first item alone. *)
Lemma batch_create_skips_items_without_content_run :
  snd (batch_create_memories Demo.list_store
         [ VDict [(VStr "content", VStr "black tea")] ]
         VNone VNone VNone true (Demo.world0 [Demo.tea]))
  = snd (batch_create_memories Demo.list_store
           [ VDict [(VStr "content", VStr "black tea")];
             VDict [(VStr "content", VStr "")];
             VDict [(VStr "metadata", VDict [])] ]
           VNone VNone VNone true (Demo.world0 [Demo.tea])).
Proof.
  apply (proj2 (batch_create_skips_items_without_content Demo.list_store
                  VNone VNone VNone true
                  [ VDict [(VStr "content", VStr "black tea")];
                    VDict [(VStr "content", VStr "")];
                    VDict [(VStr "metadata", VDict [])] ]
                  (Demo.world0 [Demo.tea]) ltac:(repeat constructor))).
Defined.

(** A batch of three updates, the last two not valid: the store ends up as
    after a batch of the first alone. *)
Lemma batch_update_validates_before_fetch_run :
  snd (batch_update_memories Demo.list_store Demo.builtins
         [ VDict [(VStr "memory_id", VInt 1); (VStr "content", VStr "black tea")] ]
         VNone VNone (Demo.world0 [Demo.tea]))
  = snd (batch_update_memories Demo.list_store Demo.builtins
           [ VDict [(VStr "memory_id", VInt 1);
                    (VStr "content", VStr "black tea")];
             VDict [(VStr "content", VStr "x")];
             VDict [(VStr "memory_id", VInt 1)] ]
           VNone VNone (Demo.world0 [Demo.tea])).
Proof.
  apply (proj2 (batch_update_validates_before_fetch Demo.list_store
                  Demo.builtins VNone VNone
                  [ VDict [(VStr "memory_id", VInt 1);
                           (VStr "content", VStr "black tea")];
                    VDict [(VStr "content", VStr "x")];
                    VDict [(VStr "memory_id", VInt 1)] ]
                  (Demo.world0 [Demo.tea]) ltac:(repeat constructor))).
Defined.

(** A batch of three items, of which the second fails. *)
Lemma batch_lists_in_input_order_run :
  exists created failed ixs jxs w',
    batch_create_memories Demo.list_store
      [ VDict [(VStr "content", VStr "black tea")];
        VDict [(VStr "content", VStr "")];
        VDict [(VStr "content", VStr "oat milk")] ]
      VNone VNone VNone true (Demo.world0 [Demo.tea])
    = (Ok (batch_result "created" created failed 3), w')
    /\ carries_indexes created ixs /\ carries_indexes failed jxs
    /\ StronglySorted lt ixs /\ StronglySorted lt jxs.
Proof.
  apply (proj1 (batch_lists_in_input_order Demo.list_store Demo.builtins
                  VNone VNone VNone true (Demo.world0 [Demo.tea]))
           [ VDict [(VStr "content", VStr "black tea")];
             VDict [(VStr "content", VStr "")];
             VDict [(VStr "content", VStr "oat milk")] ]).
  repeat constructor.
Defined.

(** The identifier of a created memory is read off the first entry of the
    store's answer. *)
Lemma batch_create_identifier_precedence_run :
  batch_create_item Demo.list_store VNone VNone VNone true 0
    (VDict [(VStr "content", VStr "black tea")]) (Demo.world0 [Demo.tea])
  = (Ok (VDict [ (VStr "index", VInt 0); (VStr "memory_id", VInt 2);
                 (VStr "content", VStr "black tea") ]),
     mkWorld
       [ Demo.tea;
         VDict [ (VStr "id", VInt 2); (VStr "content", VStr "black tea");
                 (VStr "metadata", VDict []) ] ]
       [Add (VStr "black tea") VNone VNone VNone VNone VNone VNone VNone true]).
Proof.
  apply (proj1 (batch_create_identifier_precedence Demo.list_store
                  VNone VNone VNone true 0%nat
                  [(VStr "content", VStr "black tea")]
                  [(VStr "results",
                    VList [VDict [ (VStr "id", VInt 2);
                                   (VStr "memory", VStr "black tea") ]])]
                  (Demo.world0 [Demo.tea])
                  [ Demo.tea;
                    VDict [ (VStr "id", VInt 2);
                            (VStr "content", VStr "black tea");
                            (VStr "metadata", VDict []) ] ]
                  eq_refl eq_refl)
           [ (VStr "id", VInt 2); (VStr "memory", VStr "black tea") ] []).
  reflexivity.
Defined.

(** The ranking of three records, two of which have been read. *)
Lemma top_accessed_ranked_run :
  exists (snapshot : value) (top : list value),
    _calculate_stats_from_memories Demo.builtins Demo.now_us
      [Fixtures.seen_once; Demo.milk; Fixtures.popular] (Demo.world0 [])
    = (Ok snapshot, Demo.world0 [])
    /\ field snapshot "top_accessed" = VList top
    /\ map (fun e => field e "id") top = [VInt 4; VInt 6]
    /\ exists ranked : list (Q * value),
         top = map snd (firstn 10 ranked)
         /\ Permutation ranked
              [access_entry Fixtures.seen_once; access_entry Fixtures.popular]
         /\ StronglySorted (fun a b => (fst b <= fst a)%Q) ranked.
Proof.
  set (run := _calculate_stats_from_memories Demo.builtins Demo.now_us
                [Fixtures.seen_once; Demo.milk; Fixtures.popular]
                (Demo.world0 [])).
  set (snapshot := match fst run with Ok s => s | Raise _ => VNone end).
  assert (Hrun : run = (Ok snapshot, Demo.world0 []))
    by (vm_compute; reflexivity).
  destruct (top_accessed_ranked Demo.builtins Demo.now_us
              [Fixtures.seen_once; Demo.milk; Fixtures.popular] snapshot
              (Demo.world0 []) (Demo.world0 []) Hrun)
    as (ranked & Htop & Hperm & Hsorted & _).
  remember (map snd (firstn 10 ranked)) as top eqn:Etop.
  exists snapshot, top.
  split; [exact Hrun|]. split; [exact Htop|]. split.
  - vm_compute in Htop. injection Htop as <-. reflexivity.
  - exists ranked. split; [exact Etop|]. split; [exact Hperm | exact Hsorted].
Defined.

(** The counters of the snapshot over the same three records, one of them
    dated. *)
Lemma snapshot_counts_add_up_run :
  exists (snapshot : value) (by_type growth_trend age_distribution : dict),
    _calculate_stats_from_memories Demo.builtins Demo.now_us
      [Fixtures.seen_once; Demo.milk; Fixtures.popular] (Demo.world0 [])
    = (Ok snapshot, Demo.world0 [])
    /\ field snapshot "by_type" = VDict by_type
    /\ field snapshot "growth_trend" = VDict growth_trend
    /\ field snapshot "age_distribution" = VDict age_distribution
    /\ dict_total by_type = 3
    /\ dict_total growth_trend = 1
    /\ dict_total age_distribution = 1.
Proof.
  set (run := _calculate_stats_from_memories Demo.builtins Demo.now_us
                [Fixtures.seen_once; Demo.milk; Fixtures.popular]
                (Demo.world0 [])).
  set (snapshot := match fst run with Ok s => s | Raise _ => VNone end).
  assert (Hrun : run = (Ok snapshot, Demo.world0 []))
    by (vm_compute; reflexivity).
  destruct (snapshot_counts_add_up Demo.builtins Demo.now_us
              [Fixtures.seen_once; Demo.milk; Fixtures.popular] snapshot
              (Demo.world0 []) (Demo.world0 []) Hrun)
    as (bt & gt & ad & _ & Hbt & Hgt & Had & Hb & Hg & Ha & _).
  exists snapshot, bt, gt, ad. split; [exact Hrun|].
  split; [exact Hbt|]. split; [exact Hgt|]. split; [exact Had|].
  split; [exact Hb|]. split; [exact Hg | exact Ha].
Defined.

(** A quality report with a cutoff that keeps the tea record out: it has
    no date. *)
Lemma analyze_memory_quality_scope_run :
  analyze_memory_quality Demo.list_store Demo.builtins VNone VNone
    (Some Demo.naive_cutoff) (Demo.world0 [Demo.tea])
  = (Ok (quality_report_of Demo.builtins []),
     mkWorld [Demo.tea]
       [GetAll VNone VNone (VInt 10000) (Some (VInt 0)) None None]).
Proof.
  destruct (proj1 (analyze_memory_quality_scope Demo.list_store Demo.builtins
                     VNone VNone (Some Demo.naive_cutoff)
                     (Demo.world0 [Demo.tea])
                     (VDict [(VStr "results", VList [Demo.tea])])
                     [Demo.tea] [Demo.tea] eq_refl eq_refl)
              (quality_report_of Demo.builtins [])
              (mkWorld [Demo.tea]
                 [GetAll VNone VNone (VInt 10000) (Some (VInt 0)) None None])
              eq_refl) as [_ _].
  reflexivity.
Defined.

(** The counters of the report over the stub record and the tea record. *)
Lemma quality_counters_consistent_run :
  exists total low_quality_count missing empty low : Z,
    total = 2 /\ low_quality_count = 1
    /\ low_quality_count <= missing + empty + low
    /\ 0 <= missing <= total /\ 0 <= empty <= total /\ 0 <= low <= total.
Proof.
  destruct (quality_counters_consistent Demo.list_store Demo.builtins VNone
              VNone None
              (quality_report_of Demo.builtins [Demo.stub; Demo.tea])
              (Demo.world0 [Demo.stub; Demo.tea])
              (mkWorld [Demo.stub; Demo.tea]
                 [GetAll VNone VNone (VInt 10000) (Some (VInt 0)) None None])
              eq_refl)
    as (total & lq & Ht & Hlq & _ & _ & _ & Hpos).
  vm_compute in Ht. injection Ht as <-.
  vm_compute in Hlq. injection Hlq as <-.
  destruct (Hpos eq_refl) as (mm & ec & li & _ & Hm & He & Hl & Hsum & _).
  exists 2, 1, mm, ec, li. repeat split; try assumption; lia.
Defined.

(** An import of a list of the tea record and a number, and of an empty
    JSON object. *)
Lemma import_from_json_keeps_dicts_run :
  import_from_json Fixtures.json_loads "[tea, 7]"
  = Ok [ VDict [ (VStr "id", VInt 1);
                 (VStr "content", VStr "green tea");
                 (VStr "role", VStr "user");
                 (VStr "metadata", VDict [(VStr "a", VInt 1)]);
                 (VStr "created_at", VNone);
                 (VStr "updated_at", VNone) ] ]
  /\ import_from_json Fixtures.json_loads "{}" = Ok [].
Proof.
  split.
  - exact (proj1 (import_from_json_keeps_dicts Fixtures.json_loads "[tea, 7]")).
  - apply (import_from_json_keeps_dicts Fixtures.json_loads "{}").
    constructor.
Defined.

(** The import of what an import returned. *)
Lemma import_from_json_idempotent_run :
  import_from_json Fixtures.json_loads "[cleaned tea]"
  = import_from_json Fixtures.json_loads "[tea, 7]".
Proof.
  rewrite (import_from_json_idempotent Fixtures.json_loads "[tea, 7]"
             "[cleaned tea]"
             [ VDict [ (VStr "id", VInt 1);
                       (VStr "content", VStr "green tea");
                       (VStr "role", VStr "user");
                       (VStr "metadata", VDict [(VStr "a", VInt 1)]);
                       (VStr "created_at", VNone);
                       (VStr "updated_at", VNone) ] ]
             eq_refl eq_refl).
  reflexivity.
Defined.

(** An import of two rows, the second with metadata that is not JSON, and
    of a blank text. *)
Lemma import_from_csv_all_or_nothing_run :
  import_from_csv Fixtures.json_loads Fixtures.csv_rows "id,content,metadata"
  = Raise (PyExc ValueError "Expecting value")
  /\ import_from_csv Fixtures.json_loads Fixtures.csv_rows "  " = Ok [].
Proof.
  split.
  - apply (proj2 (proj2 (import_from_csv_all_or_nothing Fixtures.json_loads
                           Fixtures.csv_rows "id,content,metadata")
                    ltac:(discriminate))
             [ [ (VStr "id", VStr "1"); (VStr "content", VStr "green tea");
                 (VStr "metadata", VStr "{}") ] ]
             [ (VStr "id", VStr "2"); (VStr "content", VStr "oat milk");
               (VStr "metadata", VStr "oops") ] []).
    + reflexivity.
    + repeat constructor. eexists. reflexivity.
    + reflexivity.
  - apply (proj1 (import_from_csv_all_or_nothing Fixtures.json_loads
                    Fixtures.csv_rows "  ")).
    reflexivity.
Defined.

(** A check whose configuration cannot be loaded reports the short message
    whole. *)
Lemma health_check_error_message_bounded_run :
  HealthCheck.error_message (HealthCheck.check_llm Fixtures.no_config)
  = Some "no configuration found".
Proof.
  destruct (proj2 (health_check_error_message_bounded Fixtures.no_config)
              (PyExc (OtherException "RuntimeError") "no configuration found")
              eq_refl) as (_ & _ & Hl & Hshort & _).
  rewrite Hl, Hshort; [reflexivity | simpl; lia].
Defined.

(** The status of a server whose store is out of reach is ["down"], with
    the three checks in the answer. *)
Lemma get_status_statuses_run :
  exists response,
    SystemRoutes.get_status _ Fixtures.plain_response
      Fixtures.store_out_of_reach = Ok response
    /\ SystemRoutes.overall (SystemRoutes.data response) = "down"
    /\ map fst (SystemRoutes.dependencies (SystemRoutes.data response))
       = ["vector_store"; "database"; "llm"]
    /\ ~ all_healthy
           (SystemRoutes.vector_store_check Fixtures.store_out_of_reach)
           (SystemRoutes.database_check Fixtures.store_out_of_reach)
           (SystemRoutes.llm_check Fixtures.store_out_of_reach).
Proof.
  eexists. split; [reflexivity|]. split; [reflexivity|].
  split; [reflexivity|].
  destruct (get_status_statuses Fixtures.plain_response
              Fixtures.store_out_of_reach _ eq_refl)
    as (_ & fields & Hresp & [Hmain | (e & up & Htry & _)]);
    [|discriminate Htry].
  destruct Hmain as (_ & _ & _ & _ & _ & _ & Hdown).
  apply Hdown. injection Hresp as ->. reflexivity.
Defined.

(** With no configuration to load the route answers ["degraded"], without
    running a check. *)
Lemma get_status_without_configuration :
  SystemRoutes.get_status _ Fixtures.plain_response
    Fixtures.configuration_missing
  = Ok (SystemRoutes.mkAPIResponse true
          (SystemRoutes.mkStatusFields "degraded" (HealthCheck.OValue VNone)
             (HealthCheck.OValue VNone) 3600%Q [])
          "System status retrieved with errors: no configuration found").
Proof. reflexivity. Qed.

(** Statistics with a cutoff in UTC over a store whose one record has no
    date: the comparison fails. *)
Lemma get_statistics_cutoff_needs_comparable_dates_run :
  get_statistics Demo.list_store Demo.builtins Demo.now_us VNone VNone
    (Some Demo.utc_cutoff) (Demo.world0 [Demo.milk])
  = (Raise (PyExc TypeError
              "can't compare offset-naive and offset-aware datetimes"),
     mkWorld [Demo.milk]
       [GetStatistics VNone VNone;
        GetAll VNone VNone (VInt 10000) None None None]).
Proof.
  apply (proj1 (proj2 (get_statistics_cutoff_needs_comparable_dates
                         Demo.list_store Demo.builtins Demo.now_us VNone VNone
                         Demo.utc_cutoff (Demo.world0 [Demo.milk]) (VDict [])
                         (VDict [(VStr "results", VList [Demo.milk])])
                         [Demo.milk] [Demo.milk] [Demo.milk]
                         eq_refl eq_refl eq_refl))).
  - repeat constructor.
  - constructor. reflexivity.
Defined.

(** A quality report with a cutoff in UTC over a store whose one record
    has no date: the comparison fails, and the failure is wrapped. *)
Lemma analyze_memory_quality_cutoff_needs_comparable_dates_run :
  analyze_memory_quality Demo.list_store Demo.builtins VNone VNone
    (Some Demo.utc_cutoff) (Demo.world0 [Demo.milk])
  = (Raise (APIError INTERNAL_ERROR
              "Failed to analyze memory quality: can't compare offset-naive and offset-aware datetimes"
              500),
     mkWorld [Demo.milk]
       [GetAll VNone VNone (VInt 10000) (Some (VInt 0)) None None]).
Proof.
  apply (proj2 (analyze_memory_quality_cutoff_needs_comparable_dates
                  Demo.list_store Demo.builtins VNone VNone Demo.utc_cutoff
                  (Demo.world0 [Demo.milk])
                  (VDict [(VStr "results", VList [Demo.milk])])
                  [Demo.milk] [Demo.milk] eq_refl eq_refl)).
  - repeat constructor.
  - constructor. reflexivity.
Defined.
